(** * dkb2homebank: format detection and record projection

    A shallow embedding of [dkb2homebank.py] and of the parts of the Python
    standard library it calls ([str] methods, the text layer of [open], the
    [csv] module, [datetime.strptime]/[strftime]), followed by the properties
    of the conversion pipeline.

    Python strings are sequences of Unicode code points; they are modelled
    as lists of code points.  Library behaviour follows CPython 3.11.  Three
    things that vary between installations are kept as parameters: the size
    of the read buffer behind a text file; whether [strftime] zero-fills the
    year of [%Y] (CPython 3.11 hands [%Y] to the C library, and that of
    Linux prints the year as it is, [99] for the year 99; the documentation
    of Python and later releases have [0099]); and the two guessing
    heuristics of [csv.Sniffer].  The input file is given by its bytes.
    Whether the output file can be opened is a matter of the file system:
    the module [output] takes its answer as a further parameter. *)

From Stdlib Require Import Strings.String Strings.Ascii Strings.Byte.
From Stdlib Require Import NArith ZArith Bool Lia Arith List.
Import ListNotations.

(** ** Python strings *)

Definition char := N.
Definition str := list char.

(** Exceptions raised by the program and by the library calls it makes.
    [InvalidInputException] is the class the source declares; [OSError] is
    what [open] raises where the file system refuses. *)
Inductive exception : Type :=
| ValueError (msg : string)
| TypeError (msg : string)
| AttributeError (msg : string)
| KeyError (key : str)
| UnicodeDecodeError
| csv_Error (msg : string)
| InvalidInputException (message : string)
| OSError (msg : string).

Inductive result (A : Type) : Type :=
| Ok (a : A)
| Raise (e : exception).
Arguments Ok {A} a.
Arguments Raise {A} e.

Definition bind {A B} (r : result A) (k : A -> result B) : result B :=
  match r with
  | Ok a => k a
  | Raise e => Raise e
  end.

Declare Scope py_scope.
Delimit Scope py_scope with py.
Notation "x <- r ;; k" := (bind r (fun x => k))
  (at level 61, r at next level, right associativity) : py_scope.
Open Scope py_scope.

Module Str.

Definition eqb (a b : str) : bool :=
  (fix go (a b : str) : bool :=
     match a, b with
     | [], [] => true
     | x :: a', y :: b' => N.eqb x y && go a' b'
     | _, _ => false
     end) a b.

(** [s.startswith(prefix)] *)
Fixpoint startswith (s prefix : str) {struct prefix} : bool :=
  match prefix with
  | [] => true
  | p :: prefix' =>
      match s with
      | [] => false
      | c :: s' => N.eqb c p && startswith s' prefix'
      end
  end.

(** [sub in s] *)
Fixpoint contains (sub s : str) : bool :=
  startswith s sub ||
  match s with
  | [] => false
  | _ :: s' => contains sub s'
  end.

(** [s.replace(old, new)] for a non-empty [old]: occurrences are replaced
    from left to right without overlap.  [skip] counts the characters of
    an occurrence that are still to be dropped. *)
Fixpoint replace_from (skip : nat) (s old new : str) : str :=
  match s with
  | [] => []
  | c :: s' =>
      match skip with
      | S k => replace_from k s' old new
      | O =>
          if startswith s old
          then new ++ replace_from (length old - 1) s' old new
          else c :: replace_from 0 s' old new
      end
  end.

Definition replace (s old new : str) : str := replace_from 0 s old new.

(** [Py_UNICODE_ISSPACE]: the characters [str.strip()] removes. *)
Definition isspace (c : char) : bool :=
  ((9 <=? c) && (c <=? 13) || (28 <=? c) && (c <=? 32)
   || (c =? 133) || (c =? 160) || (c =? 5760)
   || (8192 <=? c) && (c <=? 8202)
   || (c =? 8232) || (c =? 8233) || (c =? 8239) || (c =? 8287)
   || (c =? 12288))%N.

Fixpoint lstrip (s : str) : str :=
  match s with
  | [] => []
  | c :: s' => if isspace c then lstrip s' else s
  end.

Definition rstrip (s : str) : str := rev (lstrip (rev s)).

(** [s.strip()]: the left index moves right over white space, then the
    right index moves left. *)
Definition strip (s : str) : str := rstrip (lstrip s).

(** [sep.join(parts)] *)
Fixpoint join (sep : str) (parts : list str) : str :=
  match parts with
  | [] => []
  | [p] => p
  | p :: rest => p ++ sep ++ join sep rest
  end.

(** Decimal digits of a natural number, most significant first.  A number
    has no more decimal digits than binary ones, which bounds the loop. *)
Definition digit (d : N) : char := (48 + d)%N.

Fixpoint decimal_fuel (fuel : nat) (n : N) (acc : str) : str :=
  match fuel with
  | O => acc
  | S fuel' =>
      let acc' := digit (n mod 10) :: acc in
      if (n <? 10)%N then acc' else decimal_fuel fuel' (n / 10)%N acc'
  end.

Definition decimal (n : N) : str := decimal_fuel (S (N.to_nat (N.log2 n))) n [].

(** [str(i)] for an [int]. *)
Definition of_int (z : Z) : str :=
  match z with
  | Zneg p => 45%N :: decimal (Npos p)
  | _ => decimal (Z.to_N z)
  end.

(** [n] written with at least [width] digits, zero-filled. *)
Definition zfill (width : nat) (s : str) : str :=
  repeat 48%N (width - length s) ++ s.

End Str.

(** ** Codecs and the text layer of [open] *)

Module codecs.

Inductive encoding : Type := utf_8_sig | iso_8859_1.

Definition bytes := list byte.

Definition continuation (b : N) : bool := ((128 <=? b) && (b <=? 191))%N.

(** At the end of the input an unfinished sequence is an error; in the
    middle of a file it is kept back until the next chunk arrives. *)
Definition unfinished (final : bool) : result str :=
  if final then Raise UnicodeDecodeError else Ok [].

(** Second byte of a three- or four-byte sequence: the ranges exclude
    overlong forms, surrogates and code points above U+10FFFF. *)
Definition second_ok (b0 b1 : N) : bool :=
  (if b0 =? 224 then (160 <=? b1) && (b1 <=? 191)
   else if b0 =? 237 then (128 <=? b1) && (b1 <=? 159)
   else if b0 =? 240 then (144 <=? b1) && (b1 <=? 191)
   else if b0 =? 244 then (128 <=? b1) && (b1 <=? 143)
   else continuation b1)%N.

Fixpoint utf_8_decode (final : bool) (bs : list N) : result str :=
  match bs with
  | [] => Ok []
  | b0 :: r0 =>
      if (b0 <? 128)%N then
        t <- utf_8_decode final r0 ;; Ok (b0 :: t)
      else if ((194 <=? b0) && (b0 <=? 223))%N then
        match r0 with
        | [] => unfinished final
        | b1 :: r1 =>
            if continuation b1 then
              t <- utf_8_decode final r1 ;;
              Ok (((b0 - 192) * 64 + (b1 - 128))%N :: t)
            else Raise UnicodeDecodeError
        end
      else if ((224 <=? b0) && (b0 <=? 239))%N then
        match r0 with
        | [] => unfinished final
        | b1 :: r1 =>
            if second_ok b0 b1 then
              match r1 with
              | [] => unfinished final
              | b2 :: r2 =>
                  if continuation b2 then
                    t <- utf_8_decode final r2 ;;
                    Ok ((((b0 - 224) * 64 + (b1 - 128)) * 64 + (b2 - 128))%N :: t)
                  else Raise UnicodeDecodeError
              end
            else Raise UnicodeDecodeError
        end
      else if ((240 <=? b0) && (b0 <=? 244))%N then
        match r0 with
        | [] => unfinished final
        | b1 :: r1 =>
            if second_ok b0 b1 then
              match r1 with
              | [] => unfinished final
              | b2 :: r2 =>
                  if continuation b2 then
                    match r2 with
                    | [] => unfinished final
                    | b3 :: r3 =>
                        if continuation b3 then
                          t <- utf_8_decode final r3 ;;
                          Ok (((((b0 - 240) * 64 + (b1 - 128)) * 64
                                + (b2 - 128)) * 64 + (b3 - 128))%N :: t)
                        else Raise UnicodeDecodeError
                    end
                  else Raise UnicodeDecodeError
              end
            else Raise UnicodeDecodeError
        end
      else Raise UnicodeDecodeError
  end.

Definition BOM_UTF8 : list N := [239; 187; 191]%N.

(** [utf-8-sig]: a leading byte-order mark is dropped; fewer than three
    bytes that could still begin one decode to nothing. *)
Definition utf_8_sig_decode (final : bool) (bs : list N) : result str :=
  if (length bs <? 3)%nat then
    if Str.startswith BOM_UTF8 bs then Ok [] else utf_8_decode final bs
  else if Str.eqb (firstn 3 bs) BOM_UTF8 then utf_8_decode final (skipn 3 bs)
  else utf_8_decode final bs.

(** [iso-8859-1]: every byte is the code point of the same number. *)
Definition latin_1_decode (bs : list N) : result str := Ok bs.

Definition decode (enc : encoding) (final : bool) (input : bytes) : result str :=
  match enc with
  | utf_8_sig => utf_8_sig_decode final (map Byte.to_N input)
  | iso_8859_1 => latin_1_decode (map Byte.to_N input)
  end.

End codecs.

(** A string literal of the source, written in UTF-8 in this file. *)
Definition u8 (s : string) : str :=
  match codecs.utf_8_decode true (map Byte.to_N (list_byte_of_string s)) with
  | Ok t => t
  | Raise _ => []
  end.

Module io.
Import codecs.

(** The bytes of a file as the buffered reader hands them out: pieces of
    at most [size] bytes. *)
Fixpoint chunks_from (size room : nat) (cur : bytes) (data : bytes) : list bytes :=
  match data with
  | [] => match cur with [] => [] | _ => [rev cur] end
  | b :: data' =>
      match room with
      | O => rev cur :: chunks_from size (size - 1) [b] data'
      | S room' => chunks_from size room' (b :: cur) data'
      end
  end.

Definition chunks (size : positive) (data : bytes) : list bytes :=
  chunks_from (Pos.to_nat size) (Pos.to_nat size) [] data.

(** Universal newlines: [\r\n] and [\r] become [\n]; a [\r] at the end of
    what has been decoded so far waits for the next chunk. *)
Fixpoint translate (final : bool) (t : str) : str :=
  match t with
  | [] => []
  | c :: t' =>
      if (c =? 13)%N then
        match t' with
        | [] => if final then [10%N] else []
        | c' :: t'' =>
            if (c' =? 10)%N then 10%N :: translate final t''
            else 10%N :: translate final t'
        end
      else c :: translate final t'
  end.

(** Read and decode chunk after chunk until [enough] text is there or the
    file ends; the text decoded so far is returned. *)
Fixpoint pump (enc : encoding) (enough : str -> bool)
         (seen : bytes) (pending : list bytes) : result str :=
  match pending with
  | [] => t <- decode enc true seen ;; Ok (translate true t)
  | c :: pending' =>
      t <- decode enc false (seen ++ c) ;;
      let t' := translate false t in
      if enough t' then Ok t' else pump enc enough (seen ++ c) pending'
  end.

Definition has_newline (t : str) : bool := existsb (N.eqb 10) t.

Fixpoint first_line (t : str) : str :=
  match t with
  | [] => []
  | c :: t' => if (c =? 10)%N then [c] else c :: first_line t'
  end.

Fixpoint lines_from (cur : str) (t : str) : list str :=
  match t with
  | [] => match cur with [] => [] | _ => [rev cur] end
  | c :: t' =>
      if (c =? 10)%N then rev (c :: cur) :: lines_from [] t'
      else lines_from (c :: cur) t'
  end.

(** [file.readline()] on a freshly opened (or rewound) text file *)
Definition readline (size : positive) (enc : encoding) (data : bytes) : result str :=
  t <- pump enc has_newline [] (chunks size data) ;; Ok (first_line t).

(** [file.read(n)] on a freshly opened (or rewound) text file *)
Definition read (size : positive) (enc : encoding) (n : nat) (data : bytes)
  : result str :=
  t <- pump enc (fun t => (n <=? length t)%nat) [] (chunks size data) ;;
  Ok (firstn n t).

(** [file.readlines()] on a freshly opened (or rewound) text file *)
Definition readlines (enc : encoding) (data : bytes) : result (list str) :=
  t <- decode enc true data ;; Ok (lines_from [] (translate true t)).

End io.

(** ** The [csv] module *)

Module csv.

Inductive quoting_style : Type :=
  QUOTE_MINIMAL | QUOTE_ALL | QUOTE_NONNUMERIC | QUOTE_NONE.

Record Dialect : Type := {
  delimiter : char;
  quotechar : char;
  escapechar : option char;
  doublequote : bool;
  skipinitialspace : bool;
  lineterminator : str;
  quoting : quoting_style;
  strict : bool
}.

Definition quotes_on (d : Dialect) : bool :=
  match quoting d with QUOTE_NONE => false | _ => true end.

Definition is_escape (d : Dialect) (c : char) : bool :=
  match escapechar d with Some e => N.eqb c e | None => false end.

(** *** The reader: the state machine of [_csv.reader] *)

Inductive state : Type :=
| START_RECORD | START_FIELD | ESCAPED_CHAR | IN_FIELD
| IN_QUOTED_FIELD | ESCAPE_IN_QUOTED_FIELD | QUOTE_IN_QUOTED_FIELD
| EAT_CRNL | AFTER_ESCAPED_CRNL.

Definition state_eqb (a b : state) : bool :=
  match a, b with
  | START_RECORD, START_RECORD | START_FIELD, START_FIELD
  | ESCAPED_CHAR, ESCAPED_CHAR | IN_FIELD, IN_FIELD
  | IN_QUOTED_FIELD, IN_QUOTED_FIELD
  | ESCAPE_IN_QUOTED_FIELD, ESCAPE_IN_QUOTED_FIELD
  | QUOTE_IN_QUOTED_FIELD, QUOTE_IN_QUOTED_FIELD
  | EAT_CRNL, EAT_CRNL | AFTER_ESCAPED_CRNL, AFTER_ESCAPED_CRNL => true
  | _, _ => false
  end.

(** The field being collected is kept in reverse, the finished fields of
    the record in reverse order. *)
Record parser : Type := {
  st : state;
  field : str;
  field_len : N;
  fields : list str
}.

Definition parse_reset : parser :=
  {| st := START_RECORD; field := []; field_len := 0; fields := [] |}.

Definition set_state (p : parser) (s : state) : parser :=
  {| st := s; field := field p; field_len := field_len p; fields := fields p |}.

Definition field_limit : N := 131072.

Definition parse_add_char (p : parser) (c : char) : result parser :=
  if (field_limit <=? field_len p)%N
  then Raise (csv_Error "field larger than field limit (131072)")
  else Ok {| st := st p; field := c :: field p;
             field_len := (field_len p + 1)%N; fields := fields p |}.

Definition parse_save_field (p : parser) : parser :=
  {| st := st p; field := []; field_len := 0;
     fields := rev (field p) :: fields p |}.

(** A character of the line, or the end of the line. *)
Inductive input : Type := Ch (c : char) | EOL.

Definition is_newline (i : input) : bool :=
  match i with Ch c => (c =? 10)%N || (c =? 13)%N | EOL => false end.

Definition after_line (i : input) : state :=
  match i with EOL => START_RECORD | Ch _ => EAT_CRNL end.

Definition in_field (d : Dialect) (p : parser) (i : input) : result parser :=
  match i with
  | EOL => Ok (set_state (parse_save_field p) START_RECORD)
  | Ch c =>
      if is_newline i then Ok (set_state (parse_save_field p) EAT_CRNL)
      else if is_escape d c then Ok (set_state p ESCAPED_CHAR)
      else if (c =? delimiter d)%N
      then Ok (set_state (parse_save_field p) START_FIELD)
      else parse_add_char p c
  end.

Definition start_field (d : Dialect) (p : parser) (i : input) : result parser :=
  match i with
  | EOL => Ok (set_state (parse_save_field p) START_RECORD)
  | Ch c =>
      if is_newline i then Ok (set_state (parse_save_field p) EAT_CRNL)
      else if (c =? quotechar d)%N && quotes_on d
      then Ok (set_state p IN_QUOTED_FIELD)
      else if is_escape d c then Ok (set_state p ESCAPED_CHAR)
      else if (c =? 32)%N && skipinitialspace d then Ok p
      else if (c =? delimiter d)%N then Ok (parse_save_field p)
      else p' <- parse_add_char p c ;; Ok (set_state p' IN_FIELD)
  end.

Definition parse_process_char (d : Dialect) (p : parser) (i : input)
  : result parser :=
  match st p with
  | START_RECORD =>
      match i with
      | EOL => Ok p
      | Ch _ =>
          if is_newline i then Ok (set_state p EAT_CRNL)
          else start_field d (set_state p START_FIELD) i
      end
  | START_FIELD => start_field d p i
  | ESCAPED_CHAR =>
      match i with
      | EOL => p' <- parse_add_char p 10%N ;; Ok (set_state p' IN_FIELD)
      | Ch c =>
          p' <- parse_add_char p c ;;
          Ok (set_state p' (if is_newline i then AFTER_ESCAPED_CRNL else IN_FIELD))
      end
  | AFTER_ESCAPED_CRNL =>
      match i with
      | EOL => Ok p
      | Ch _ => in_field d p i
      end
  | IN_FIELD => in_field d p i
  | IN_QUOTED_FIELD =>
      match i with
      | EOL => Ok p
      | Ch c =>
          if is_escape d c then Ok (set_state p ESCAPE_IN_QUOTED_FIELD)
          else if (c =? quotechar d)%N && quotes_on d
          then Ok (set_state p (if doublequote d
                                then QUOTE_IN_QUOTED_FIELD else IN_FIELD))
          else parse_add_char p c
      end
  | ESCAPE_IN_QUOTED_FIELD =>
      p' <- parse_add_char p (match i with EOL => 10%N | Ch c => c end) ;;
      Ok (set_state p' IN_QUOTED_FIELD)
  | QUOTE_IN_QUOTED_FIELD =>
      match i with
      | EOL => Ok (set_state (parse_save_field p) START_RECORD)
      | Ch c =>
          if quotes_on d && (c =? quotechar d)%N
          then p' <- parse_add_char p c ;; Ok (set_state p' IN_QUOTED_FIELD)
          else if (c =? delimiter d)%N
          then Ok (set_state (parse_save_field p) START_FIELD)
          else if is_newline i
          then Ok (set_state (parse_save_field p) EAT_CRNL)
          else if strict d
          then Raise (csv_Error "delimiter expected after quotechar")
          else p' <- parse_add_char p c ;; Ok (set_state p' IN_FIELD)
      end
  | EAT_CRNL =>
      match i with
      | EOL => Ok (set_state p START_RECORD)
      | Ch _ =>
          if is_newline i then Ok p
          else Raise (csv_Error "new-line character seen in unquoted field")
      end
  end.

Fixpoint parse_line (d : Dialect) (p : parser) (line : str) : result parser :=
  match line with
  | [] => parse_process_char d p EOL
  | c :: line' =>
      p' <- parse_process_char d p (Ch c) ;; parse_line d p' line'
  end.

(** The records [csv.reader(lines, dialect)] yields one after the other,
    and the error that ends the iteration, if one does.  A record that a
    quoted field leaves open continues on the next line. *)
Fixpoint records_from (d : Dialect) (p : parser) (lines : list str)
  : list (list str) * option exception :=
  match lines with
  | [] =>
      if negb (field_len p =? 0)%N || state_eqb (st p) IN_QUOTED_FIELD then
        if strict d then ([], Some (csv_Error "unexpected end of data"))
        else ([rev (fields (parse_save_field p))], None)
      else ([], None)
  | line :: lines' =>
      match parse_line d p line with
      | Raise e => ([], Some e)
      | Ok p' =>
          if state_eqb (st p') START_RECORD then
            let (rest, err) := records_from d parse_reset lines' in
            (rev (fields p') :: rest, err)
          else records_from d p' lines'
      end
  end.

Definition reader (lines : list str) (d : Dialect)
  : list (list str) * option exception :=
  records_from d parse_reset lines.

End csv.

(** ** Dictionaries with string keys, in insertion order *)

Module dict.

Definition t (V : Type) := list (str * V).

Fixpoint get {V} (d : t V) (key : str) : option V :=
  match d with
  | [] => None
  | (k, v) :: d' => if Str.eqb k key then Some v else get d' key
  end.

(** [d[key] = v]: an existing key keeps its place. *)
Fixpoint set {V} (d : t V) (key : str) (v : V) : t V :=
  match d with
  | [] => [(key, v)]
  | (k, w) :: d' =>
      if Str.eqb k key then (k, v) :: d' else (k, w) :: set d' key v
  end.

(** [d[key]] *)
Definition getitem {V} (d : t V) (key : str) : result V :=
  match get d key with
  | Some v => Ok v
  | None => Raise (KeyError key)
  end.

(** [dict(pairs)] *)
Definition of_pairs {V} (pairs : list (str * V)) : t V :=
  fold_left (fun d kv => set d (fst kv) (snd kv)) pairs [].

Definition keys {V} (d : t V) : list str := map fst d.

End dict.

Module csv_dict.
Import csv.

(** *** [csv.DictReader] *)

(** A row: the named cells ([None] where the line was too short) and,
    under the key [None], the cells beyond the field names. *)
Record Row : Type := {
  cells : dict.t (option str);
  restkey : option (list str)
}.

Definition bind_row (fieldnames : list str) (row : list str) : Row :=
  let d := dict.of_pairs (combine fieldnames (map Some row)) in
  let lf := length fieldnames in
  let lr := length row in
  if (lf <? lr)%nat then {| cells := d; restkey := Some (skipn lf row) |}
  else {| cells := fold_left (fun d key => dict.set d key None)
                     (skipn lr fieldnames) d;
          restkey := None |}.

Definition is_blank (row : list str) : bool :=
  match row with [] => true | _ => false end.

Record DictReader : Type := {
  lines : list str;
  dialect : Dialect;
  fieldnames : list str
}.

(** The rows the iteration over a [DictReader] yields, and the error that
    ends it, if one does.  Blank records are passed over. *)
Definition rows (r : DictReader) : list Row * option exception :=
  let (records, err) := reader (lines r) (dialect r) in
  (map (bind_row (fieldnames r)) (filter (fun row => negb (is_blank row)) records),
   err).

(** *** [csv.writer] and [csv.DictWriter] *)

(** What a cell of a written row may hold. *)
Inductive value : Type :=
| VNone
| VInt (i : Z)
| VStr (s : str).

Definition of_option (o : option str) : value :=
  match o with Some s => VStr s | None => VNone end.

Definition text_of (v : value) : str :=
  match v with
  | VNone => []
  | VInt i => Str.of_int i
  | VStr s => s
  end.

Definition special (d : Dialect) (c : char) : bool :=
  (c =? delimiter d)%N || is_escape d c || (c =? quotechar d)%N
  || existsb (N.eqb c) (lineterminator d).

(** [join_append_data]: the characters of one field, escaped or doubled
    where the dialect asks for it, and whether the field must be quoted. *)
Fixpoint join_append_data (d : Dialect) (s : str) (quoted : bool)
  : result (str * bool) :=
  match s with
  | [] => Ok ([], quoted)
  | c :: s' =>
      if special d c then
        match quoting d with
        | QUOTE_NONE =>
            match escapechar d with
            | None => Raise (csv_Error "need to escape, but no escapechar set")
            | Some e =>
                r <- join_append_data d s' quoted ;;
                Ok (e :: c :: fst r, snd r)
            end
        | _ =>
            if (c =? quotechar d)%N then
              if doublequote d then
                r <- join_append_data d s' true ;;
                Ok (c :: c :: fst r, snd r)
              else
                match escapechar d with
                | None => Raise (csv_Error "need to escape, but no escapechar set")
                | Some e =>
                    r <- join_append_data d s' quoted ;;
                    Ok (e :: c :: fst r, snd r)
                end
            else if is_escape d c then
              r <- join_append_data d s' quoted ;;
              Ok (c :: c :: fst r, snd r)
            else
              r <- join_append_data d s' true ;;
              Ok (c :: fst r, snd r)
        end
      else
        r <- join_append_data d s' quoted ;; Ok (c :: fst r, snd r)
  end.

Definition join_append (d : Dialect) (v : value) : result str :=
  let quoted :=
    match quoting d, v with
    | QUOTE_ALL, _ => true
    | QUOTE_NONNUMERIC, VInt _ => false
    | QUOTE_NONNUMERIC, _ => true
    | _, _ => false
    end in
  r <- join_append_data d (text_of v) quoted ;;
  Ok (if snd r then quotechar d :: fst r ++ [quotechar d] else fst r).

Fixpoint join_fields (d : Dialect) (row : list value) : result (list str) :=
  match row with
  | [] => Ok []
  | v :: row' =>
      f <- join_append d v ;; fs <- join_fields d row' ;; Ok (f :: fs)
  end.

(** [writer.writerow(row)]: the line handed to the file's [write]. *)
Definition writerow (d : Dialect) (row : list value) : result str :=
  fs <- join_fields d row ;;
  match fs with
  | [[]] =>
      match quoting d with
      | QUOTE_NONE => Raise (csv_Error "empty record must be quoted")
      | _ => Ok ([quotechar d; quotechar d] ++ lineterminator d)
      end
  | _ => Ok (Str.join [delimiter d] fs ++ lineterminator d)
  end.

(** [DictWriter._dict_to_list] with [restval=""], [extrasaction="raise"] *)
Definition _dict_to_list (fieldnames : list str) (rowdict : dict.t value)
  : result (list value) :=
  let wrong_fields :=
    filter (fun k => negb (existsb (Str.eqb k) fieldnames)) (dict.keys rowdict) in
  match wrong_fields with
  | [] =>
      Ok (map (fun key => match dict.get rowdict key with
                          | Some v => v
                          | None => VStr []
                          end) fieldnames)
  | _ => Raise (ValueError "dict contains fields not in fieldnames")
  end.

(** [DictWriter.writerow(rowdict)] *)
Definition DictWriter_writerow (d : Dialect) (fieldnames : list str)
           (rowdict : dict.t value) : result str :=
  row <- _dict_to_list fieldnames rowdict ;; writerow d row.

(** *** [csv.Sniffer.sniff]

    The two guessing heuristics are taken as given:
    [_guess_quote_and_delimiter] answers the quote character, whether
    quotes are doubled, the delimiter and whether spaces follow it;
    [_guess_delimiter] answers the last two. *)
Definition quote_guess := str -> option char * bool * option char * bool.
Definition delimiter_guess := str -> option char * bool.

Definition sniff (_guess_quote_and_delimiter : quote_guess)
           (_guess_delimiter : delimiter_guess) (sample : str)
  : result Dialect :=
  let '(quotechar, doublequote, delimiter, skipinitialspace) :=
    _guess_quote_and_delimiter sample in
  let (delimiter, skipinitialspace) :=
    match delimiter with
    | Some c => (Some c, skipinitialspace)
    | None => _guess_delimiter sample
    end in
  match delimiter with
  | None => Raise (csv_Error "Could not determine delimiter")
  | Some delimiter =>
      Ok {| csv.delimiter := delimiter;
            csv.quotechar := match quotechar with Some q => q | None => 34%N end;
            csv.escapechar := None;
            csv.doublequote := doublequote;
            csv.skipinitialspace := skipinitialspace;
            csv.lineterminator := [13; 10]%N;
            csv.quoting := QUOTE_MINIMAL;
            csv.strict := false |}
  end.

End csv_dict.

(** ** [datetime.strptime] and [strftime] *)

Module datetime.
Local Open Scope N_scope.

(** The decimal digits of Unicode (category Nd, Unicode 14): the first
    code point of every run of the ten digits 0 to 9.  These are the
    characters the regular expression [\d] accepts and [int] converts. *)
Definition decimal_runs : list N :=
  [48; 1632; 1776; 1984; 2406; 2534; 2662; 2790; 2918; 3046; 3174; 3302;
   3430; 3558; 3664; 3792; 3872; 4160; 4240; 6112; 6160; 6470; 6608; 6784;
   6800; 6992; 7088; 7232; 7248; 42528; 43216; 43264; 43472; 43504; 43600;
   44016; 65296; 66720; 68912; 69734; 69872; 69942; 70096; 70384; 70736;
   70864; 71248; 71360; 71472; 71904; 72016; 72784; 73040; 73120; 92768;
   92864; 93008; 120782; 120792; 120802; 120812; 120822; 123200; 123632;
   125264; 130032]%N.

Definition decimal_value (c : char) : option N :=
  match find (fun run => (run <=? c) && (c <? run + 10))%N decimal_runs with
  | Some run => Some (c - run)%N
  | None => None
  end.

Definition isdecimal (c : char) : bool :=
  match decimal_value c with Some _ => true | None => false end.

(** [int(text)] for the text of a matched group: digits, possibly after
    white space. *)
Fixpoint int_digits (acc : N) (s : str) : result N :=
  match s with
  | [] => Ok acc
  | c :: s' =>
      match decimal_value c with
      | Some v => int_digits (acc * 10 + v)%N s'
      | None => Raise (ValueError "invalid literal for int() with base 10")
      end
  end.

Definition int (s : str) : result N :=
  match Str.strip s with
  | [] => Raise (ValueError "invalid literal for int() with base 10")
  | t => int_digits 0 t
  end.

(** *** Regular expressions of the directives

    A matcher lists the ways it can match a prefix of the input, in the
    order in which the backtracking matcher of [re] tries them. *)
Definition matcher := str -> list (str * str).

Definition one (ok : char -> bool) : matcher :=
  fun s =>
    match s with
    | c :: s' => if ok c then [([c], s')] else []
    | [] => []
    end.

Definition range (lo hi : char) : matcher :=
  one (fun c => (lo <=? c) && (c <=? hi))%N.

Definition seq (p q : matcher) : matcher :=
  fun s =>
    flat_map (fun ar => map (fun br => (fst ar ++ fst br, snd br)) (q (snd ar)))
             (p s).

Definition alt (ps : list matcher) : matcher :=
  fun s => flat_map (fun p => p s) ps.

Definition digit : matcher := one isdecimal.

Inductive directive : Type := pct_d | pct_m | pct_y | pct_Y.

Definition regex (k : directive) : matcher :=
  match k with
  | pct_d =>                       (* 3[0-1]|[1-2]\d|0[1-9]|[1-9]| [1-9] *)
      alt [seq (range 51 51) (range 48 49); seq (range 49 50) digit;
           seq (range 48 48) (range 49 57); range 49 57;
           seq (range 32 32) (range 49 57)]
  | pct_m =>                       (* 1[0-2]|0[1-9]|[1-9] *)
      alt [seq (range 49 49) (range 48 50); seq (range 48 48) (range 49 57);
           range 49 57]
  | pct_y => seq digit digit       (* \d\d *)
  | pct_Y => seq digit (seq digit (seq digit digit))   (* \d\d\d\d *)
  end.

Inductive item : Type :=
| Directive (k : directive)
| Literal (c : char).

Definition directive_of (c : char) : option directive :=
  if (c =? 100)%N then Some pct_d
  else if (c =? 109)%N then Some pct_m
  else if (c =? 121)%N then Some pct_y
  else if (c =? 89)%N then Some pct_Y
  else None.

(** A format string as directives and literal characters.  The model
    covers the directives [%d %m %y %Y]; [literal_ok] says which other
    characters may stand for themselves. *)
Fixpoint scan (literal_ok : char -> bool) (format : str) : option (list item) :=
  match format with
  | [] => Some []
  | c :: format' =>
      if (c =? 37)%N then
        match format' with
        | [] => None
        | k :: format'' =>
            match directive_of k, scan literal_ok format'' with
            | Some k', Some items => Some (Directive k' :: items)
            | _, _ => None
            end
        end
      else if literal_ok c then
        match scan literal_ok format' with
        | Some items => Some (Literal c :: items)
        | None => None
        end
      else None
  end.

(** In a [strptime] format white space stands for any run of white space
    and letters match without regard to case; the model takes punctuation
    only, which matches itself. *)
Definition punctuation (c : char) : bool :=
  ((33 <=? c) && (c <=? 47) || (58 <=? c) && (c <=? 64)
   || (91 <=? c) && (c <=? 96) || (123 <=? c) && (c <=? 126))%N.

Definition groups := list (directive * str).

Fixpoint match_items (items : list item) (found : groups) (s : str)
  : list (groups * str) :=
  match items with
  | [] => [(found, s)]
  | Literal c :: items' =>
      match s with
      | c' :: s' => if (c' =? c)%N then match_items items' found s' else []
      | [] => []
      end
  | Directive k :: items' =>
      flat_map (fun m => match_items items' (found ++ [(k, fst m)]) (snd m))
               (regex k s)
  end.

Record date : Type := { year : N; month : N; day : N }.

Definition is_leap (y : N) : bool :=
  ((y mod 4 =? 0) && (negb (y mod 100 =? 0) || (y mod 400 =? 0)))%N.

Definition days_in_month (y m : N) : N :=
  if (m =? 2)%N then (if is_leap y then 29 else 28)%N
  else if ((m =? 4) || (m =? 6) || (m =? 9) || (m =? 11))%N then 30%N
  else 31%N.

(** The checks of the [date] constructor. *)
Definition new_date (y m d : N) : result date :=
  if negb ((1 <=? y) && (y <=? 9999))%N
  then Raise (ValueError "year is out of range")
  else if negb ((1 <=? m) && (m <=? 12))%N
  then Raise (ValueError "month must be in 1..12")
  else if negb ((1 <=? d) && (d <=? days_in_month y m))%N
  then Raise (ValueError "day is out of range for month")
  else Ok {| year := y; month := m; day := d |}.

(** The loop of [_strptime] over the matched groups. *)
Fixpoint convert (found : groups) (y : option N) (m d : N)
  : result (option N * N * N) :=
  match found with
  | [] => Ok (y, m, d)
  | (k, text) :: found' =>
      v <- int text ;;
      match k with
      | pct_y => convert found' (Some (if v <=? 68 then v + 2000 else v + 1900)%N) m d
      | pct_Y => convert found' (Some v) m d
      | pct_m => convert found' y v d
      | pct_d => convert found' y m v
      end
  end.

(** [datetime.strptime(data_string, format)] *)
Definition strptime (data_string : option str) (format : str) : result date :=
  match data_string with
  | None => Raise (TypeError "strptime() argument 1 must be str, not None")
  | Some s =>
      match scan punctuation format with
      | None => Raise (ValueError "format outside the modelled directives")
      | Some items =>
          match match_items items [] s with
          | [] => Raise (ValueError "time data does not match format")
          | (_, _ :: _) :: _ => Raise (ValueError "unconverted data remains")
          | (found, []) :: _ =>
              ymd <- convert found None 1 1 ;;
              let '(y, m, d) := ymd in
              match y with
              | Some y => new_date y m d
              | None =>
                  (* no year given: 1900, with 1904 lending its leap day *)
                  _ <- new_date (if (m =? 2) && (d =? 29) then 1904 else 1900)%N m d ;;
                  new_date 1900 m d
              end
          end
      end
  end.

(** [date.strftime(format)].  [pads_year] tells whether the year of [%Y]
    is zero-filled to four digits. *)
Definition format_item (pads_year : bool) (dt : date) (i : item) : str :=
  match i with
  | Literal c => [c]
  | Directive pct_d => Str.zfill 2%nat (Str.decimal (day dt))
  | Directive pct_m => Str.zfill 2%nat (Str.decimal (month dt))
  | Directive pct_y => Str.zfill 2%nat (Str.decimal (year dt mod 100))
  | Directive pct_Y =>
      if pads_year then Str.zfill 4%nat (Str.decimal (year dt))
      else Str.decimal (year dt)
  end.

Definition strftime (pads_year : bool) (dt : date) (format : str) : result str :=
  match scan (fun _ => true) format with
  | None => Raise (ValueError "format outside the modelled directives")
  | Some items => Ok (concat (map (format_item pads_year dt) items))
  end.

End datetime.

(** ** The program *)

(** A source literal between escaped quotation marks, as in
    ["\"Girokonto\""]. *)
Definition quoted (s : string) : str := 34%N :: u8 s ++ [34%N].

(** [class DKB(csv.Dialect)] *)
Definition DKB : csv.Dialect :=
  {| csv.delimiter := 59%N;              (* ; *)
     csv.quotechar := 34%N;
     csv.escapechar := None;
     csv.doublequote := true;
     csv.skipinitialspace := false;
     csv.lineterminator := [10%N];
     csv.quoting := csv.QUOTE_MINIMAL;
     csv.strict := false |}.

Definition cash_field_names : list str :=
  map u8 ["buchungstag"; "wertstellung"; "buchungstext"; "beguenstigter";
          "verwendungszweck"; "kontonummer"; "blz"; "betrag"; "glaeubigerID";
          "mandatsreferenz"; "kundenreferenz"]%string.

Definition old_visa_field_names : list str :=
  map u8 ["abgerechnet"; "wertstellung"; "belegdatum"; "beschreibung";
          "betrag"; "urspruenglicherBetrag"]%string.

Definition new_visa_field_names : list str :=
  map u8 ["belegdatum"; "wertstellung"; "status"; "beschreibung"; "umsatztyp";
          "betrag"; "fremdwaehrungsbetrag"]%string.

Definition giro_field_names : list str :=
  map u8 ["buchungsdatum"; "wertstellung"; "status"; "zahlungspflichtige*r";
          "zahlungsempfänger*in"; "verwendungszweck"; "umsatztyp"; "IBAN";
          "betrag"; "gläubiger-id"; "mandatsreferenz"; "kundenreferenz"]%string.

Definition homebank_field_names : list str :=
  map u8 ["date"; "paymode"; "info"; "payee"; "memo"; "amount"; "category";
          "tags"]%string.

Inductive CsvFileTypes : Type :=
| UNKNOWN     (* We failed to auto-detect the csv file's format *)
| CASH
| OLD_VISA
| GIRO
| NEW_VISA.

Definition value (t : CsvFileTypes) : str :=
  match t with
  | UNKNOWN => u8 "unknown"
  | CASH => u8 "cash"
  | OLD_VISA => u8 "old visa"
  | GIRO => u8 "giro"
  | NEW_VISA => u8 "new visa"
  end.

(** A file opened for reading as text, positioned at its start. *)
Record TextIOWrapper : Type := {
  raw : codecs.bytes;
  encoding : codecs.encoding
}.

(** What a conversion leaves behind: the lines written to the output file
    ([None] when the file was never opened) and how the call ended. *)
Record run : Type := {
  outfile : option (list str);
  outcome : result unit
}.

(** What a run of the script leaves behind.  A call that returns ends the
    process with status 0, an exception nobody catches with status 1. *)
Record process : Type := {
  stdout : list str;
  stderr : list str;
  written : option (str * list str);
  uncaught : option exception
}.

Definition exit_status (p : process) : Z :=
  match uncaught p with
  | Some _ => 1
  | None => 0
  end.

(** The command line after [setup_parser]; [file] is the content of the
    file [filename] names. *)
Record Namespace : Type := {
  file : codecs.bytes;
  output_file : option str;
  debug : bool
}.

Section dkb2homebank.

Variable buffer_size : positive.
Variable pads_year : bool.
Variable _guess_quote_and_delimiter : csv_dict.quote_guess.
Variable _guess_delimiter : csv_dict.delimiter_guess.

Definition _read_header_line (file_path : codecs.bytes)
           (encoding : codecs.encoding) : result (option str) :=
  header <- io.readline buffer_size encoding file_path ;;
  Ok (Some header).

Definition detect_csv_format (file_path : codecs.bytes) : result CsvFileTypes :=
  header <- match _read_header_line file_path codecs.utf_8_sig with
            | Raise UnicodeDecodeError =>
                _read_header_line file_path codecs.iso_8859_1
            | r => r
            end ;;
  match header with
  | None => Ok UNKNOWN
  | Some header =>
      if Str.startswith header (quoted "Kreditkarte:") then Ok OLD_VISA
      else if Str.startswith header (quoted "Kontonummer:") then Ok CASH
      else if Str.startswith header (quoted "Girokonto") then Ok GIRO
      else if Str.startswith header (quoted "Karte") then Ok NEW_VISA
      else Ok UNKNOWN
  end.

(** The loop of [find_transaction_lines]: [i] is one more than the index
    of the line under inspection. *)
Fixpoint find_transaction_lines_loop (lines : list str) (i : nat)
         (todo : list str) : result (list str) :=
  match todo with
  | [] => Raise (ValueError "Can't convert CSV file without header line")
  | line :: todo' =>
      if Str.contains (u8 "Betrag") line && Str.contains (u8 "Wertstellung") line
      then Ok (skipn i lines)
      else find_transaction_lines_loop lines (i + 1) todo'
  end.

Definition find_transaction_lines (file : TextIOWrapper) : result (list str) :=
  lines <- io.readlines (encoding file) (raw file) ;;
  find_transaction_lines_loop lines 1 lines.

Definition _open_csv (file_path : codecs.bytes) (field_names : list str)
           (encoding : codecs.encoding) : result csv_dict.DictReader :=
  let file := {| raw := file_path; encoding := encoding |} in
  sample <- io.read buffer_size encoding 1024 file_path ;;
  dialect <- csv_dict.sniff _guess_quote_and_delimiter _guess_delimiter sample ;;
  lines <- find_transaction_lines file ;;
  Ok {| csv_dict.lines := lines;
        csv_dict.dialect := dialect;
        csv_dict.fieldnames := field_names |}.

Definition convert_date (date_string : option str) : result str :=
  date <- datetime.strptime date_string (u8 "%d.%m.%Y") ;;
  datetime.strftime pads_year date (u8 "%d-%m-%Y").

Definition convert_short_date (date_string : option str) : result str :=
  date <- datetime.strptime date_string (u8 "%d.%m.%y") ;;
  datetime.strftime pads_year date (u8 "%d-%m-%Y").

Definition strip_currency (currency_string : str) : str :=
  Str.strip (Str.replace currency_string (u8 "€") []).

(** A method call on a cell: [None] has no [replace]. *)
Definition on_str (cell : option str) (f : str -> str) : result str :=
  match cell with
  | Some s => Ok (f s)
  | None => Raise (AttributeError "'NoneType' object has no attribute 'replace'")
  end.

(** [f"{cell}"] *)
Definition format (cell : option str) : str :=
  match cell with
  | Some s => s
  | None => u8 "None"
  end.

(** [row[key]] *)
Definition getitem (row : csv_dict.Row) (key : string) : result (option str) :=
  dict.getitem (csv_dict.cells row) (u8 key).

(** The body of the [with open(output_file, 'w')] block: one written line
    per row of the reader, until a row or the reader raises. *)
Fixpoint write_rows (project : csv_dict.Row -> result (dict.t csv_dict.value))
         (rows : list csv_dict.Row) (stop : option exception)
         (written_lines : list str) : run :=
  match rows with
  | [] =>
      {| outfile := Some written_lines;
         outcome := match stop with Some e => Raise e | None => Ok tt end |}
  | row :: rows' =>
      match (rowdict <- project row ;;
             csv_dict.DictWriter_writerow DKB homebank_field_names rowdict) with
      | Raise e => {| outfile := Some written_lines; outcome := Raise e |}
      | Ok line => write_rows project rows' stop (written_lines ++ [line])
      end
  end.

Definition convert (reader : result csv_dict.DictReader)
           (project : csv_dict.Row -> result (dict.t csv_dict.value)) : run :=
  match reader with
  | Raise e => {| outfile := None; outcome := Raise e |}
  | Ok reader =>
      let (rows, stop) := csv_dict.rows reader in
      write_rows project rows stop []
  end.

Definition cash_row (row : csv_dict.Row) : result (dict.t csv_dict.value) :=
  buchungstag <- getitem row "buchungstag" ;;
  date <- convert_date buchungstag ;;
  payee <- getitem row "beguenstigter" ;;
  memo <- getitem row "verwendungszweck" ;;
  amount <- getitem row "betrag" ;;
  Ok [(u8 "date", csv_dict.VStr date);
      (u8 "paymode", csv_dict.VInt 8);
      (u8 "info", csv_dict.VNone);
      (u8 "payee", csv_dict.of_option payee);
      (u8 "memo", csv_dict.of_option memo);
      (u8 "amount", csv_dict.of_option amount);
      (u8 "category", csv_dict.VNone);
      (u8 "tags", csv_dict.VNone)].

Definition convert_cash (file_path : codecs.bytes) : run :=
  convert (_open_csv file_path cash_field_names codecs.iso_8859_1) cash_row.

Definition old_visa_row (row : csv_dict.Row) : result (dict.t csv_dict.value) :=
  wertstellung <- getitem row "wertstellung" ;;
  date <- convert_date wertstellung ;;
  memo <- getitem row "beschreibung" ;;
  amount <- getitem row "betrag" ;;
  Ok [(u8 "date", csv_dict.VStr date);
      (u8 "paymode", csv_dict.VInt 1);
      (u8 "info", csv_dict.VNone);
      (u8 "payee", csv_dict.VNone);
      (u8 "memo", csv_dict.of_option memo);
      (u8 "amount", csv_dict.of_option amount);
      (u8 "category", csv_dict.VNone);
      (u8 "tags", csv_dict.VNone)].

Definition convert_old_visa (file_path : codecs.bytes) : run :=
  convert (_open_csv file_path old_visa_field_names codecs.iso_8859_1)
          old_visa_row.

Definition new_visa_row (row : csv_dict.Row) : result (dict.t csv_dict.value) :=
  wertstellung <- getitem row "wertstellung" ;;
  date <- convert_short_date wertstellung ;;
  memo <- getitem row "beschreibung" ;;
  betrag <- getitem row "betrag" ;;
  amount <- on_str betrag strip_currency ;;
  Ok [(u8 "date", csv_dict.VStr date);
      (u8 "paymode", csv_dict.VInt 1);
      (u8 "info", csv_dict.VNone);
      (u8 "payee", csv_dict.VNone);
      (u8 "memo", csv_dict.of_option memo);
      (u8 "amount", csv_dict.VStr amount);
      (u8 "category", csv_dict.VNone);
      (u8 "tags", csv_dict.VNone)].

Definition convert_new_visa (file_path : codecs.bytes) : run :=
  convert (_open_csv file_path new_visa_field_names codecs.utf_8_sig)
          new_visa_row.

Definition giro_row (row : csv_dict.Row) : result (dict.t csv_dict.value) :=
  buchungsdatum <- getitem row "buchungsdatum" ;;
  date <- convert_short_date buchungsdatum ;;
  empfaenger <- getitem row "zahlungsempfänger*in" ;;
  iban <- getitem row "IBAN" ;;
  memo <- getitem row "verwendungszweck" ;;
  betrag <- getitem row "betrag" ;;
  amount <- on_str betrag strip_currency ;;
  Ok [(u8 "date", csv_dict.VStr date);
      (u8 "paymode", csv_dict.VInt 8);
      (u8 "info", csv_dict.VNone);
      (u8 "payee", csv_dict.VStr (format empfaenger ++ u8 " " ++ format iban));
      (u8 "memo", csv_dict.of_option memo);
      (u8 "amount", csv_dict.VStr amount);
      (u8 "category", csv_dict.VNone);
      (u8 "tags", csv_dict.VNone)].

Definition convert_giro (file_path : codecs.bytes) : run :=
  convert (_open_csv file_path giro_field_names codecs.utf_8_sig) giro_row.

(** [args.output_file or default] *)
Definition or_default (output_file : option str) (default : string) : str :=
  match output_file with
  | Some (c :: path) => c :: path
  | _ => u8 default
  end.

Definition report (args : Namespace) (lines : list str) : list str :=
  if debug args then lines else [].

Definition converted (args : Namespace) (csv_format : CsvFileTypes)
           (output : str) (message : string) (r : run) : process :=
  let looks := u8 "Looks like we're trying to convert a " ++ value csv_format
               ++ u8 " CSV file" in
  {| stdout := report args
                 (looks :: match outcome r with
                           | Ok _ => [u8 message ++ output]
                           | Raise _ => []
                           end);
     stderr := [];
     written := match outfile r with
                | Some lines => Some (output, lines)
                | None => None
                end;
     uncaught := match outcome r with Ok _ => None | Raise e => Some e end |}.

Definition main (args : Namespace) : process :=
  match detect_csv_format (file args) with
  | Raise e =>
      {| stdout := []; stderr := []; written := None; uncaught := Some e |}
  | Ok csv_format =>
      match csv_format with
      | OLD_VISA =>
          let output := or_default (output_file args) "visaHomebank.csv" in
          converted args csv_format output
            "DKB Visa file converted. Output file: "
            (convert_old_visa (file args))
      | CASH =>
          let output := or_default (output_file args) "cashHomebank.csv" in
          converted args csv_format output
            "DKB Cash file converted. Output file: "
            (convert_cash (file args))
      | GIRO =>
          let output := or_default (output_file args) "giroHomebank.csv" in
          converted args csv_format output
            "DKB Giro file converted. Output file: "
            (convert_giro (file args))
      | NEW_VISA =>
          let output := or_default (output_file args) "visaHomebank.csv" in
          converted args csv_format output
            "DKB Giro file converted. Output file: "
            (convert_new_visa (file args))
      | UNKNOWN =>
          {| stdout := report args
                         [u8 "Looks like we're trying to convert a "
                          ++ value csv_format ++ u8 " CSV file"];
             stderr := [u8 "Could not detect CSV file type. Are you sure this is a legitimate file?"];
             written := None;
             uncaught := None |}
      end
  end.

End dkb2homebank.

(** ** Vocabulary of the specification *)

(** [sub] occurs in [s] as a substring. *)
Definition substring (sub s : str) : Prop :=
  exists before after, s = before ++ sub ++ after.

(** The header-row signature: both markers occur in the line. *)
Definition header_signature (line : str) : Prop :=
  substring (u8 "Betrag") line /\ substring (u8 "Wertstellung") line.

(** The detection signatures, in their order of priority. *)
Definition detection_signatures : list (str * CsvFileTypes) :=
  [(quoted "Kreditkarte:", OLD_VISA); (quoted "Kontonummer:", CASH);
   (quoted "Girokonto", GIRO); (quoted "Karte", NEW_VISA)].

(** First match wins; no match is [UNKNOWN]. *)
Definition classify (first_line : str) : CsvFileTypes :=
  match find (fun sig => Str.startswith first_line (fst sig)) detection_signatures with
  | Some sig => snd sig
  | None => UNKNOWN
  end.

Definition euro : char := 8364%N.

Definition remove_euro (s : str) : str := filter (fun c => negb (c =? euro)%N) s.

(** The characters of an amount: digits, [.], [,] and [-]. *)
Definition amount_char (c : char) : bool :=
  ((48 <=? c) && (c <=? 57) || (c =? 46) || (c =? 44) || (c =? 45))%N.

Definition whitespace (c : char) : Prop := Str.isspace c = true.

Definition pad2 (n : N) : str := Str.zfill 2 (Str.decimal n).
Definition pad4 (n : N) : str := Str.zfill 4 (Str.decimal n).

(** A day of the calendar of [datetime]: years 1 to 9999. *)
Definition valid_date (y m d : N) : Prop :=
  (1 <= y <= 9999 /\ 1 <= m <= 12 /\ 1 <= d <= datetime.days_in_month y m)%N.

(** Two digits of day, two digits of month and the text of a year,
    separated by [sep]. *)
Definition date_text (sep : char) (d m : N) (year_text : str) : str :=
  pad2 d ++ sep :: pad2 m ++ sep :: year_text.

(** The text [dd<sep>mm<sep>yyyy] of a date. *)
Definition dd_mm_yyyy (sep : char) (d m y : N) : str :=
  date_text sep d m (pad4 y).

(** The text [dd<sep>mm<sep>yy] with a two-digit year. *)
Definition dd_mm_yy (sep : char) (d m yy : N) : str :=
  date_text sep d m (pad2 yy).

(** The century of a two-digit year. *)
Definition century_window (yy : N) : N :=
  (if yy <=? 68 then 2000 + yy else 1900 + yy)%N.


(** The record every projector builds for a row. *)
Definition homebank_record (date paymode payee memo amount : csv_dict.value)
  : dict.t csv_dict.value :=
  [(u8 "date", date); (u8 "paymode", paymode); (u8 "info", csv_dict.VNone);
   (u8 "payee", payee); (u8 "memo", memo); (u8 "amount", amount);
   (u8 "category", csv_dict.VNone); (u8 "tags", csv_dict.VNone)].

(** The four projectors: the function, the schema and the encoding it
    reads with, its projection of a row, and the field and the rule its
    date comes from. *)
Record projector : Type := {
  convert_x : codecs.bytes -> run;
  schema : list str;
  reads : codecs.encoding;
  project : csv_dict.Row -> result (dict.t csv_dict.value);
  date_field : string;
  date_rule : option str -> result str
}.

Definition projectors (buffer_size : positive) (pads_year : bool)
           (guess_q : csv_dict.quote_guess) (guess_d : csv_dict.delimiter_guess)
  : list projector :=
  [{| convert_x := convert_cash buffer_size pads_year guess_q guess_d;
      schema := cash_field_names; reads := codecs.iso_8859_1;
      project := cash_row pads_year;
      date_field := "buchungstag"; date_rule := convert_date pads_year |};
   {| convert_x := convert_old_visa buffer_size pads_year guess_q guess_d;
      schema := old_visa_field_names; reads := codecs.iso_8859_1;
      project := old_visa_row pads_year;
      date_field := "wertstellung"; date_rule := convert_date pads_year |};
   {| convert_x := convert_new_visa buffer_size pads_year guess_q guess_d;
      schema := new_visa_field_names; reads := codecs.utf_8_sig;
      project := new_visa_row pads_year;
      date_field := "wertstellung"; date_rule := convert_short_date pads_year |};
   {| convert_x := convert_giro buffer_size pads_year guess_q guess_d;
      schema := giro_field_names; reads := codecs.utf_8_sig;
      project := giro_row pads_year;
      date_field := "buchungsdatum"; date_rule := convert_short_date pads_year |}].


(** The call ends in an exception. *)
Definition raises {A} (r : result A) : Prop := exists e, r = Raise e.

(** The only way a result of the text layer can fail. *)
Definition decode_error_only {A} (r : result A) : Prop :=
  forall e, r = Raise e -> e = UnicodeDecodeError.

(** ** Sample files

    The samples are typed with an apostrophe for the quotation mark and a
    bar for the line feed. *)

Definition typed (s : string) : codecs.bytes :=
  map (fun b => if Byte.eqb b "'"%byte then x22
                else if Byte.eqb b "|"%byte then x0a else b)
      (list_byte_of_string s).

(** The text of a sample line. *)
Definition text (s : string) : str := map Byte.to_N (typed s).

Definition sample_buffer_size : positive := 8192.

(** What the first heuristic of [csv.Sniffer] answers for a sample whose
    cells stand in quotation marks with semicolons between them, as in the
    exports of the bank: the quotation mark, no doubled quotes, the
    semicolon, no space after it. *)
Definition guess_semicolon : csv_dict.quote_guess :=
  fun _ => (Some 34%N, false, Some 59%N, false).

(** Its answer when commas stand between the quoted cells. *)
Definition guess_comma : csv_dict.quote_guess :=
  fun _ => (Some 34%N, false, Some 44%N, false).

(** The second heuristic is not asked when the first found a delimiter. *)
Definition guess_nothing : csv_dict.delimiter_guess := fun _ => (None, false).

Definition sample_preamble : list str :=
  [text "'Kontonummer:';'DE00 / Girokonto';|"; text "|"].

Definition sample_header : str :=
  text "'Buchungstag';'Wertstellung';'Buchungstext';'Beguenstigter';'Verwendungszweck';'Kontonummer';'BLZ';'Betrag (EUR)';'Glaeubiger-ID';'Mandatsreferenz';'Kundenreferenz';|".

(** Three data lines; the second is dated 31 February. *)
Definition sample_data : list str :=
  [text "'01.03.2023';'02.03.2023';'Lastschrift';'ACME GmbH';'Invoice 123';'DE00';'BANKXXX';'-42,50';'';'';'';|";
   text "'31.02.2023';'02.03.2023';'Lastschrift';'ACME GmbH';'Invoice 124';'DE00';'BANKXXX';'-1,00';'';'';'';|";
   text "'06.03.2023';'02.03.2023';'Lastschrift';'ACME GmbH';'Invoice 125';'DE00';'BANKXXX';'-2,00';'';'';'';|"].

(** An export of a cash account. *)
Definition sample_cash : codecs.bytes :=
  typed
    ("'Kontonummer:';'DE00 / Girokonto';||"
     ++ "'Buchungstag';'Wertstellung';'Buchungstext';'Beguenstigter';'Verwendungszweck';'Kontonummer';'BLZ';'Betrag (EUR)';'Glaeubiger-ID';'Mandatsreferenz';'Kundenreferenz';|"
     ++ "'01.03.2023';'02.03.2023';'Lastschrift';'ACME GmbH';'Invoice 123';'DE00';'BANKXXX';'-42,50';'';'';'';|"
     ++ "'31.02.2023';'02.03.2023';'Lastschrift';'ACME GmbH';'Invoice 124';'DE00';'BANKXXX';'-1,00';'';'';'';|"
     ++ "'06.03.2023';'02.03.2023';'Lastschrift';'ACME GmbH';'Invoice 125';'DE00';'BANKXXX';'-2,00';'';'';'';|")%string.

(** The dialect sniffed from [sample_cash] and the reader over its data
    lines. *)
Definition sample_dialect : csv.Dialect :=
  {| csv.delimiter := 59%N;
     csv.quotechar := 34%N;
     csv.escapechar := None;
     csv.doublequote := false;
     csv.skipinitialspace := false;
     csv.lineterminator := [13; 10]%N;
     csv.quoting := csv.QUOTE_MINIMAL;
     csv.strict := false |}.

Definition sample_reader : csv_dict.DictReader :=
  {| csv_dict.lines := sample_data;
     csv_dict.dialect := sample_dialect;
     csv_dict.fieldnames := cash_field_names |}.


(** A file of the same bank without a header line: no line has both
    markers. *)
Definition sample_without_header : codecs.bytes :=
  typed "'Kontonummer:';'DE00 / Girokonto';||'Buchungstag';'Betrag (EUR)';|'01.03.2023';'-42,50';|".

(** A file that begins like no known format. *)
Definition sample_depot : codecs.bytes := typed "'Depot:','1234'|".

(** A file with commas between its cells. *)
Definition sample_comma : codecs.bytes :=
  typed "'Kontonummer:','DE00'|'Buchungstag','Wertstellung','Betrag (EUR)'|'01.03.2023','02.03.2023','-42,50'|".

(** ** The output file of a projector

    The projectors of the program part are the functions once their output
    file is open.  As the source has them they take the path
    [output_file] and open it for writing after [_open_csv] has returned,
    and [open] raises an [OSError] where the file system refuses (no such
    directory, no permission).  [open_w] is the answer of the file system
    for a path: [None] where the file is created or truncated, the message
    of the error where it is not. *)

Module output.
Section file_system.

Variable buffer_size : positive.
Variable pads_year : bool.
Variable _guess_quote_and_delimiter : csv_dict.quote_guess.
Variable _guess_delimiter : csv_dict.delimiter_guess.
Variable open_w : str -> option string.

(** [reader = _open_csv(...)], then [with open(output_file, 'w', ...)]
    around the loop over the rows. *)
Definition convert (reader : result csv_dict.DictReader) (output_file : str)
           (project : csv_dict.Row -> result (dict.t csv_dict.value)) : run :=
  match reader with
  | Raise e => {| outfile := None; outcome := Raise e |}
  | Ok reader =>
      match open_w output_file with
      | Some msg => {| outfile := None; outcome := Raise (OSError msg) |}
      | None => convert (Ok reader) project   (* the loop over the rows *)
      end
  end.

Definition convert_cash (file_path : codecs.bytes) (output_file : str) : run :=
  convert (_open_csv buffer_size _guess_quote_and_delimiter _guess_delimiter
             file_path cash_field_names codecs.iso_8859_1)
          output_file (cash_row pads_year).

Definition convert_old_visa (file_path : codecs.bytes) (output_file : str) : run :=
  convert (_open_csv buffer_size _guess_quote_and_delimiter _guess_delimiter
             file_path old_visa_field_names codecs.iso_8859_1)
          output_file (old_visa_row pads_year).

Definition convert_new_visa (file_path : codecs.bytes) (output_file : str) : run :=
  convert (_open_csv buffer_size _guess_quote_and_delimiter _guess_delimiter
             file_path new_visa_field_names codecs.utf_8_sig)
          output_file (new_visa_row pads_year).

Definition convert_giro (file_path : codecs.bytes) (output_file : str) : run :=
  convert (_open_csv buffer_size _guess_quote_and_delimiter _guess_delimiter
             file_path giro_field_names codecs.utf_8_sig)
          output_file (giro_row pads_year).

(** The four at once: the function of a projector by its schema, its
    encoding and its projection. *)
Definition convert_x (P : projector) (file_path : codecs.bytes)
           (output_file : str) : run :=
  convert (_open_csv buffer_size _guess_quote_and_delimiter _guess_delimiter
             file_path (schema P) (reads P))
          output_file (project P).

End file_system.
End output.

(** ** Vocabulary of the further properties *)

(** The first line the classifier looks at: decoded as UTF-8 with an
    optional byte-order mark, or as ISO 8859-1 when that cannot be decoded. *)
Definition first_line_of (buffer_size : positive) (file_path : codecs.bytes)
           (header : str) : Prop :=
  io.readline buffer_size codecs.utf_8_sig file_path = Ok header \/
  io.readline buffer_size codecs.utf_8_sig file_path = Raise UnicodeDecodeError /\
  io.readline buffer_size codecs.iso_8859_1 file_path = Ok header.

(** The bytes of a text of ASCII characters. *)
Definition ascii_bytes (s : str) : codecs.bytes :=
  map (fun c => match Byte.of_N c with Some b => b | None => x00 end) s.

(** The first and the last character of a text, when it has one. *)
Definition first_char (s : str) : option char := hd_error s.
Definition last_char (s : str) : option char := hd_error (rev s).

Definition not_space (c : option char) : bool :=
  match c with
  | Some c => negb (Str.isspace c)
  | None => true
  end.

(** A text of ASCII characters without line breaks. *)
Definition plain (s : str) : Prop :=
  Forall (fun c => (c < 128)%N /\ c <> 10%N /\ c <> 13%N) s.

(** A day, a month and the text of a year separated by [sep], the day and
    the month without leading zeros. *)
Definition plain_date_text (sep : char) (d m : N) (year_text : str) : str :=
  Str.decimal d ++ sep :: Str.decimal m ++ sep :: year_text.

(** A field as the dialect [DKB] writes it: between quotation marks, with
    the quotation marks inside doubled, when the text holds a semicolon, a
    quotation mark or a line feed, and as it is otherwise. *)
Definition needs_quotes (c : char) : bool :=
  ((c =? 59) || (c =? 34) || (c =? 10))%N.

Definition doubled (t : str) : str :=
  flat_map (fun c => if (c =? 34)%N then [34; 34]%N else [c]) t.

Definition dkb_field (t : str) : str :=
  if existsb needs_quotes t then 34%N :: doubled t ++ [34%N] else t.

(** The texts of the eight cells of a record of the output. *)
Definition homebank_texts (date paymode payee memo amount : csv_dict.value)
  : list str :=
  [csv_dict.text_of date; csv_dict.text_of paymode; [];
   csv_dict.text_of payee; csv_dict.text_of memo; csv_dict.text_of amount;
   []; []].

(** A text a reader takes back from one line: without line feed or
    carriage return, and within the field limit of the reader. *)
Definition readable (t : str) : Prop :=
  Forall (fun c => c <> 10%N /\ c <> 13%N) t /\
  (N.of_nat (length t) <= csv.field_limit)%N.

(** The parser at the start of a field, [acc] the fields before it, last
    first. *)
Definition field_start (acc : list str) : csv.parser :=
  {| csv.st := csv.START_FIELD; csv.field := []; csv.field_len := 0;
     csv.fields := acc |}.

(** The parser within a field that so far holds the characters [pre], last
    first. *)
Definition within (s : csv.state) (pre : str) (n : N) (acc : list str)
  : csv.parser :=
  {| csv.st := s; csv.field := pre; csv.field_len := n; csv.fields := acc |}.

(** The exceptions a run can end in: every kind but [KeyError] and the
    [InvalidInputException] the source declares. *)
Definition expected_error (e : exception) : Prop :=
  match e with
  | KeyError _ | InvalidInputException _ => False
  | _ => True
  end.

(** The name of the output file when none is asked for: the default of the
    parameter [output_file] of the projector. *)
Definition default_output (csv_format : CsvFileTypes) : option string :=
  match csv_format with
  | CASH => Some "cashHomebank.csv"%string
  | OLD_VISA | NEW_VISA => Some "visaHomebank.csv"%string
  | GIRO => Some "giroHomebank.csv"%string
  | UNKNOWN => None
  end.

(** The line written for a row. *)
Definition line_of (project : csv_dict.Row -> result (dict.t csv_dict.value))
           (row : csv_dict.Row) (line : str) : Prop :=
  exists date paymode payee memo amount,
    project row = Ok (homebank_record date paymode payee memo amount) /\
    line = Str.join (u8 ";")
             (map dkb_field (homebank_texts date paymode payee memo amount))
           ++ [10%N].

(** The cells of a line of a Giro export. *)
Definition sample_giro_record : list str :=
  [u8 "05.04.23"; u8 "05.04.23"; u8 "Gebucht"; u8 "ISSUER"; u8 "Jane Doe";
   u8 "Rent"; u8 "Ausgang"; u8 "DE89370400440532013000"; u8 "-15,00 €";
   []; []; []].

(** A file that begins like a Giro export and is encoded in ISO 8859-1:
    the byte of the u-umlaut is no UTF-8. *)
Definition sample_undecodable : codecs.bytes :=
  typed "'Girokonto';'M" ++ [xfc] ++ typed "ller'|".

(** The script called on [sample_cash] without options. *)
Definition sample_args : Namespace :=
  {| file := sample_cash; output_file := None; debug := false |}.

(** The projector of cash files with the sample parameters. *)
Definition sample_projector : projector :=
  {| convert_x := convert_cash sample_buffer_size false guess_semicolon
                    guess_nothing;
     schema := cash_field_names; reads := codecs.iso_8859_1;
     project := cash_row false;
     date_field := "buchungstag"; date_rule := convert_date false |}.

(** A file system in which the directory [/nowhere] does not exist. *)
Definition sample_open_w : str -> option string :=
  fun path =>
    if Str.startswith path (u8 "/nowhere/")
    then Some "No such file or directory"%string
    else None.

(** An export of a cash account with one transaction. *)
Definition sample_one_row : codecs.bytes :=
  typed
    ("'Kontonummer:';'DE00 / Girokonto';||"
     ++ "'Buchungstag';'Wertstellung';'Buchungstext';'Beguenstigter';'Verwendungszweck';'Kontonummer';'BLZ';'Betrag (EUR)';'Glaeubiger-ID';'Mandatsreferenz';'Kundenreferenz';|"
     ++ "'01.03.2023';'02.03.2023';'Lastschrift';'ACME GmbH';'Invoice 123';'DE00';'BANKXXX';'-42,50';'';'';'';|")%string.

(** An export of a cash account without transactions: two blank lines
    follow the header line. *)
Definition sample_empty_cash : codecs.bytes :=
  typed "'Kontonummer:';'DE00 / Girokonto';||'Buchungstag';'Wertstellung';'Betrag (EUR)';|||".

(** ** Properties of the string operations *)

Lemma eqb_eq (a b : str) : Str.eqb a b = true <-> a = b.
Proof.
  revert b; induction a as [|x a IH]; intros [|y b]; simpl; split;
    try congruence; try reflexivity.
  - intros H. apply andb_true_iff in H as [Hx Hab].
    apply N.eqb_eq in Hx. apply IH in Hab. congruence.
  - intros H. injection H as -> ->. rewrite N.eqb_refl. simpl. now apply IH.
Qed.

Lemma eqb_refl (a : str) : Str.eqb a a = true.
Proof. now apply eqb_eq. Qed.

Lemma eqb_neq (a b : str) : Str.eqb a b = false <-> a <> b.
Proof.
  split.
  - intros H E. apply eqb_eq in E. congruence.
  - intros H. destruct (Str.eqb a b) eqn:E; [|reflexivity].
    apply eqb_eq in E. contradiction.
Qed.

Lemma startswith_spec (s p : str) :
  Str.startswith s p = true <-> exists rest, s = p ++ rest.
Proof.
  revert s; induction p as [|c p IH]; intros s; simpl.
  - split; [intros _; now exists s | reflexivity].
  - destruct s as [|x s].
    + split; [discriminate | intros [rest H]; discriminate].
    + rewrite andb_true_iff, N.eqb_eq, IH. split.
      * intros [-> [rest ->]]. now exists rest.
      * intros [rest H]. injection H as -> ->. split; [reflexivity | now exists rest].
Qed.

Lemma contains_spec (sub s : str) :
  Str.contains sub s = true <-> substring sub s.
Proof.
  unfold substring. induction s as [|c s IH].
  - simpl. rewrite orb_false_r, startswith_spec. split.
    + intros [rest H]. exists [], rest. exact H.
    + intros [[|x before] [after H]]; [now exists after | discriminate].
  - cbn [Str.contains]. rewrite orb_true_iff, startswith_spec, IH. split.
    + intros [[rest H] | [before [after H]]].
      * exists [], rest. exact H.
      * exists (c :: before), after. now rewrite H.
    + intros [[|x before] [after H]].
      * left. now exists after.
      * right. injection H as -> ->. now exists before, after.
Qed.

Lemma replace_euro (s : str) : Str.replace s (u8 "€") [] = remove_euro s.
Proof.
  unfold Str.replace. change (u8 "€") with [euro].
  induction s as [|c s IH]; [reflexivity|].
  cbn [Str.replace_from Str.startswith remove_euro filter length Nat.sub].
  destruct s as [|c' s']; rewrite andb_true_r;
    destruct (c =? euro)%N; cbn [negb app]; now rewrite ?IH.
Qed.

Lemma lstrip_split (s : str) :
  exists l, Forall whitespace l /\ s = l ++ Str.lstrip s.
Proof.
  induction s as [|c s [l [Hl IH]]]; [now exists []|].
  simpl. destruct (Str.isspace c) eqn:E.
  - exists (c :: l). split; [now constructor | now rewrite IH at 1].
  - now exists [].
Qed.

Lemma lstrip_fixed (c : char) (s : str) :
  Str.isspace c = false -> Str.lstrip (c :: s) = c :: s.
Proof. intros H. simpl. now rewrite H. Qed.

Lemma lstrip_head (s : str) (c : char) (t : str) :
  Str.lstrip s = c :: t -> Str.isspace c = false.
Proof.
  induction s as [|x s IH]; simpl; [discriminate|].
  destruct (Str.isspace x) eqn:E; [exact IH|].
  intros H. injection H as -> ->. exact E.
Qed.

Lemma lstrip_idempotent (s : str) : Str.lstrip (Str.lstrip s) = Str.lstrip s.
Proof.
  destruct (Str.lstrip s) as [|c t] eqn:E; [reflexivity|].
  apply lstrip_fixed. eapply lstrip_head. exact E.
Qed.

Lemma rstrip_split (s : str) :
  exists r, Forall whitespace r /\ s = Str.rstrip s ++ r.
Proof.
  unfold Str.rstrip. destruct (lstrip_split (rev s)) as [l [Hl H]].
  exists (rev l). split.
  - apply Forall_rev. exact Hl.
  - rewrite <- (rev_involutive s) at 1. rewrite H at 1. now rewrite rev_app_distr.
Qed.

Lemma rstrip_idempotent (s : str) : Str.rstrip (Str.rstrip s) = Str.rstrip s.
Proof. unfold Str.rstrip. now rewrite rev_involutive, lstrip_idempotent. Qed.

Lemma strip_idempotent (s : str) : Str.strip (Str.strip s) = Str.strip s.
Proof.
  unfold Str.strip.
  assert (H : Str.lstrip (Str.rstrip (Str.lstrip s)) = Str.rstrip (Str.lstrip s)).
  { destruct (rstrip_split (Str.lstrip s)) as [r [_ Hr]].
    destruct (Str.rstrip (Str.lstrip s)) as [|c t] eqn:E; [reflexivity|].
    apply lstrip_fixed. eapply lstrip_head. rewrite Hr. reflexivity. }
  rewrite H. apply rstrip_idempotent.
Qed.

Lemma strip_split (s : str) :
  exists l r, Forall whitespace l /\ Forall whitespace r /\ s = l ++ Str.strip s ++ r.
Proof.
  destruct (lstrip_split s) as [l [Hl H1]].
  destruct (rstrip_split (Str.lstrip s)) as [r [Hr H2]].
  exists l, r. repeat split; try assumption.
  unfold Str.strip. now rewrite <- H2.
Qed.

Lemma filter_whitespace (keep : char -> bool) (l : str) :
  (forall c, keep c = true -> Str.isspace c = false) ->
  Forall whitespace l -> filter keep l = [].
Proof.
  intros Hk Hl. induction Hl as [|c l Hc _ IH]; [reflexivity|].
  simpl. destruct (keep c) eqn:E; [|exact IH].
  apply Hk in E. unfold whitespace in Hc. congruence.
Qed.

Lemma amount_char_not_space (c : char) :
  amount_char c = true -> Str.isspace c = false.
Proof.
  unfold amount_char, Str.isspace. intros H.
  repeat match goal with
         | H : (_ || _) = true |- _ => apply orb_true_iff in H as [H | H]
         | H : (_ && _) = true |- _ => apply andb_true_iff in H as [? ?]
         | H : (_ <=? _)%N = true |- _ => apply N.leb_le in H
         | H : (_ =? _)%N = true |- _ => apply N.eqb_eq in H
         end;
    repeat match goal with
           | |- (_ || _) = false => apply orb_false_iff; split
           | |- (_ && _) = false => apply andb_false_iff
           end;
    try (apply N.eqb_neq; lia);
    try (left; apply N.leb_gt; lia); try (right; apply N.leb_gt; lia).
Qed.

Lemma amount_char_not_euro (c : char) :
  amount_char c = true -> negb (c =? euro)%N = true.
Proof.
  unfold amount_char, euro. intros H. apply negb_true_iff, N.eqb_neq.
  repeat match goal with
         | H : (_ || _) = true |- _ => apply orb_true_iff in H as [H | H]
         | H : (_ && _) = true |- _ => apply andb_true_iff in H as [? ?]
         | H : (_ <=? _)%N = true |- _ => apply N.leb_le in H
         | H : (_ =? _)%N = true |- _ => apply N.eqb_eq in H
         end; lia.
Qed.

Lemma filter_remove_euro (s : str) :
  filter amount_char (remove_euro s) = filter amount_char s.
Proof.
  unfold remove_euro. induction s as [|c s IH]; [reflexivity|].
  simpl. destruct (amount_char c) eqn:E.
  - rewrite (amount_char_not_euro _ E). simpl. now rewrite E, IH.
  - destruct (negb (c =? euro)%N); simpl; now rewrite ?E, IH.
Qed.

Lemma remove_euro_fixed (s : str) :
  Forall (fun c => c <> euro) s -> remove_euro s = s.
Proof.
  intros H. induction H as [|c s Hc _ IH]; [reflexivity|].
  unfold remove_euro in *. simpl.
  apply N.eqb_neq in Hc. now rewrite Hc, IH.
Qed.

Lemma remove_euro_free (s : str) : Forall (fun c => c <> euro) (remove_euro s).
Proof.
  apply Forall_forall. intros c Hc. apply filter_In in Hc as [_ Hc].
  now apply negb_true_iff, N.eqb_neq in Hc.
Qed.

(** C5: stripping the currency twice is the same as stripping it once; the
    digits, dots, commas and minus signs of the input all stay; and the
    result is the input without its Euro signs and without the white space
    that then surrounds it. *)
Theorem strip_currency_idempotent (s : str) :
  strip_currency (strip_currency s) = strip_currency s /\
  filter amount_char (strip_currency s) = filter amount_char s /\
  exists before after,
    Forall whitespace before /\ Forall whitespace after /\
    remove_euro s = before ++ strip_currency s ++ after.
Proof.
  unfold strip_currency. rewrite !replace_euro.
  destruct (strip_split (remove_euro s)) as [l [r [Hl [Hr H]]]].
  assert (Hfree : Forall (fun c => c <> euro) (Str.strip (remove_euro s))).
  { pose proof (remove_euro_free s) as F. rewrite H in F.
    apply Forall_app in F as [_ F]. now apply Forall_app in F as [F _]. }
  repeat split.
  - rewrite (remove_euro_fixed _ Hfree). apply strip_idempotent.
  - rewrite <- (filter_remove_euro s). rewrite H at 2.
    rewrite !filter_app.
    rewrite (filter_whitespace amount_char l amount_char_not_space Hl).
    rewrite (filter_whitespace amount_char r amount_char_not_space Hr).
    now rewrite app_nil_r.
  - now exists l, r.
Qed.

(** ** The transaction region *)

Lemma header_test (line : str) :
  Str.contains (u8 "Betrag") line && Str.contains (u8 "Wertstellung") line = true
  <-> header_signature line.
Proof.
  unfold header_signature. now rewrite andb_true_iff, !contains_spec.
Qed.

Lemma header_test_false (line : str) :
  Str.contains (u8 "Betrag") line && Str.contains (u8 "Wertstellung") line = false
  <-> ~ header_signature line.
Proof.
  rewrite <- header_test. now destruct (_ && _).
Qed.

Lemma skipn_past {A} (l : list A) (x : A) (r : list A) :
  skipn (length l + 1) (l ++ x :: r) = r.
Proof. induction l as [|y l IH]; [reflexivity | exact IH]. Qed.

Lemma loop_finds_header (preamble : list str) (header : str) (data : list str) :
  Forall (fun line => ~ header_signature line) preamble ->
  header_signature header ->
  forall done,
    find_transaction_lines_loop (done ++ preamble ++ header :: data)
      (length done + 1) (preamble ++ header :: data) = Ok data.
Proof.
  intros Hpre Hhdr. induction Hpre as [|line preamble Hline _ IH]; intros done.
  - cbn [app find_transaction_lines_loop].
    apply header_test in Hhdr. rewrite Hhdr. now rewrite skipn_past.
  - cbn [app find_transaction_lines_loop].
    apply header_test_false in Hline. rewrite Hline.
    specialize (IH (done ++ [line])).
    rewrite length_app, <- app_assoc in IH. exact IH.
Qed.

Lemma loop_without_header (lines todo : list str) (i : nat) :
  Forall (fun line => ~ header_signature line) todo ->
  find_transaction_lines_loop lines i todo
  = Raise (ValueError "Can't convert CSV file without header line").
Proof.
  intros H. revert i. induction H as [|line todo Hline _ IH]; intros i.
  - reflexivity.
  - cbn [find_transaction_lines_loop].
    apply header_test_false in Hline. rewrite Hline. apply IH.
Qed.

Lemma first_header_line (lines : list str) :
  Exists header_signature lines ->
  exists preamble header data,
    lines = preamble ++ header :: data /\
    Forall (fun line => ~ header_signature line) preamble /\
    header_signature header.
Proof.
  induction lines as [|line lines IH]; intros H; [inversion H|].
  destruct (Str.contains (u8 "Betrag") line && Str.contains (u8 "Wertstellung") line)
    eqn:E.
  - exists [], line, lines.
    split; [reflexivity | split; [constructor | now apply header_test]].
  - apply header_test_false in E.
    inversion H as [? ? Hx | ? ? Hx]; subst; [contradiction|].
    destruct (IH Hx) as [pre [hdr [data [-> [Hpre Hhdr]]]]].
    exists (line :: pre), hdr, data.
    split; [reflexivity | split; [now constructor | assumption]].
Qed.

(** C2: when some line of the file carries both markers, the extractor
    returns the lines that come after the first such line, in their order:
    of [N] preamble lines, the header line and [M] data lines it returns
    the [M] data lines. *)
Theorem find_transaction_lines_after_header (file : TextIOWrapper) (lines : list str) :
  io.readlines (encoding file) (raw file) = Ok lines ->
  (Exists header_signature lines ->
   exists preamble header data,
     lines = preamble ++ header :: data /\
     Forall (fun line => ~ header_signature line) preamble /\
     header_signature header /\
     find_transaction_lines file = Ok data) /\
  (forall preamble header data,
     lines = preamble ++ header :: data ->
     Forall (fun line => ~ header_signature line) preamble ->
     header_signature header ->
     find_transaction_lines file = Ok data /\
     data = skipn (S (length preamble)) lines /\
     length data = length lines - length preamble - 1).
Proof.
  intros Hread.
  assert (Hsplit : forall preamble header data,
             lines = preamble ++ header :: data ->
             Forall (fun line => ~ header_signature line) preamble ->
             header_signature header ->
             find_transaction_lines file = Ok data).
  { intros preamble header data -> Hpre Hhdr.
    unfold find_transaction_lines. rewrite Hread. cbn [bind].
    exact (loop_finds_header preamble header data Hpre Hhdr []). }
  split.
  - intros H. destruct (first_header_line lines H) as [pre [hdr [data [E [Hpre Hhdr]]]]].
    exists pre, hdr, data.
    split; [assumption | split; [assumption | split; [assumption|]]].
    now apply (Hsplit pre hdr data).
  - intros preamble header data E Hpre Hhdr. split; [now apply (Hsplit preamble header data)|].
    subst lines. split.
    + now rewrite <- Nat.add_1_r, skipn_past.
    + rewrite length_app. cbn [length]. lia.
Qed.

(** ** Decoding and the classifier *)

Lemma utf_8_decode_errors (final : bool) (n : nat) :
  forall bs, length bs <= n -> decode_error_only (codecs.utf_8_decode final bs).
Proof.
  induction n as [|n IH]; intros bs Hn e H.
  - destruct bs; [discriminate | simpl in Hn; lia].
  - destruct bs as [|b0 r0]; [discriminate|].
    cbn [codecs.utf_8_decode] in H. simpl in Hn.
    repeat match goal with
           | H : Raise _ = Raise _ |- _ => now inversion H
           | H : codecs.unfinished _ = Raise _ |- _ =>
               unfold codecs.unfinished in H; destruct final; [now inversion H | discriminate]
           | H : bind (codecs.utf_8_decode ?f ?r) _ = Raise _ |- _ =>
               let E := fresh "E" in
               destruct (codecs.utf_8_decode f r) eqn:E; cbn [bind] in H;
               [discriminate
               | inversion H; subst; apply (IH r); [simpl in *; lia | exact E]]
           | H : (if ?c then _ else _) = Raise _ |- _ => destruct c
           | H : match ?l with [] => _ | _ :: _ => _ end = Raise _ |- _ =>
               destruct l; simpl in Hn
           end.
Qed.

Lemma decode_errors (enc : codecs.encoding) (final : bool) (input : codecs.bytes) :
  decode_error_only (codecs.decode enc final input).
Proof.
  destruct enc; cbn [codecs.decode]; [|intros e H; discriminate].
  unfold codecs.utf_8_sig_decode.
  repeat match goal with
         | |- decode_error_only (if ?c then _ else _) => destruct c
         | |- decode_error_only (codecs.utf_8_decode _ ?l) =>
             apply (utf_8_decode_errors final (length l)); lia
         | |- decode_error_only (Ok _) => intros e H; discriminate
         end.
Qed.

Lemma pump_errors enc enough (pending : list codecs.bytes) :
  forall seen, decode_error_only (io.pump enc enough seen pending).
Proof.
  induction pending as [|c pending IH]; intros seen e; cbn [io.pump].
  - destruct (codecs.decode enc true seen) eqn:E; cbn [bind]; [discriminate|].
    intros H. inversion H; subst. exact (decode_errors enc true seen _ E).
  - destruct (codecs.decode enc false (seen ++ c)) eqn:E; cbn [bind].
    + destruct (enough _); [discriminate | apply IH].
    + intros H. inversion H; subst. exact (decode_errors enc false (seen ++ c) _ E).
Qed.

Lemma pump_latin_1 enough (pending : list codecs.bytes) :
  forall seen, exists t, io.pump codecs.iso_8859_1 enough seen pending = Ok t.
Proof.
  induction pending as [|c pending IH]; intros seen; cbn [io.pump codecs.decode bind].
  - unfold codecs.latin_1_decode. cbn [bind]. eauto.
  - unfold codecs.latin_1_decode. cbn [bind].
    destruct (enough _); [eauto | apply IH].
Qed.

Lemma readline_errors size enc (data : codecs.bytes) :
  decode_error_only (io.readline size enc data).
Proof.
  unfold io.readline. intros e.
  destruct (io.pump enc io.has_newline [] (io.chunks size data)) eqn:E;
    cbn [bind]; [discriminate|].
  intros H. inversion H; subst. exact (pump_errors enc _ _ _ _ E).
Qed.

Lemma readline_latin_1 size (data : codecs.bytes) :
  exists header, io.readline size codecs.iso_8859_1 data = Ok header.
Proof.
  unfold io.readline.
  destruct (pump_latin_1 io.has_newline (io.chunks size data) []) as [t ->].
  cbn [bind]. eauto.
Qed.

Lemma classify_cascade (header : str) :
  classify header =
  if Str.startswith header (quoted "Kreditkarte:") then OLD_VISA
  else if Str.startswith header (quoted "Kontonummer:") then CASH
  else if Str.startswith header (quoted "Girokonto") then GIRO
  else if Str.startswith header (quoted "Karte") then NEW_VISA
  else UNKNOWN.
Proof.
  unfold classify, detection_signatures. cbn [find fst snd].
  repeat match goal with |- context [if ?c then _ else _] => destruct c end;
    reflexivity.
Qed.

Section properties.

Variable buffer_size : positive.
Variable pads_year : bool.
Variable _guess_quote_and_delimiter : csv_dict.quote_guess.
Variable _guess_delimiter : csv_dict.delimiter_guess.

(** C1: the classifier never fails.  It decodes the first line of the
    file, as UTF-8 with an optional byte-order mark or, when that cannot
    be decoded, as ISO 8859-1, and answers the format of the first
    signature, in the order OLD_VISA, CASH, GIRO, NEW_VISA, that is a
    prefix of the line, or UNKNOWN when none is. *)
Theorem detect_csv_format_classifies (file_path : codecs.bytes) :
  exists header,
    (io.readline buffer_size codecs.utf_8_sig file_path = Ok header \/
     io.readline buffer_size codecs.utf_8_sig file_path = Raise UnicodeDecodeError /\
     io.readline buffer_size codecs.iso_8859_1 file_path = Ok header) /\
    detect_csv_format buffer_size file_path = Ok (classify header) /\
    In (classify header) [UNKNOWN; CASH; OLD_VISA; GIRO; NEW_VISA].
Proof.
  assert (Hcascade : forall header,
             match Some header with
             | None => Ok UNKNOWN
             | Some header =>
                 if Str.startswith header (quoted "Kreditkarte:") then Ok OLD_VISA
                 else if Str.startswith header (quoted "Kontonummer:") then Ok CASH
                 else if Str.startswith header (quoted "Girokonto") then Ok GIRO
                 else if Str.startswith header (quoted "Karte") then Ok NEW_VISA
                 else Ok UNKNOWN
             end = Ok (classify header)).
  { intros header. rewrite classify_cascade.
    repeat match goal with |- context [if ?c then _ else _] => destruct c end;
      reflexivity. }
  assert (Hfive : forall t, In t [UNKNOWN; CASH; OLD_VISA; GIRO; NEW_VISA]).
  { intros []; simpl; tauto. }
  unfold detect_csv_format, _read_header_line.
  destruct (io.readline buffer_size codecs.utf_8_sig file_path) as [header|e] eqn:E.
  - exists header. cbn [bind]. split; [now left|]. split; [apply Hcascade | apply Hfive].
  - pose proof (readline_errors buffer_size codecs.utf_8_sig file_path e E) as ->.
    destruct (readline_latin_1 buffer_size file_path) as [header H].
    exists header. rewrite H. cbn [bind].
    split; [now right|]. split; [apply Hcascade | apply Hfive].
Qed.

(** *** Files without a header line *)

Lemma convert_unopened (e : exception)
      (project : csv_dict.Row -> result (dict.t csv_dict.value)) :
  convert (Raise e) project = {| outfile := None; outcome := Raise e |}.
Proof. reflexivity. Qed.

Lemma open_csv_without_header (file : TextIOWrapper) (lines field_names : list str) :
  io.readlines (encoding file) (raw file) = Ok lines ->
  Forall (fun line => ~ header_signature line) lines ->
  raises (_open_csv buffer_size _guess_quote_and_delimiter _guess_delimiter
            (raw file) field_names (encoding file)).
Proof.
  intros Hread Hnone. unfold _open_csv, raises.
  destruct (io.read _ _ _ _) as [sample|e]; cbn [bind]; [|eauto].
  destruct (csv_dict.sniff _ _ _) as [dialect|e]; cbn [bind]; [|eauto].
  unfold find_transaction_lines. cbn [raw encoding]. rewrite Hread. cbn [bind].
  rewrite (loop_without_header lines lines 1 Hnone). cbn [bind]. eauto.
Qed.

(** X26: when no line of the file carries both markers, the extractor
    returns no lines but raises the fatal error of a file without header
    line (a [ValueError]); [_open_csv] fails with it unless reading or
    sniffing the sample failed before, and every projector ends in an
    exception without having opened its output file. *)
Theorem no_header_no_conversion (file : TextIOWrapper) (lines : list str) :
  io.readlines (encoding file) (raw file) = Ok lines ->
  Forall (fun line => ~ header_signature line) lines ->
  find_transaction_lines file
  = Raise (ValueError "Can't convert CSV file without header line") /\
  (forall field_names dialect,
      bind (io.read buffer_size (encoding file) 1024 (raw file))
           (csv_dict.sniff _guess_quote_and_delimiter _guess_delimiter)
      = Ok dialect ->
      _open_csv buffer_size _guess_quote_and_delimiter _guess_delimiter
        (raw file) field_names (encoding file)
      = Raise (ValueError "Can't convert CSV file without header line")) /\
  (encoding file = codecs.iso_8859_1 ->
   Forall (fun convert_x : codecs.bytes -> run =>
             outfile (convert_x (raw file)) = None /\
             raises (outcome (convert_x (raw file))))
          [convert_cash buffer_size pads_year
             _guess_quote_and_delimiter _guess_delimiter;
           convert_old_visa buffer_size pads_year
             _guess_quote_and_delimiter _guess_delimiter]) /\
  (encoding file = codecs.utf_8_sig ->
   Forall (fun convert_x : codecs.bytes -> run =>
             outfile (convert_x (raw file)) = None /\
             raises (outcome (convert_x (raw file))))
          [convert_new_visa buffer_size pads_year
             _guess_quote_and_delimiter _guess_delimiter;
           convert_giro buffer_size pads_year
             _guess_quote_and_delimiter _guess_delimiter]).
Proof.
  intros Hread Hnone.
  assert (Hconv : forall field_names project,
             let r := convert (_open_csv buffer_size _guess_quote_and_delimiter
                                 _guess_delimiter (raw file) field_names
                                 (encoding file)) project in
             outfile r = None /\ raises (outcome r)).
  { intros field_names project.
    destruct (open_csv_without_header file lines field_names Hread Hnone) as [e ->].
    cbn. split; [reflexivity | now exists e]. }
  split; [|split; [|split]].
  - unfold find_transaction_lines. rewrite Hread. cbn [bind].
    apply loop_without_header. exact Hnone.
  - intros field_names dialect Hsniff. unfold _open_csv.
    destruct (io.read _ _ _ _) as [sample|e]; cbn [bind] in *; [|discriminate].
    rewrite Hsniff. cbn [bind].
    unfold find_transaction_lines. cbn [raw encoding]. rewrite Hread. cbn [bind].
    now rewrite (loop_without_header lines lines 1 Hnone).
  - intros Henc. unfold convert_cash, convert_old_visa. rewrite <- Henc.
    repeat constructor; apply Hconv.
  - intros Henc. unfold convert_new_visa, convert_giro. rewrite <- Henc.
    repeat constructor; apply Hconv.
Qed.

(** *** The unknown format *)

(** C8, as the program has it: for a file classified UNKNOWN the script
    prints its complaint on the standard error stream, converts nothing
    and writes no file; no exception is raised and the process ends with
    status 0. *)
Theorem unknown_format_reports (args : Namespace) :
  detect_csv_format buffer_size (file args) = Ok UNKNOWN ->
  let p := main buffer_size pads_year _guess_quote_and_delimiter
             _guess_delimiter args in
  stderr p = [u8 "Could not detect CSV file type. Are you sure this is a legitimate file?"] /\
  written p = None /\
  uncaught p = None /\
  exit_status p = 0%Z.
Proof.
  intros H. unfold main. rewrite H. cbn. repeat split.
Qed.

(** *** The record parser *)

Lemma get_set {V} (d : dict.t V) (k k' : str) (v : V) :
  dict.get (dict.set d k v) k' = if Str.eqb k k' then Some v else dict.get d k'.
Proof.
  induction d as [|[k0 w] d IH]; cbn [dict.set dict.get].
  - reflexivity.
  - destruct (Str.eqb k0 k) eqn:E0; cbn [dict.get].
    + apply eqb_eq in E0. subst k0. now destruct (Str.eqb k k').
    + rewrite IH. destruct (Str.eqb k0 k') eqn:E1; [|reflexivity].
      apply eqb_eq in E1. subst k'.
      destruct (Str.eqb k k0) eqn:E2; [|reflexivity].
      apply eqb_eq in E2. subst k. now rewrite eqb_refl in E0.
Qed.

Lemma get_of_pairs_other {V} (pairs : list (str * V)) (k : str) :
  ~ In k (map fst pairs) ->
  forall d, dict.get (fold_left (fun d kv => dict.set d (fst kv) (snd kv)) pairs d) k
            = dict.get d k.
Proof.
  induction pairs as [|[k1 v1] pairs IH]; intros Hk d; [reflexivity|].
  cbn [fold_left fst snd]. rewrite IH by (intros H; apply Hk; now right).
  rewrite get_set. destruct (Str.eqb k1 k) eqn:E; [|reflexivity].
  apply eqb_eq in E. exfalso. apply Hk. now left.
Qed.

Lemma get_of_pairs {V} (pairs : list (str * V)) (k : str) (v : V) :
  NoDup (map fst pairs) -> In (k, v) pairs ->
  forall d, dict.get (fold_left (fun d kv => dict.set d (fst kv) (snd kv)) pairs d) k
            = Some v.
Proof.
  induction pairs as [|[k1 v1] pairs IH]; intros Hnd Hin d; [contradiction|].
  cbn [fold_left fst snd]. cbn [map fst] in Hnd. inversion Hnd as [|? ? Hk1 Hnd']; subst.
  destruct Hin as [E | Hin].
  - injection E as -> ->. rewrite get_of_pairs_other by exact Hk1.
    now rewrite get_set, eqb_refl.
  - now apply IH.
Qed.

Lemma get_filled_other {V} (keys : list str) (k : str) (v : V) :
  ~ In k keys ->
  forall d, dict.get (fold_left (fun d key => dict.set d key v) keys d) k
            = dict.get d k.
Proof.
  induction keys as [|k1 keys IH]; intros Hk d; [reflexivity|].
  cbn [fold_left]. rewrite IH by (intros H; apply Hk; now right).
  rewrite get_set. destruct (Str.eqb k1 k) eqn:E; [|reflexivity].
  apply eqb_eq in E. exfalso. apply Hk. now left.
Qed.

Lemma get_filled {V} (keys : list str) (k : str) (v : V) :
  forall d, dict.get d k = Some v \/ In k keys ->
            dict.get (fold_left (fun d key => dict.set d key v) keys d) k = Some v.
Proof.
  induction keys as [|k1 keys IH]; intros d H; cbn [fold_left].
  - destruct H as [H | []]. exact H.
  - apply IH. rewrite get_set. destruct (Str.eqb k1 k) eqn:E.
    + now left.
    + destruct H as [H | [H | H]]; [now left | | now right].
      subst k1. now rewrite eqb_refl in E.
Qed.

Lemma in_combine_nth {A B} (l : list A) (l' : list B) (i : nat) (a : A) (b : B) :
  nth_error l i = Some a -> nth_error l' i = Some b -> In (a, b) (combine l l').
Proof.
  revert l' i. induction l as [|x l IH]; intros [|y l'] [|i]; cbn;
    try discriminate.
  - intros H1 H2. injection H1 as ->. injection H2 as ->. now left.
  - intros H1 H2. right. eapply IH; eassumption.
Qed.

Lemma NoDup_fst_combine {A B} (l : list A) (l' : list B) :
  NoDup l -> NoDup (map fst (combine l l')).
Proof.
  intros H. revert l'. induction H as [|x l Hx _ IH]; intros [|y l']; cbn;
    try constructor.
  - intros Hin. apply Hx. apply in_map_iff in Hin as [[a b] [E Hin]].
    cbn in E. subst a. eapply in_combine_l. exact Hin.
  - apply IH.
Qed.

Lemma skipn_misses {A} (l : list A) (n i : nat) (a : A) :
  NoDup l -> nth_error l i = Some a -> i < n -> ~ In a (skipn n l).
Proof.
  intros H. revert n i. induction H as [|x l Hx _ IH]; intros n i Hi Hlt.
  - now destruct i.
  - destruct n as [|n]; [lia|]. cbn [skipn]. destruct i as [|i]; cbn in Hi.
    + injection Hi as ->. intros Hin. apply Hx.
      rewrite <- (firstn_skipn n l). apply in_or_app. now right.
    + apply (IH n i Hi). lia.
Qed.

Lemma skipn_hits {A} (l : list A) (n i : nat) (a : A) :
  nth_error l i = Some a -> n <= i -> In a (skipn n l).
Proof.
  revert n i. induction l as [|x l IH]; intros n i Hi Hle.
  - now destruct i.
  - destruct n as [|n]; [eapply nth_error_In; exact Hi|].
    destruct i as [|i]; [lia|]. cbn in *. apply (IH n i Hi). lia.
Qed.

(** Cells are bound by position: the name at index [i] holds the cell at
    index [i] of the record, and [None] when the record is too short. *)
Lemma bind_row_positional (fieldnames : list str) (record : list str)
      (i : nat) (name : str) :
  NoDup fieldnames ->
  nth_error fieldnames i = Some name ->
  dict.get (csv_dict.cells (csv_dict.bind_row fieldnames record)) name
  = Some (nth_error record i).
Proof.
  intros Hnd Hi. unfold csv_dict.bind_row, dict.of_pairs.
  assert (Hlt : i < length fieldnames) by (apply nth_error_Some; congruence).
  destruct (nth_error record i) as [x|] eqn:Hx.
  - assert (Hin : In (name, Some x) (combine fieldnames (map Some record))).
    { eapply in_combine_nth; [exact Hi|]. now rewrite nth_error_map, Hx. }
    assert (Hget := get_of_pairs _ name (Some x)
                      (NoDup_fst_combine fieldnames (map Some record) Hnd) Hin []).
    destruct (length fieldnames <? length record); cbn [csv_dict.cells];
      [exact Hget|].
    rewrite get_filled_other; [exact Hget|].
    apply (skipn_misses fieldnames (length record) i name Hnd Hi).
    apply nth_error_Some. congruence.
  - apply nth_error_None in Hx.
    destruct (length fieldnames <? length record) eqn:E.
    + apply Nat.ltb_lt in E. lia.
    + cbn [csv_dict.cells]. apply get_filled. right.
      now apply (skipn_hits fieldnames (length record) i name).
Qed.

Lemma schemas_NoDup :
  Forall (fun names => NoDup names)
         [cash_field_names; old_visa_field_names; new_visa_field_names;
          giro_field_names].
Proof.
  assert (H : forall names : list str,
             (fix distinct (l : list str) : bool :=
                match l with
                | [] => true
                | x :: l' => negb (existsb (Str.eqb x) l') && distinct l'
                end) names = true -> NoDup names).
  { induction names as [|x names IH]; intros H; [constructor|].
    apply andb_true_iff in H as [Hx H]. constructor.
    - intros Hin. apply negb_true_iff in Hx.
      assert (existsb (Str.eqb x) names = true); [|congruence].
      apply existsb_exists. exists x. split; [exact Hin | apply eqb_refl].
    - now apply IH. }
  repeat apply Forall_cons; try apply Forall_nil; apply H; vm_compute; reflexivity.
Qed.

(** C9, as the program has it: the reader parses the data rows with the
    dialect [csv.Sniffer] guesses from the first 1024 characters of the
    file.  Its delimiter and quote character are guessed (the quote
    character falls back to the quotation mark), its quoting is minimal; the
    dialect [DKB] of the program is used for writing only.  The rows are
    the records of the lines after the header line that are not blank,
    and each is bound to the schema by position. *)
Theorem open_csv_sniffs_dialect (file_path : codecs.bytes) (field_names : list str)
        (enc : codecs.encoding) (reader : csv_dict.DictReader) :
  _open_csv buffer_size _guess_quote_and_delimiter _guess_delimiter
    file_path field_names enc = Ok reader ->
  (exists sample,
      io.read buffer_size enc 1024 file_path = Ok sample /\
      csv_dict.sniff _guess_quote_and_delimiter _guess_delimiter sample
      = Ok (csv_dict.dialect reader)) /\
  csv.quoting (csv_dict.dialect reader) = csv.QUOTE_MINIMAL /\
  find_transaction_lines {| raw := file_path; encoding := enc |}
  = Ok (csv_dict.lines reader) /\
  csv_dict.fieldnames reader = field_names /\
  fst (csv_dict.rows reader)
  = map (csv_dict.bind_row field_names)
        (filter (fun record => negb (csv_dict.is_blank record))
                (fst (csv.reader (csv_dict.lines reader) (csv_dict.dialect reader)))) /\
  (In field_names [cash_field_names; old_visa_field_names;
                   new_visa_field_names; giro_field_names] ->
   forall record i name,
     nth_error field_names i = Some name ->
     dict.get (csv_dict.cells (csv_dict.bind_row field_names record)) name
     = Some (nth_error record i)).
Proof.
  unfold _open_csv. intros H.
  destruct (io.read buffer_size enc 1024 file_path) as [sample|e] eqn:Hread;
    cbn [bind] in H; [|discriminate].
  destruct (csv_dict.sniff _ _ sample) as [dialect|e] eqn:Hsniff;
    cbn [bind] in H; [|discriminate].
  destruct (find_transaction_lines _) as [lines|e] eqn:Hlines;
    cbn [bind] in H; [|discriminate].
  injection H as <-. cbn [csv_dict.dialect csv_dict.lines csv_dict.fieldnames].
  split; [now exists sample|]. split; [|split; [reflexivity|split; [reflexivity|split]]].
  - unfold csv_dict.sniff in Hsniff.
    destruct (_guess_quote_and_delimiter sample) as [[[q dq] [delim|]] sp].
    + injection Hsniff as <-. reflexivity.
    + destruct (_guess_delimiter sample) as [[delim|] sp']; [|discriminate].
      injection Hsniff as <-. reflexivity.
  - unfold csv_dict.rows. cbn [csv_dict.dialect csv_dict.lines csv_dict.fieldnames].
    now destruct (csv.reader lines dialect).
  - intros Hschema record i name Hi.
    apply bind_row_positional; [|exact Hi].
    pose proof schemas_NoDup as Hnd. rewrite Forall_forall in Hnd. now apply Hnd.
Qed.

(** *** The rows the projectors write *)



Lemma projected_record (P : projector) (row : csv_dict.Row)
      (record : dict.t csv_dict.value) :
  In P (projectors buffer_size pads_year _guess_quote_and_delimiter _guess_delimiter) ->
  project P row = Ok record ->
  exists date paymode payee memo amount,
    record = homebank_record date paymode payee memo amount.
Proof.
  intros HP H.
  repeat (destruct HP as [<- | HP]; [|]); try contradiction;
    cbn [project] in H;
    unfold cash_row, old_visa_row, new_visa_row, giro_row in H;
    repeat match type of H with
           | bind ?r _ = Ok _ => destruct r; cbn [bind] in H; [|discriminate]
           end;
    injection H as <-; unfold homebank_record; do 5 eexists; reflexivity.
Qed.



(** *** Rows whose date is rejected *)


Lemma write_rows_complete (project : csv_dict.Row -> result (dict.t csv_dict.value))
      (rows : list csv_dict.Row) (stop : option exception) :
  forall written_lines,
    outcome (write_rows project rows stop written_lines) = Ok tt ->
    stop = None /\
    exists lines,
      outfile (write_rows project rows stop written_lines)
      = Some (written_lines ++ lines) /\
      length lines = length rows.
Proof.
  induction rows as [|row rows IH]; intros acc H; cbn [write_rows] in *.
  - cbn in *. destruct stop; [discriminate|]. split; [reflexivity|].
    exists []. now rewrite app_nil_r.
  - destruct (bind (project row) _) as [line|]; [|discriminate].
    destruct (IH _ H) as [Hstop [lines [-> Hlen]]]. split; [exact Hstop|].
    exists (line :: lines). rewrite <- app_assoc. cbn. now rewrite Hlen.
Qed.

Lemma int_errors (s : str) (e : exception) :
  datetime.int s = Raise e -> exists msg, e = ValueError msg.
Proof.
  unfold datetime.int. destruct (Str.strip s) as [|c t].
  - intros H. injection H as <-. eauto.
  - generalize (c :: t). generalize 0%N. intros acc l. revert acc.
    induction l as [|x l IH]; intros acc; cbn [datetime.int_digits];
      [discriminate|].
    destruct (datetime.decimal_value x); [apply IH|].
    intros H. injection H as <-. eauto.
Qed.

Lemma convert_errors (found : datetime.groups) (e : exception) :
  forall y m d,
    datetime.convert found y m d = Raise e -> exists msg, e = ValueError msg.
Proof.
  induction found as [|[k text] found IH]; intros y m d; cbn [datetime.convert];
    [discriminate|].
  destruct (datetime.int text) eqn:E; cbn [bind].
  - destruct k; apply IH.
  - intros H. injection H as <-. eapply int_errors. exact E.
Qed.

Lemma new_date_errors (y m d : N) (e : exception) :
  datetime.new_date y m d = Raise e -> exists msg, e = ValueError msg.
Proof.
  unfold datetime.new_date.
  repeat match goal with |- context [if ?c then _ else _] => destruct c end;
    intros H; try discriminate; injection H as <-; eauto.
Qed.

Lemma strptime_errors (data_string : option str) (format : str) (e : exception) :
  datetime.strptime data_string format = Raise e ->
  (exists s msg, data_string = Some s /\ e = ValueError msg) \/
  (data_string = None /\ exists msg, e = TypeError msg).
Proof.
  unfold datetime.strptime. destruct data_string as [s|].
  - intros H. left. exists s. cut (exists msg, e = ValueError msg).
    { intros [msg ->]. now exists msg. }
    destruct (datetime.scan _ format) as [items|];
      [|injection H as <-; eauto].
    destruct (datetime.match_items items [] s) as [|[found [|c rest]] others];
      [injection H as <-; eauto | | injection H as <-; eauto].
    destruct (datetime.convert found None 1 1) as [[[y m] d]|] eqn:E;
      cbn [bind] in H.
    + destruct y as [y|]; [eapply new_date_errors; exact H|].
      destruct (datetime.new_date _ m d) eqn:E1; cbn [bind] in H.
      * eapply new_date_errors; exact H.
      * injection H as <-. eapply new_date_errors; exact E1.
    + injection H as <-. eapply convert_errors. exact E.
  - intros H. right. injection H as <-. eauto.
Qed.



Lemma convert_x_unfold (P : projector) (file_path : codecs.bytes) :
  In P (projectors buffer_size pads_year _guess_quote_and_delimiter _guess_delimiter) ->
  convert_x P file_path
  = convert (_open_csv buffer_size _guess_quote_and_delimiter _guess_delimiter
               file_path (schema P) (reads P)) (project P).
Proof.
  intros HP. repeat (destruct HP as [<- | HP]; [reflexivity|]). contradiction.
Qed.


(** *** Dates *)

Local Ltac Zify.zify_post_hook ::= Z.to_euclidean_division_equations.

Local Ltac compare_all :=
  repeat match goal with
         | |- context [(?a <=? ?b)%N] => destruct (N.leb_spec a b); try lia
         | |- context [(?a <? ?b)%N] => destruct (N.ltb_spec a b); try lia
         | |- context [(?a =? ?b)%N] => destruct (N.eqb_spec a b); try lia
         end.

Lemma decimal_value_digit (q : N) :
  (q < 10)%N -> datetime.decimal_value (Str.digit q) = Some q.
Proof.
  intros H. unfold datetime.decimal_value, datetime.decimal_runs, Str.digit.
  cbn [find]. compare_all. cbn [andb]. f_equal. lia.
Qed.

Lemma isdecimal_digit (q : N) :
  (q < 10)%N -> datetime.isdecimal (Str.digit q) = true.
Proof. intros H. unfold datetime.isdecimal. now rewrite decimal_value_digit. Qed.

Lemma isspace_digit (q : N) : (q < 10)%N -> Str.isspace (Str.digit q) = false.
Proof.
  intros H. unfold Str.isspace, Str.digit. compare_all; reflexivity.
Qed.

Lemma decimal_fuel_small (fuel : nat) (n : N) (acc : str) :
  (n < 10)%N -> Str.decimal_fuel (S fuel) n acc = Str.digit n :: acc.
Proof.
  intros H. cbn [Str.decimal_fuel]. apply N.ltb_lt in H as H'. rewrite H'.
  now rewrite N.mod_small.
Qed.

Lemma decimal_fuel_step (fuel : nat) (n : N) (acc : str) :
  (10 <= n)%N ->
  Str.decimal_fuel (S fuel) n acc
  = Str.decimal_fuel fuel (n / 10) (Str.digit (n mod 10) :: acc).
Proof.
  intros H. cbn [Str.decimal_fuel]. apply N.ltb_ge in H. now rewrite H.
Qed.

Lemma log2_fuel (lo n : N) (k : nat) :
  (lo <= n)%N -> k <= N.to_nat (N.log2 lo) ->
  exists fuel, S (N.to_nat (N.log2 n)) = S (k + fuel).
Proof.
  intros Hn Hk. apply N.log2_le_mono in Hn.
  exists (N.to_nat (N.log2 n) - k). lia.
Qed.

Lemma decimal_1 (n : N) : (n < 10)%N -> Str.decimal n = [Str.digit n].
Proof. intros H. unfold Str.decimal. now apply decimal_fuel_small. Qed.

Lemma decimal_2 (n : N) :
  (10 <= n < 100)%N -> Str.decimal n = [Str.digit (n / 10); Str.digit (n mod 10)].
Proof.
  intros H. unfold Str.decimal.
  destruct (log2_fuel 10 n 1) as [fuel ->]; [lia | cbn; lia |].
  cbn [Nat.add]. rewrite decimal_fuel_step by lia.
  apply decimal_fuel_small. lia.
Qed.

Lemma decimal_3 (n : N) :
  (100 <= n < 1000)%N ->
  Str.decimal n
  = [Str.digit (n / 100); Str.digit (n / 10 mod 10); Str.digit (n mod 10)].
Proof.
  intros H. unfold Str.decimal.
  destruct (log2_fuel 100 n 2) as [fuel ->]; [lia | cbn; lia |].
  cbn [Nat.add]. rewrite !decimal_fuel_step by lia.
  rewrite decimal_fuel_small by lia.
  replace (n / 10 / 10)%N with (n / 100)%N by lia. reflexivity.
Qed.

Lemma decimal_4 (n : N) :
  (1000 <= n < 10000)%N ->
  Str.decimal n
  = [Str.digit (n / 1000); Str.digit (n / 100 mod 10);
     Str.digit (n / 10 mod 10); Str.digit (n mod 10)].
Proof.
  intros H. unfold Str.decimal.
  destruct (log2_fuel 1000 n 3) as [fuel ->]; [lia | cbn; lia |].
  cbn [Nat.add]. rewrite !decimal_fuel_step by lia.
  rewrite decimal_fuel_small by lia.
  replace (n / 10 / 10 / 10)%N with (n / 1000)%N by lia.
  replace (n / 10 / 10 mod 10)%N with (n / 100 mod 10)%N by lia.
  reflexivity.
Qed.

Lemma pad2_digits (n : N) :
  (n < 100)%N -> pad2 n = [Str.digit (n / 10); Str.digit (n mod 10)].
Proof.
  intros H. unfold pad2. destruct (N.lt_ge_cases n 10) as [Hs | Hl].
  - rewrite decimal_1 by exact Hs. cbn.
    rewrite N.div_small by exact Hs. now rewrite N.mod_small by exact Hs.
  - now rewrite decimal_2 by lia.
Qed.

Lemma pad4_digits (n : N) :
  (n < 10000)%N ->
  pad4 n = [Str.digit (n / 1000); Str.digit (n / 100 mod 10);
            Str.digit (n / 10 mod 10); Str.digit (n mod 10)].
Proof.
  intros H. unfold pad4.
  destruct (N.lt_ge_cases n 10) as [H1 | H1];
    [|destruct (N.lt_ge_cases n 100) as [H2 | H2];
      [|destruct (N.lt_ge_cases n 1000) as [H3 | H3]]].
  - rewrite decimal_1 by exact H1. cbn.
    replace (n / 1000)%N with 0%N by lia. replace (n / 100 mod 10)%N with 0%N by lia.
    replace (n / 10 mod 10)%N with 0%N by lia. now rewrite N.mod_small by lia.
  - rewrite decimal_2 by lia. cbn.
    replace (n / 1000)%N with 0%N by lia. replace (n / 100 mod 10)%N with 0%N by lia.
    replace (n / 10 mod 10)%N with (n / 10)%N by lia. reflexivity.
  - rewrite decimal_3 by lia. cbn.
    replace (n / 1000)%N with 0%N by lia.
    replace (n / 100 mod 10)%N with (n / 100)%N by lia. reflexivity.
  - now rewrite decimal_4 by lia.
Qed.

Lemma strip_no_space (s : str) :
  Forall (fun c => Str.isspace c = false) s -> Str.strip s = s.
Proof.
  intros H. unfold Str.strip, Str.rstrip.
  assert (Hl : forall t, Forall (fun c => Str.isspace c = false) t ->
                         Str.lstrip t = t).
  { intros [|c t] Ht; [reflexivity|]. inversion Ht; subst. now apply lstrip_fixed. }
  rewrite (Hl s H), (Hl (rev s)) by (now apply Forall_rev).
  apply rev_involutive.
Qed.

Lemma int_pad2 (n : N) : (n < 100)%N -> datetime.int (pad2 n) = Ok n.
Proof.
  intros H. rewrite pad2_digits by exact H. unfold datetime.int.
  rewrite strip_no_space by (repeat constructor; apply isspace_digit; lia).
  do 3 (cbn [datetime.int_digits]; rewrite ?decimal_value_digit by lia).
  f_equal. lia.
Qed.

Lemma int_pad4 (n : N) : (n < 10000)%N -> datetime.int (pad4 n) = Ok n.
Proof.
  intros H. rewrite pad4_digits by exact H. unfold datetime.int.
  rewrite strip_no_space by (repeat constructor; apply isspace_digit; lia).
  do 5 (cbn [datetime.int_digits]; rewrite ?decimal_value_digit by lia).
  f_equal. lia.
Qed.

Lemma hd_error_flat_map {A B} (f : A -> list B) (l : list A) (x : A) (y : B) :
  hd_error l = Some x -> hd_error (f x) = Some y ->
  hd_error (flat_map f l) = Some y.
Proof.
  destruct l as [|a l]; cbn; intros H1 H2; [discriminate|].
  injection H1 as ->. destruct (f x); [discriminate|]. exact H2.
Qed.

Lemma regex_day (d : N) (rest : str) :
  (1 <= d <= 31)%N ->
  hd_error (datetime.regex datetime.pct_d (pad2 d ++ rest)) = Some (pad2 d, rest).
Proof.
  intros H. remember (N.to_nat d) as n eqn:E.
  assert (Hd : d = N.of_nat n) by lia. subst d. clear E.
  do 32 (destruct n as [|n];
         [first [exfalso; lia | vm_compute; reflexivity]|]).
  exfalso. lia.
Qed.

Lemma regex_month (m : N) (rest : str) :
  (1 <= m <= 12)%N ->
  hd_error (datetime.regex datetime.pct_m (pad2 m ++ rest)) = Some (pad2 m, rest).
Proof.
  intros H. remember (N.to_nat m) as n eqn:E.
  assert (Hm : m = N.of_nat n) by lia. subst m. clear E.
  do 13 (destruct n as [|n];
         [first [exfalso; lia | vm_compute; reflexivity]|]).
  exfalso. lia.
Qed.

Lemma regex_year2 (n : N) :
  (n < 100)%N -> datetime.regex datetime.pct_y (pad2 n) = [(pad2 n, [])].
Proof.
  intros H. rewrite pad2_digits by exact H.
  unfold datetime.regex, datetime.seq, datetime.digit.
  repeat (cbn [datetime.one flat_map map app fst snd];
          rewrite ?isdecimal_digit by lia).
  reflexivity.
Qed.

Lemma regex_year4 (n : N) :
  (n < 10000)%N -> datetime.regex datetime.pct_Y (pad4 n) = [(pad4 n, [])].
Proof.
  intros H. rewrite pad4_digits by exact H.
  unfold datetime.regex, datetime.seq, datetime.digit.
  repeat (cbn [datetime.one flat_map map app fst snd];
          rewrite ?isdecimal_digit by lia).
  reflexivity.
Qed.

Lemma new_date_valid (y m d : N) :
  valid_date y m d ->
  datetime.new_date y m d
  = Ok {| datetime.year := y; datetime.month := m; datetime.day := d |}.
Proof.
  intros [Hy [Hm Hd]]. unfold datetime.new_date.
  replace ((1 <=? y) && (y <=? 9999))%N with true
    by (symmetry; apply andb_true_iff; split; apply N.leb_le; lia).
  replace ((1 <=? m) && (m <=? 12))%N with true
    by (symmetry; apply andb_true_iff; split; apply N.leb_le; lia).
  replace ((1 <=? d) && (d <=? datetime.days_in_month y m))%N with true
    by (symmetry; apply andb_true_iff; split; apply N.leb_le; lia).
  reflexivity.
Qed.

Lemma days_in_month_le (y m : N) : (datetime.days_in_month y m <= 31)%N.
Proof.
  unfold datetime.days_in_month.
  repeat match goal with |- context [if ?c then _ else _] => destruct c end; lia.
Qed.

(** Parsing a two-digit day, a two-digit month and a year, separated by
    dots: the text is matched whole by the first way the regular
    expression finds, and the groups convert to the numbers they spell. *)
Lemma strptime_date (format : str) (yk : datetime.directive) (ytext : str)
      (y m d : N) :
  datetime.scan datetime.punctuation format
  = Some [datetime.Directive datetime.pct_d; datetime.Literal 46%N;
          datetime.Directive datetime.pct_m; datetime.Literal 46%N;
          datetime.Directive yk] ->
  datetime.regex yk ytext = [(ytext, [])] ->
  datetime.convert [(yk, ytext)] None m d = Ok (Some y, m, d) ->
  valid_date y m d ->
  datetime.strptime (Some (date_text 46%N d m ytext)) format
  = Ok {| datetime.year := y; datetime.month := m; datetime.day := d |}.
Proof.
  intros Hscan Hregex Hconv Hvalid.
  unfold datetime.strptime, date_text. rewrite Hscan.
  assert (Hd : (1 <= d <= 31)%N).
  { destruct Hvalid as [_ [_ Hd]]. pose proof (days_in_month_le y m). lia. }
  assert (Hm : (1 <= m <= 12)%N) by apply Hvalid.
  assert (Hmatch :
           hd_error (datetime.match_items
                       [datetime.Directive datetime.pct_d; datetime.Literal 46%N;
                        datetime.Directive datetime.pct_m; datetime.Literal 46%N;
                        datetime.Directive yk] []
                       (pad2 d ++ 46%N :: pad2 m ++ 46%N :: ytext))
           = Some ([(datetime.pct_d, pad2 d); (datetime.pct_m, pad2 m);
                    (yk, ytext)], [])).
  { cbn [datetime.match_items].
    eapply hd_error_flat_map; [apply regex_day; exact Hd|].
    cbn [fst snd app]. rewrite N.eqb_refl.
    eapply hd_error_flat_map; [apply regex_month; exact Hm|].
    cbn [fst snd app]. rewrite N.eqb_refl, Hregex. reflexivity. }
  destruct (datetime.match_items _ _ _) as [|[found rest] others];
    [discriminate|].
  injection Hmatch as -> ->.
  cbn [datetime.convert] in *. rewrite !int_pad2 by lia. cbn [bind].
  rewrite Hconv. cbn [bind]. now apply new_date_valid.
Qed.

Lemma strftime_date (y m d : N) :
  datetime.strftime pads_year
    {| datetime.year := y; datetime.month := m; datetime.day := d |}
    (u8 "%d-%m-%Y")
  = Ok (date_text 45%N d m (if pads_year then pad4 y else Str.decimal y)).
Proof.
  unfold datetime.strftime.
  replace (datetime.scan (fun _ => true) (u8 "%d-%m-%Y"))
    with (Some [datetime.Directive datetime.pct_d; datetime.Literal 45%N;
                datetime.Directive datetime.pct_m; datetime.Literal 45%N;
                datetime.Directive datetime.pct_Y])
    by (vm_compute; reflexivity).
  cbn [map concat datetime.format_item datetime.year datetime.month datetime.day].
  rewrite app_nil_r. unfold date_text. destruct pads_year; reflexivity.
Qed.

Lemma decimal_pad4 (y : N) : (1000 <= y <= 9999)%N -> Str.decimal y = pad4 y.
Proof.
  intros H. unfold pad4. rewrite decimal_4 by lia. reflexivity.
Qed.

(** X7: a valid date written [dd.mm.yyyy] comes out as [dd-mm-yyyy] with
    the same day, month and year, for years from 1000 on, and for earlier
    years too where [strftime] zero-fills the year. *)
Theorem convert_date_reformats (y m d : N) :
  valid_date y m d ->
  (1000 <= y)%N \/ pads_year = true ->
  convert_date pads_year (Some (dd_mm_yyyy 46%N d m y)) = Ok (dd_mm_yyyy 45%N d m y).
Proof.
  intros Hvalid Hyear. unfold convert_date, dd_mm_yyyy.
  assert (Hy : (1 <= y <= 9999)%N) by apply Hvalid.
  rewrite (strptime_date (u8 "%d.%m.%Y") datetime.pct_Y (pad4 y) y m d).
  - cbn [bind]. rewrite strftime_date. destruct pads_year; [reflexivity|].
    destruct Hyear as [Hyear | Hyear]; [|discriminate].
    now rewrite decimal_pad4 by lia.
  - vm_compute. reflexivity.
  - apply regex_year4. lia.
  - cbn [datetime.convert]. rewrite int_pad4 by lia. reflexivity.
  - exact Hvalid.
Qed.

(** C10: a valid date written [dd.mm.yy] comes out as [dd-mm-yyyy] with
    the year 2000+yy for yy from 0 to 68 and 1900+yy for yy from 69 to
    99; 05.04.23 gives 05-04-2023 and 01.01.70 gives 01-01-1970. *)
Theorem convert_short_date_windows_century (yy m d : N) :
  (yy <= 99)%N ->
  valid_date (century_window yy) m d ->
  convert_short_date pads_year (Some (dd_mm_yy 46%N d m yy))
  = Ok (dd_mm_yyyy 45%N d m (century_window yy)) /\
  ((yy <= 68)%N -> century_window yy = (2000 + yy)%N) /\
  ((69 <= yy)%N -> century_window yy = (1900 + yy)%N) /\
  convert_short_date pads_year (Some (u8 "05.04.23")) = Ok (u8 "05-04-2023") /\
  convert_short_date pads_year (Some (u8 "01.01.70")) = Ok (u8 "01-01-1970").
Proof.
  intros Hyy Hvalid.
  assert (Hwindow : (1969 <= century_window yy <= 2068)%N).
  { unfold century_window. destruct (N.leb_spec yy 68); lia. }
  split; [|split; [|split; [|split]]].
  - unfold convert_short_date, dd_mm_yy, dd_mm_yyyy.
    rewrite (strptime_date (u8 "%d.%m.%y") datetime.pct_y (pad2 yy)
               (century_window yy) m d).
    + cbn [bind]. rewrite strftime_date.
      destruct pads_year; [reflexivity|]. now rewrite decimal_pad4 by lia.
    + vm_compute. reflexivity.
    + apply regex_year2. lia.
    + cbn [datetime.convert]. rewrite int_pad2 by lia. cbn [bind].
      unfold century_window. destruct (yy <=? 68)%N; now rewrite (N.add_comm yy).
    + exact Hvalid.
  - intros H. unfold century_window. apply N.leb_le in H. now rewrite H.
  - intros H. unfold century_window. destruct (N.leb_spec yy 68); [lia | reflexivity].
  - destruct pads_year; vm_compute; reflexivity.
  - destruct pads_year; vm_compute; reflexivity.
Qed.

End properties.

(** ** The properties on the sample files *)

Lemma find_transaction_lines_sample :
  find_transaction_lines {| raw := sample_cash; encoding := codecs.iso_8859_1 |}
  = Ok sample_data.
Proof.
  destruct (find_transaction_lines_after_header
              {| raw := sample_cash; encoding := codecs.iso_8859_1 |}
              (sample_preamble ++ sample_header :: sample_data)) as [_ H].
  - vm_compute. reflexivity.
  - apply (H sample_preamble sample_header sample_data).
    + reflexivity.
    + repeat constructor; apply header_test_false; vm_compute; reflexivity.
    + apply header_test. vm_compute. reflexivity.
Defined.

Lemma convert_date_sample :
  convert_date false (Some (u8 "01.03.2023")) = Ok (u8 "01-03-2023").
Proof.
  apply (convert_date_reformats false 2023 3 1).
  - unfold valid_date. vm_compute. repeat split; discriminate.
  - left. vm_compute. discriminate.
Defined.

(** C4 at the year 99: [01.03.0099] is a valid date in the form
    [dd.mm.yyyy], and where [strftime] does not zero-fill the year
    [convert_date] answers [01-03-99], which is not [01-03-0099], the form
    [dd-mm-yyyy] its docstring and the specification promise. *)
Lemma convert_date_year_99 :
  valid_date 99 3 1 /\
  dd_mm_yyyy 46%N 1 3 99 = u8 "01.03.0099" /\
  dd_mm_yyyy 45%N 1 3 99 = u8 "01-03-0099" /\
  convert_date false (Some (u8 "01.03.0099")) = Ok (u8 "01-03-99") /\
  convert_date false (Some (u8 "01.03.0099")) <> Ok (u8 "01-03-0099").
Proof.
  split; [|split; [|split; [|split]]].
  - unfold valid_date. vm_compute. repeat split; discriminate.
  - vm_compute. reflexivity.
  - vm_compute. reflexivity.
  - vm_compute. reflexivity.
  - vm_compute. discriminate.
Qed.

Lemma no_header_sample :
  find_transaction_lines
    {| raw := sample_without_header; encoding := codecs.iso_8859_1 |}
  = Raise (ValueError "Can't convert CSV file without header line") /\
  outfile (convert_cash sample_buffer_size false guess_semicolon guess_nothing
             sample_without_header) = None.
Proof.
  destruct (no_header_no_conversion sample_buffer_size false guess_semicolon
              guess_nothing
              {| raw := sample_without_header; encoding := codecs.iso_8859_1 |}
              [text "'Kontonummer:';'DE00 / Girokonto';|"; text "|";
               text "'Buchungstag';'Betrag (EUR)';|";
               text "'01.03.2023';'-42,50';|"])
    as [Hfind [_ [Hcash _]]].
  - vm_compute. reflexivity.
  - repeat constructor; apply header_test_false; vm_compute; reflexivity.
  - split; [exact Hfind|].
    specialize (Hcash eq_refl). inversion Hcash as [|? ? [Hout _] _]. exact Hout.
Defined.

(** C6 on a file without header line: none of its four lines has both
    markers, the extractor returns no lines and the projector ends before
    its output file is opened, as the claim says; but the error raised is
    a [ValueError], not the [InvalidInputException] the source declares
    for input files that are not valid exports. *)
Lemma no_header_raises_ValueError :
  io.readlines codecs.iso_8859_1 sample_without_header
  = Ok [text "'Kontonummer:';'DE00 / Girokonto';|"; text "|";
        text "'Buchungstag';'Betrag (EUR)';|"; text "'01.03.2023';'-42,50';|"] /\
  Forall (fun line => ~ header_signature line)
         [text "'Kontonummer:';'DE00 / Girokonto';|"; text "|";
          text "'Buchungstag';'Betrag (EUR)';|"; text "'01.03.2023';'-42,50';|"] /\
  find_transaction_lines
    {| raw := sample_without_header; encoding := codecs.iso_8859_1 |}
  = Raise (ValueError "Can't convert CSV file without header line") /\
  (forall message,
      find_transaction_lines
        {| raw := sample_without_header; encoding := codecs.iso_8859_1 |}
      <> Raise (InvalidInputException message)) /\
  convert_cash sample_buffer_size false guess_semicolon guess_nothing
    sample_without_header
  = {| outfile := None;
       outcome := Raise (ValueError "Can't convert CSV file without header line") |}.
Proof.
  split; [vm_compute; reflexivity|].
  split; [repeat constructor; apply header_test_false; vm_compute; reflexivity|].
  split; [vm_compute; reflexivity|].
  split; [intros message; vm_compute; discriminate|].
  vm_compute. reflexivity.
Qed.


Lemma unknown_format_sample :
  let p := main sample_buffer_size false guess_semicolon guess_nothing
             {| file := sample_depot; output_file := None; debug := false |} in
  stderr p = [u8 "Could not detect CSV file type. Are you sure this is a legitimate file?"] /\
  written p = None /\
  uncaught p = None /\
  exit_status p = 0%Z.
Proof.
  apply (unknown_format_reports sample_buffer_size false guess_semicolon
           guess_nothing
           {| file := sample_depot; output_file := None; debug := false |}).
  vm_compute. reflexivity.
Defined.

(** The file that begins with ["Depot:","1234"] is classified UNKNOWN and
    the script ends with status 0, not with a status of failure. *)
Lemma unknown_format_exit_status :
  detect_csv_format sample_buffer_size sample_depot = Ok UNKNOWN /\
  ~ exit_status (main sample_buffer_size false guess_semicolon guess_nothing
                   {| file := sample_depot; output_file := None; debug := false |})
    <> 0%Z.
Proof.
  split; [vm_compute; reflexivity|]. intros H. apply H. vm_compute. reflexivity.
Qed.

Lemma open_csv_sample :
  csv.quoting (csv_dict.dialect sample_reader) = csv.QUOTE_MINIMAL /\
  find_transaction_lines {| raw := sample_cash; encoding := codecs.iso_8859_1 |}
  = Ok (csv_dict.lines sample_reader).
Proof.
  destruct (open_csv_sniffs_dialect sample_buffer_size guess_semicolon
              guess_nothing sample_cash cash_field_names codecs.iso_8859_1
              sample_reader) as [_ [Hquoting [Hlines _]]].
  - vm_compute. reflexivity.
  - split; [exact Hquoting | exact Hlines].
Defined.

(** In the file with commas the reader splits at the commas the sniffer
    found, not at semicolons: the data line has three cells, where the
    dialect [DKB] would see one. *)
Lemma open_csv_comma_dialect :
  exists reader,
    _open_csv sample_buffer_size guess_comma guess_nothing sample_comma
      cash_field_names codecs.iso_8859_1 = Ok reader /\
    csv.delimiter (csv_dict.dialect reader) = 44%N /\
    csv.delimiter (csv_dict.dialect reader) <> csv.delimiter DKB /\
    fst (csv.reader (csv_dict.lines reader) (csv_dict.dialect reader))
    = [[u8 "01.03.2023"; u8 "02.03.2023"; u8 "-42,50"]] /\
    fst (csv.reader (csv_dict.lines reader) DKB)
    = [[text "01.03.2023,'02.03.2023','-42,50'"]] /\
    fst (csv_dict.rows reader)
    <> fst (csv_dict.rows {| csv_dict.lines := csv_dict.lines reader;
                            csv_dict.dialect := DKB;
                            csv_dict.fieldnames := cash_field_names |}).
Proof.
  eexists. split; [vm_compute; reflexivity|].
  repeat split; vm_compute; try reflexivity; discriminate.
Qed.

Lemma convert_short_date_sample :
  convert_short_date false (Some (u8 "05.04.23")) = Ok (u8 "05-04-2023").
Proof.
  apply (convert_short_date_windows_century false 23 4 5).
  - vm_compute. discriminate.
  - unfold valid_date. vm_compute. repeat split; discriminate.
Defined.


(** ** The scenarios of the specification *)

Example classify_first_lines :
  map classify
      [text "'Kreditkarte:';'4998************';";
       text "'Kontonummer:';'DE00 / Girokonto';";
       text "'Girokonto';'DE00'";
       text "'Karte';'Visa Kreditkarte';'4998'";
       text "'Depot:','1234'"]
  = [OLD_VISA; CASH; GIRO; NEW_VISA; UNKNOWN].
Proof. vm_compute. reflexivity. Qed.

Example cash_scenario :
  (record <- cash_row false
               (csv_dict.bind_row cash_field_names
                  [u8 "01.03.2023"; u8 "02.03.2023"; u8 "Lastschrift";
                   u8 "ACME GmbH"; u8 "Invoice 123"; u8 "DE00..."; u8 "BANKXXX";
                   u8 "-42,50"; []; []; []]) ;;
   csv_dict.DictWriter_writerow DKB homebank_field_names record)
  = Ok (u8 "01-03-2023;8;;ACME GmbH;Invoice 123;-42,50;;" ++ [10%N]).
Proof. vm_compute. reflexivity. Qed.

Example new_visa_scenario :
  strip_currency (u8 "-15,00 €") = u8 "-15,00" /\
  convert_short_date false (Some (u8 "05.04.23")) = Ok (u8 "05-04-2023").
Proof. split; vm_compute; reflexivity. Qed.

Example giro_scenario :
  (record <- giro_row false
               (csv_dict.bind_row giro_field_names
                  [u8 "05.04.23"; u8 "05.04.23"; u8 "Gebucht"; u8 "ISSUER";
                   u8 "Jane Doe"; u8 "Rent"; u8 "Ausgang";
                   u8 "DE89370400440532013000"; u8 "-15,00 €"; []; []; []]) ;;
   Ok (dict.get record (u8 "payee"), dict.get record (u8 "amount")))
  = Ok (Some (csv_dict.VStr (u8 "Jane Doe DE89370400440532013000")),
        Some (csv_dict.VStr (u8 "-15,00"))).
Proof. vm_compute. reflexivity. Qed.

(** * Further properties of the program *)

(** ** Further properties of [strip_currency] *)

Lemma strip_first_char (s : str) : not_space (first_char (Str.strip s)) = true.
Proof.
  unfold Str.strip, first_char.
  destruct (rstrip_split (Str.lstrip s)) as [r [_ Hr]].
  destruct (Str.rstrip (Str.lstrip s)) as [|c t] eqn:E; [reflexivity|].
  cbn. apply negb_true_iff. eapply lstrip_head. rewrite Hr. reflexivity.
Qed.

Lemma strip_last_char (s : str) : not_space (last_char (Str.strip s)) = true.
Proof.
  unfold Str.strip, Str.rstrip, last_char. rewrite rev_involutive.
  destruct (Str.lstrip (rev (Str.lstrip s))) as [|c t] eqn:E; [reflexivity|].
  cbn. apply negb_true_iff. eapply lstrip_head. exact E.
Qed.

(** X1: what [strip_currency] returns holds no Euro sign and neither begins
    nor ends with white space. *)
Theorem strip_currency_clean (s : str) :
  existsb (N.eqb euro) (strip_currency s) = false /\
  not_space (first_char (strip_currency s)) = true /\
  not_space (last_char (strip_currency s)) = true.
Proof.
  unfold strip_currency. rewrite replace_euro.
  split; [|split; [apply strip_first_char | apply strip_last_char]].
  destruct (existsb (N.eqb euro) (Str.strip (remove_euro s))) eqn:E; [|reflexivity].
  apply existsb_exists in E as [c [Hin Hc]]. apply N.eqb_eq in Hc. subst c.
  destruct (strip_split (remove_euro s)) as [l [r [_ [_ H]]]].
  pose proof (remove_euro_free s) as F. rewrite H in F.
  apply Forall_app in F as [_ F]. apply Forall_app in F as [F _].
  rewrite Forall_forall in F. now destruct (F euro Hin).
Qed.

Lemma strip_fixed (s : str) :
  not_space (first_char s) = true -> not_space (last_char s) = true ->
  Str.strip s = s.
Proof.
  unfold first_char, last_char, Str.strip, Str.rstrip. intros Hf Hl.
  assert (H1 : Str.lstrip s = s).
  { destruct s as [|c t]; [reflexivity|]. cbn in Hf. apply negb_true_iff in Hf.
    now apply lstrip_fixed. }
  rewrite H1.
  assert (H2 : Str.lstrip (rev s) = rev s).
  { destruct (rev s) as [|c t]; [reflexivity|]. cbn in Hl. apply negb_true_iff in Hl.
    now apply lstrip_fixed. }
  rewrite H2. apply rev_involutive.
Qed.

(** X2: an amount without Euro sign that neither begins nor ends with white
    space passes [strip_currency] unchanged. *)
Theorem strip_currency_fixed (s : str) :
  existsb (N.eqb euro) s = false ->
  not_space (first_char s) = true ->
  not_space (last_char s) = true ->
  strip_currency s = s.
Proof.
  intros He Hf Hl. unfold strip_currency. rewrite replace_euro.
  assert (H : remove_euro s = s).
  { apply remove_euro_fixed. apply Forall_forall. intros c Hin ->.
    assert (existsb (N.eqb euro) s = true); [|congruence].
    apply existsb_exists. exists euro. split; [exact Hin | apply N.eqb_refl]. }
  rewrite H. now apply strip_fixed.
Qed.

(** ** Further properties of the transaction region *)

Lemma header_or_none (lines : list str) :
  Exists header_signature lines \/
  Forall (fun line => ~ header_signature line) lines.
Proof.
  induction lines as [|line lines [IH | IH]].
  - right. constructor.
  - left. now constructor 2.
  - destruct (Str.contains (u8 "Betrag") line && Str.contains (u8 "Wertstellung") line)
      eqn:E.
    + left. constructor. now apply header_test.
    + right. constructor; [now apply header_test_false | exact IH].
Qed.

(** X3: the extractor returns lines only when a header line precedes them:
    what it returns is all that follows the first line with both markers. *)
Theorem find_transaction_lines_sound (file : TextIOWrapper) (data : list str) :
  find_transaction_lines file = Ok data ->
  exists preamble header,
    io.readlines (encoding file) (raw file) = Ok (preamble ++ header :: data) /\
    Forall (fun line => ~ header_signature line) preamble /\
    header_signature header.
Proof.
  unfold find_transaction_lines.
  destruct (io.readlines (encoding file) (raw file)) as [lines|e]; cbn [bind];
    [|discriminate].
  destruct (header_or_none lines) as [H | H].
  - destruct (first_header_line lines H) as [pre [hdr [rest [-> [Hpre Hhdr]]]]].
    pose proof (loop_finds_header pre hdr rest Hpre Hhdr []) as Hloop.
    cbn [app length Nat.add] in Hloop. rewrite Hloop.
    intros E. injection E as <-. now exists pre, hdr.
  - now rewrite (loop_without_header lines lines 1 H).
Qed.

(** X4: the extractor fails in two ways only: the file cannot be decoded,
    or it can and none of its lines has both markers. *)
Theorem find_transaction_lines_errors (file : TextIOWrapper) (e : exception) :
  find_transaction_lines file = Raise e ->
  io.readlines (encoding file) (raw file) = Raise UnicodeDecodeError /\
  e = UnicodeDecodeError \/
  e = ValueError "Can't convert CSV file without header line" /\
  exists lines,
    io.readlines (encoding file) (raw file) = Ok lines /\
    Forall (fun line => ~ header_signature line) lines.
Proof.
  unfold find_transaction_lines.
  destruct (io.readlines (encoding file) (raw file)) as [lines|e'] eqn:E; cbn [bind].
  - destruct (header_or_none lines) as [H | H].
    + destruct (first_header_line lines H) as [pre [hdr [rest [Hl [Hpre Hhdr]]]]].
      subst lines.
      pose proof (loop_finds_header pre hdr rest Hpre Hhdr []) as Hloop.
      cbn [app length Nat.add] in Hloop. now rewrite Hloop.
    + rewrite (loop_without_header lines lines 1 H). intros E'. injection E' as <-.
      right. split; [reflexivity | now exists lines].
  - intros E'. injection E' as <-. left.
    unfold io.readlines in E.
    destruct (codecs.decode (encoding file) true (raw file)) as [t|e''] eqn:Ed;
      cbn [bind] in E; [discriminate|].
    injection E as <-.
    pose proof (decode_errors (encoding file) true (raw file) e'' Ed) as ->.
    now split.
Qed.

(** ** Further properties of the classifier *)

Lemma first_line_exists (buffer_size : positive) (file_path : codecs.bytes) :
  exists header, first_line_of buffer_size file_path header.
Proof.
  unfold first_line_of.
  destruct (io.readline buffer_size codecs.utf_8_sig file_path) as [header|e] eqn:E.
  - exists header. now left.
  - pose proof (readline_errors buffer_size codecs.utf_8_sig file_path e E) as ->.
    destruct (readline_latin_1 buffer_size file_path) as [header H].
    exists header. now right.
Qed.

Lemma detect_from_header (buffer_size : positive) (file_path : codecs.bytes)
      (header : str) :
  first_line_of buffer_size file_path header ->
  detect_csv_format buffer_size file_path = Ok (classify header).
Proof.
  intros H. unfold detect_csv_format, _read_header_line.
  destruct H as [H | [H1 H2]].
  - rewrite H. cbn [bind]. rewrite classify_cascade.
    repeat match goal with |- context [if ?c then _ else _] => destruct c end;
      reflexivity.
  - rewrite H1, H2. cbn [bind]. rewrite classify_cascade.
    repeat match goal with |- context [if ?c then _ else _] => destruct c end;
      reflexivity.
Qed.

Lemma signatures_exclusive (header : str) (a b : str * CsvFileTypes) :
  In a detection_signatures -> In b detection_signatures ->
  Str.startswith header (fst a) = true ->
  Str.startswith header (fst b) = true ->
  a = b.
Proof.
  intros Ha Hb H1 H2. apply startswith_spec in H1 as [rest ->].
  unfold detection_signatures in Ha, Hb.
  repeat (destruct Ha as [<- | Ha]; [|]); try contradiction;
    repeat (destruct Hb as [<- | Hb]; [|]); try contradiction;
    try reflexivity; vm_compute in H2; discriminate.
Qed.

Lemma classify_signature (header sig : str) (fmt : CsvFileTypes) :
  In (sig, fmt) detection_signatures ->
  classify header = fmt <-> Str.startswith header sig = true.
Proof.
  intros Hin. unfold classify. split.
  - destruct (find _ detection_signatures) as [[sig' fmt']|] eqn:E.
    + apply find_some in E as [Hin' Hs]. cbn [fst snd] in *. intros <-.
      assert (sig' = sig); [|now subst].
      unfold detection_signatures in Hin, Hin'.
      repeat (destruct Hin as [Hin | Hin]; [|]); try contradiction;
        repeat (destruct Hin' as [Hin' | Hin']; [|]); try contradiction;
        congruence.
    + intros <-. unfold detection_signatures in Hin.
      repeat (destruct Hin as [Hin | Hin]; [discriminate|]). contradiction.
  - intros Hs.
    destruct (find _ detection_signatures) as [[sig' fmt']|] eqn:E.
    + apply find_some in E as [Hin' Hs']. cbn [fst snd] in *.
      pose proof (signatures_exclusive header (sig', fmt') (sig, fmt) Hin' Hin Hs' Hs)
        as Heq.
      congruence.
    + pose proof (find_none _ _ E (sig, fmt) Hin) as Hn. cbn [fst] in Hn. congruence.
Qed.

(** X5: the signatures exclude one another, so the order of the tests does
    not matter: the classifier answers a format exactly when the first line
    begins with the signature of that format, and UNKNOWN exactly when it
    begins with none of the four. *)
Theorem detect_csv_format_by_signature (buffer_size : positive)
        (file_path : codecs.bytes) (header : str) :
  first_line_of buffer_size file_path header ->
  Forall (fun sig =>
            detect_csv_format buffer_size file_path = Ok (snd sig)
            <-> Str.startswith header (fst sig) = true)
         detection_signatures /\
  (detect_csv_format buffer_size file_path = Ok UNKNOWN
   <-> forallb (fun sig => negb (Str.startswith header (fst sig)))
               detection_signatures = true).
Proof.
  intros H. rewrite (detect_from_header buffer_size file_path header H). split.
  - apply Forall_forall. intros [sig fmt] Hin. cbn [fst snd].
    rewrite <- (classify_signature header sig fmt Hin).
    split; [intros E; now injection E | intros ->; reflexivity].
  - split.
    + intros E. injection E as E. apply forallb_forall. intros [sig fmt] Hin.
      cbn [fst]. apply negb_true_iff.
      destruct (Str.startswith header sig) eqn:Hs; [|reflexivity].
      apply (classify_signature header sig fmt Hin) in Hs.
      unfold detection_signatures in Hin.
      repeat (destruct Hin as [Hin | Hin]; [congruence|]). contradiction.
    + intros Hall. f_equal. unfold classify.
      destruct (find _ detection_signatures) as [[sig fmt]|] eqn:E; [|reflexivity].
      apply find_some in E as [Hin Hs]. cbn [fst] in Hs.
      rewrite forallb_forall in Hall. specialize (Hall (sig, fmt) Hin).
      cbn [fst] in Hall. now rewrite Hs in Hall.
Qed.

Lemma chunks_from_concat (data : codecs.bytes) :
  forall size room cur,
    concat (io.chunks_from size room cur data) = rev cur ++ data.
Proof.
  induction data as [|b data IH]; intros size room cur; cbn [io.chunks_from].
  - destruct cur; [reflexivity|]. cbn [concat]. now rewrite app_nil_r.
  - destruct room as [|room].
    + cbn [concat]. now rewrite IH.
    + rewrite IH. cbn [rev]. now rewrite <- app_assoc.
Qed.

Lemma chunks_concat (size : positive) (data : codecs.bytes) :
  concat (io.chunks size data) = data.
Proof. unfold io.chunks. now rewrite chunks_from_concat. Qed.

(** What the text layer hands out is the decoding of a prefix of the file:
    of all of it at the end of the file, and else of enough of it. *)
Lemma pump_prefix enc enough (pending : list codecs.bytes) :
  forall seen t,
    io.pump enc enough seen pending = Ok t ->
    exists final p text more,
      codecs.decode enc final p = Ok text /\
      t = io.translate final text /\
      seen ++ concat pending = p ++ more /\
      (final = true /\ more = [] \/ enough t = true).
Proof.
  induction pending as [|c pending IH]; intros seen t; cbn [io.pump concat].
  - destruct (codecs.decode enc true seen) as [text|] eqn:E; cbn [bind];
      [|discriminate].
    intros H. injection H as <-. exists true, seen, text, [].
    repeat split; auto.
  - destruct (codecs.decode enc false (seen ++ c)) as [text|] eqn:E; cbn [bind];
      [|discriminate].
    destruct (enough (io.translate false text)) eqn:En.
    + intros H. injection H as <-. exists false, (seen ++ c), text, (concat pending).
      repeat split; auto. now rewrite app_assoc.
    + intros H. destruct (IH _ _ H) as [final [p [text' [more [Hd [Ht [Hp Hc]]]]]]].
      exists final, p, text', more. repeat split; auto.
      now rewrite app_assoc.
Qed.

Lemma to_N_ascii_bytes (s : str) :
  Forall (fun c => (c < 128)%N) s -> map Byte.to_N (ascii_bytes s) = s.
Proof.
  intros H. unfold ascii_bytes. induction H as [|c s Hc _ IH]; [reflexivity|].
  cbn [map]. rewrite IH. f_equal.
  destruct (Byte.of_N c) as [b|] eqn:E.
  - now apply Byte.to_of_N.
  - apply Byte.of_N_None_iff in E. lia.
Qed.

Lemma utf_8_decode_ascii (final : bool) (s : str) (r : list N) :
  Forall (fun c => (c < 128)%N) s ->
  codecs.utf_8_decode final (s ++ r)
  = (t <- codecs.utf_8_decode final r ;; Ok (s ++ t)).
Proof.
  intros H. induction H as [|c s Hc _ IH]; cbn [app].
  - now destruct (codecs.utf_8_decode final r).
  - cbn [codecs.utf_8_decode]. apply N.ltb_lt in Hc. rewrite Hc, IH.
    now destruct (codecs.utf_8_decode final r).
Qed.

Lemma utf_8_sig_no_mark (final : bool) (c : N) (r : list N) :
  c <> 239%N ->
  codecs.utf_8_sig_decode final (c :: r) = codecs.utf_8_decode final (c :: r).
Proof.
  intros Hc. unfold codecs.utf_8_sig_decode, codecs.BOM_UTF8.
  assert (Hc1 : (239 =? c)%N = false) by (apply N.eqb_neq; congruence).
  assert (Hc2 : (c =? 239)%N = false) by (now apply N.eqb_neq).
  assert (H1 : Str.startswith [239; 187; 191]%N (c :: r) = false).
  { cbn [Str.startswith]. now rewrite Hc1. }
  assert (H2 : Str.eqb (firstn 3 (c :: r)) [239; 187; 191]%N = false).
  { cbn [firstn Str.eqb]. now rewrite Hc2. }
  rewrite H1, H2. now destruct (_ <? _).
Qed.

Lemma plain_ascii (s : str) : plain s -> Forall (fun c => (c < 128)%N) s.
Proof. intros H. eapply Forall_impl; [|exact H]. now intros c [Hc _]. Qed.

(** Decoding bytes that begin with plain ASCII text, in either encoding. *)
Lemma decode_plain_prefix enc (final : bool) (c : char) (s : str)
      (x : codecs.bytes) (text : str) :
  plain (c :: s) -> c <> 239%N ->
  codecs.decode enc final (ascii_bytes (c :: s) ++ x) = Ok text ->
  exists t, text = (c :: s) ++ t /\ (x = [] -> t = []).
Proof.
  intros Hs Hc. pose proof (plain_ascii _ Hs) as Hascii.
  destruct enc; cbn [codecs.decode]; rewrite map_app;
    rewrite (to_N_ascii_bytes (c :: s) Hascii).
  - cbn [app]. rewrite (utf_8_sig_no_mark final c _ Hc).
    change (c :: s ++ map Byte.to_N x) with ((c :: s) ++ map Byte.to_N x).
    rewrite (utf_8_decode_ascii final (c :: s) _ Hascii).
    destruct (codecs.utf_8_decode final (map Byte.to_N x)) as [t|] eqn:E;
      cbn [bind]; [|discriminate].
    intros H. injection H as <-. exists t. split; [reflexivity|].
    intros ->. cbn in E. now injection E.
  - unfold codecs.latin_1_decode. intros H. injection H as <-.
    exists (map Byte.to_N x). split; [reflexivity|]. now intros ->.
Qed.

Lemma decode_plain enc (final : bool) (s : str) (text : str) :
  plain s -> hd_error s <> Some 239%N ->
  codecs.decode enc final (ascii_bytes s) = Ok text -> text = s.
Proof.
  intros Hs Hh. destruct s as [|c s].
  - destruct enc; cbn; intros H; now injection H.
  - intros H. rewrite <- (app_nil_r (ascii_bytes (c :: s))) in H.
    destruct (decode_plain_prefix enc final c s [] text Hs) as [t [-> Ht]];
      [intros ->; now apply Hh | exact H |].
    rewrite (Ht eq_refl). apply app_nil_r.
Qed.

Lemma translate_plain (final : bool) (s t : str) :
  plain s -> io.translate final (s ++ t) = s ++ io.translate final t.
Proof.
  intros H. induction H as [|c s [_ [_ Hc]] _ IH]; [reflexivity|].
  cbn [app io.translate]. apply N.eqb_neq in Hc. now rewrite Hc, IH.
Qed.

Lemma first_line_plain (s t : str) :
  plain s -> io.first_line (s ++ t) = s ++ io.first_line t.
Proof.
  intros H. induction H as [|c s [_ [Hc _]] _ IH]; [reflexivity|].
  cbn [app io.first_line]. apply N.eqb_neq in Hc. now rewrite Hc, IH.
Qed.

Lemma has_newline_plain (final : bool) (s : str) :
  plain s -> io.has_newline (io.translate final s) = false.
Proof.
  intros H. rewrite <- (app_nil_r s), translate_plain by exact H. cbn [io.translate].
  rewrite app_nil_r. unfold io.has_newline.
  induction H as [|c s [_ [Hc _]] _ IH]; [reflexivity|].
  cbn [existsb]. apply N.eqb_neq in Hc. rewrite N.eqb_sym, Hc. exact IH.
Qed.

Lemma startswith_app (s t : str) : Str.startswith (s ++ t) s = true.
Proof. apply startswith_spec. now exists t. Qed.

Lemma plain_app (s1 s2 : str) : plain (s1 ++ s2) -> plain s1.
Proof. intros H. now apply Forall_app in H as [H _]. Qed.

(** The first line of a file that begins with plain text begins with that
    text, however the file goes on and however it is buffered. *)
Lemma readline_plain_prefix (size : positive) enc (c : char) (s : str)
      (rest : codecs.bytes) (header : str) :
  plain (c :: s) -> c <> 239%N ->
  io.readline size enc (ascii_bytes (c :: s) ++ rest) = Ok header ->
  Str.startswith header (c :: s) = true.
Proof.
  intros Hs Hc. unfold io.readline.
  destruct (io.pump enc io.has_newline [] _) as [t|] eqn:E; cbn [bind];
    [|discriminate].
  intros H. injection H as <-.
  destruct (pump_prefix enc io.has_newline _ _ _ E)
    as [final [p [text [more [Hd [Ht [Hp Hend]]]]]]].
  rewrite chunks_concat in Hp. cbn [app] in Hp.
  assert (Hx : exists x, p = ascii_bytes (c :: s) ++ x).
  { destruct (app_eq_app _ _ _ _ Hp) as [l [[H1 H2] | [H1 H2]]].
    - (* [p] ends inside the plain text *)
      unfold ascii_bytes in H1.
      apply map_eq_app in H1 as [s1 [s2 [Hsplit [Hp1 Hl]]]].
      fold (ascii_bytes s1) in Hp1.
      assert (Hsplit' : (c :: s : str) = (s1 : str) ++ (s2 : str)) by exact Hsplit.
      clear Hsplit. rename Hsplit' into Hsplit.
      assert (Hs1 : plain s1) by (apply (plain_app s1 s2); now rewrite <- Hsplit).
      assert (Hh : hd_error s1 <> Some 239%N).
      { destruct s1 as [|c1 s1]; [discriminate|].
        cbn [app] in Hsplit. injection Hsplit as <- _. cbn. congruence. }
      subst p. rewrite (decode_plain enc final s1 text Hs1 Hh Hd) in Ht.
      destruct Hend as [[_ Hmore] | Hnl].
      + subst more. symmetry in H2. apply app_eq_nil in H2 as [Hl0 _]. subst l.
        destruct s2; [|discriminate]. rewrite app_nil_r in Hsplit. subst s1.
        exists []. now rewrite app_nil_r.
      + rewrite Ht, (has_newline_plain final s1 Hs1) in Hnl. discriminate.
    - exists l. exact H1. }
  destruct Hx as [x ->].
  destruct (decode_plain_prefix enc final c s x text Hs Hc Hd) as [t' [-> _]].
  rewrite Ht, (translate_plain final (c :: s) t' Hs).
  rewrite (first_line_plain (c :: s) _ Hs). apply startswith_app.
Qed.

Lemma signatures_plain (sig : str) (fmt : CsvFileTypes) :
  In (sig, fmt) detection_signatures ->
  exists s, sig = 34%N :: s /\ plain sig.
Proof.
  unfold detection_signatures. intros H.
  repeat (destruct H as [H | H]; [injection H as <- <-|]); try contradiction;
    eexists; (split; [vm_compute; reflexivity|]);
    vm_compute; repeat constructor; try lia; discriminate.
Qed.

(** X6: a file whose bytes begin with the signature of a format is
    classified as that format, whatever follows the signature (bytes that
    are not UTF-8 included) and whatever the size of the read buffer. *)
Theorem detect_csv_format_of_signature (buffer_size : positive) (sig : str)
        (fmt : CsvFileTypes) (rest : codecs.bytes) :
  In (sig, fmt) detection_signatures ->
  detect_csv_format buffer_size (ascii_bytes sig ++ rest) = Ok fmt.
Proof.
  intros Hin. destruct (signatures_plain sig fmt Hin) as [s [-> Hplain]].
  destruct (first_line_exists buffer_size (ascii_bytes (34%N :: s) ++ rest))
    as [header Hheader].
  rewrite (detect_from_header _ _ header Hheader). f_equal.
  apply (classify_signature header (34%N :: s) fmt Hin).
  destruct Hheader as [H | [_ H]];
    [apply (readline_plain_prefix buffer_size codecs.utf_8_sig 34%N s rest header Hplain)
    |apply (readline_plain_prefix buffer_size codecs.iso_8859_1 34%N s rest header Hplain)];
    try exact H; lia.
Qed.

(** ** Further properties of the date transforms *)

Local Ltac Zify.zify_post_hook ::= Z.to_euclidean_division_equations.

(** Case by case over the numbers up to [bound]: the regular expression of
    the directive is run on the digits, and every way of matching but one
    stops at the literal that follows. *)
Local Ltac by_cases_upto n tac :=
  do 32 (destruct n as [|n]; [first [exfalso; lia | tac]|]); exfalso; lia.

Local Ltac run_regex :=
  cbn [datetime.match_items];
  match goal with
  | |- flat_map ?f (datetime.regex ?k ?s) = _ =>
      let l := eval vm_compute in (datetime.regex k s) in
      change (datetime.regex k s) with l
  end;
  cbn [flat_map fst snd datetime.match_items N.eqb Pos.eqb app];
  rewrite ?app_nil_r; reflexivity.

Lemma match_day_dot (d : N) (items : list datetime.item) (found : datetime.groups)
      (rest : str) :
  (1 <= d <= 31)%N ->
  datetime.match_items
    (datetime.Directive datetime.pct_d :: datetime.Literal 46%N :: items) found
    (pad2 d ++ 46%N :: rest)
  = datetime.match_items items (found ++ [(datetime.pct_d, pad2 d)]) rest.
Proof.
  intros H. remember (N.to_nat d) as n eqn:E.
  assert (Hd : d = N.of_nat n) by lia. subst d. clear E.
  by_cases_upto n run_regex.
Qed.

Lemma match_month_dot (m : N) (items : list datetime.item) (found : datetime.groups)
      (rest : str) :
  (1 <= m <= 12)%N ->
  datetime.match_items
    (datetime.Directive datetime.pct_m :: datetime.Literal 46%N :: items) found
    (pad2 m ++ 46%N :: rest)
  = datetime.match_items items (found ++ [(datetime.pct_m, pad2 m)]) rest.
Proof.
  intros H. remember (N.to_nat m) as n eqn:E.
  assert (Hm : m = N.of_nat n) by lia. subst m. clear E.
  by_cases_upto n run_regex.
Qed.

Lemma match_plain_day_dot (d : N) (items : list datetime.item)
      (found : datetime.groups) (rest : str) :
  (1 <= d <= 31)%N ->
  datetime.match_items
    (datetime.Directive datetime.pct_d :: datetime.Literal 46%N :: items) found
    (Str.decimal d ++ 46%N :: rest)
  = datetime.match_items items (found ++ [(datetime.pct_d, Str.decimal d)]) rest.
Proof.
  intros H. remember (N.to_nat d) as n eqn:E.
  assert (Hd : d = N.of_nat n) by lia. subst d. clear E.
  by_cases_upto n run_regex.
Qed.

Lemma match_plain_month_dot (m : N) (items : list datetime.item)
      (found : datetime.groups) (rest : str) :
  (1 <= m <= 12)%N ->
  datetime.match_items
    (datetime.Directive datetime.pct_m :: datetime.Literal 46%N :: items) found
    (Str.decimal m ++ 46%N :: rest)
  = datetime.match_items items (found ++ [(datetime.pct_m, Str.decimal m)]) rest.
Proof.
  intros H. remember (N.to_nat m) as n eqn:E.
  assert (Hm : m = N.of_nat n) by lia. subst m. clear E.
  by_cases_upto n run_regex.
Qed.

Lemma int_decimal_small (n : N) : (n <= 31)%N -> datetime.int (Str.decimal n) = Ok n.
Proof.
  intros H. remember (N.to_nat n) as k eqn:E.
  assert (Hn : n = N.of_nat k) by lia. subst n. clear E.
  do 32 (destruct k as [|k]; [vm_compute; reflexivity|]). exfalso. lia.
Qed.

Lemma regex_year4_rest (n : N) (rest : str) :
  (n < 10000)%N -> datetime.regex datetime.pct_Y (pad4 n ++ rest) = [(pad4 n, rest)].
Proof.
  intros H. rewrite pad4_digits by exact H.
  unfold datetime.regex, datetime.seq, datetime.digit.
  repeat (cbn [datetime.one flat_map map app fst snd];
          rewrite ?isdecimal_digit by lia).
  reflexivity.
Qed.

Lemma regex_year2_rest (n : N) (rest : str) :
  (n < 100)%N -> datetime.regex datetime.pct_y (pad2 n ++ rest) = [(pad2 n, rest)].
Proof.
  intros H. rewrite pad2_digits by exact H.
  unfold datetime.regex, datetime.seq, datetime.digit.
  repeat (cbn [datetime.one flat_map map app fst snd];
          rewrite ?isdecimal_digit by lia).
  reflexivity.
Qed.

Lemma regex_year4_short (n : N) :
  (n < 100)%N -> datetime.regex datetime.pct_Y (pad2 n) = [].
Proof.
  intros H. rewrite pad2_digits by exact H.
  unfold datetime.regex, datetime.seq, datetime.digit.
  repeat (cbn [datetime.one flat_map map app fst snd];
          rewrite ?isdecimal_digit by lia).
  reflexivity.
Qed.

Lemma date_text_app (sep : char) (d m : N) (year_text rest : str) :
  date_text sep d m year_text ++ rest = date_text sep d m (year_text ++ rest).
Proof.
  unfold date_text. rewrite <- app_assoc. cbn [app]. rewrite <- app_assoc.
  reflexivity.
Qed.

(** The ways [%d.%m.<year>] matches a text that begins with a day, a dot, a
    month and a dot are the ways the year matches what follows. *)
Lemma match_date_text (yk : datetime.directive) (d m : N) (tail : str) :
  (1 <= d <= 31)%N -> (1 <= m <= 12)%N ->
  datetime.match_items
    [datetime.Directive datetime.pct_d; datetime.Literal 46%N;
     datetime.Directive datetime.pct_m; datetime.Literal 46%N;
     datetime.Directive yk] [] (date_text 46%N d m tail)
  = map (fun year => ([(datetime.pct_d, pad2 d); (datetime.pct_m, pad2 m);
                       (yk, fst year)], snd year))
        (datetime.regex yk tail).
Proof.
  intros Hd Hm. unfold date_text.
  rewrite match_day_dot by exact Hd. rewrite match_month_dot by exact Hm.
  cbn [datetime.match_items app].
  induction (datetime.regex yk tail) as [|year l IH]; [reflexivity|].
  cbn [flat_map map app]. now rewrite IH.
Qed.

Lemma scan_dmY :
  datetime.scan datetime.punctuation (u8 "%d.%m.%Y")
  = Some [datetime.Directive datetime.pct_d; datetime.Literal 46%N;
          datetime.Directive datetime.pct_m; datetime.Literal 46%N;
          datetime.Directive datetime.pct_Y].
Proof. vm_compute. reflexivity. Qed.

Lemma scan_dmy :
  datetime.scan datetime.punctuation (u8 "%d.%m.%y")
  = Some [datetime.Directive datetime.pct_d; datetime.Literal 46%N;
          datetime.Directive datetime.pct_m; datetime.Literal 46%N;
          datetime.Directive datetime.pct_y].
Proof. vm_compute. reflexivity. Qed.

Section more_dates.

Variable pads_year : bool.

(** X8: text after a date is not ignored: a day, a month and a four-digit
    year followed by anything at all are rejected by [convert_date]. *)
Theorem convert_date_rejects_trailing_text (y m d : N) (c : char) (rest : str) :
  (1 <= d <= 31)%N -> (1 <= m <= 12)%N -> (y <= 9999)%N ->
  convert_date pads_year (Some (dd_mm_yyyy 46%N d m y ++ c :: rest))
  = Raise (ValueError "unconverted data remains").
Proof.
  intros Hd Hm Hy. unfold convert_date, datetime.strptime, dd_mm_yyyy.
  rewrite scan_dmY, date_text_app, match_date_text by assumption.
  rewrite regex_year4_rest by lia. reflexivity.
Qed.

(** X9: the two date rules do not stand in for one another:
    [convert_short_date] rejects a four-digit year, of which it leaves two
    digits unread, and [convert_date] rejects a two-digit year, which its
    pattern does not match. *)
Theorem date_rules_differ (y yy m d : N) :
  (1 <= d <= 31)%N -> (1 <= m <= 12)%N -> (y <= 9999)%N -> (yy <= 99)%N ->
  convert_short_date pads_year (Some (dd_mm_yyyy 46%N d m y))
  = Raise (ValueError "unconverted data remains") /\
  convert_date pads_year (Some (dd_mm_yy 46%N d m yy))
  = Raise (ValueError "time data does not match format").
Proof.
  intros Hd Hm Hy Hyy. split.
  - unfold convert_short_date, datetime.strptime, dd_mm_yyyy.
    assert (Hsplit : pad4 y = pad2 (y / 100) ++ pad2 (y mod 100)).
    { rewrite pad4_digits, !pad2_digits by lia. cbn [app].
      replace (y / 100 / 10)%N with (y / 1000)%N by lia.
      replace (y mod 100 / 10)%N with (y / 10 mod 10)%N by lia.
      replace (y mod 100 mod 10)%N with (y mod 10)%N by lia.
      reflexivity. }
    rewrite Hsplit, scan_dmy, match_date_text by assumption.
    rewrite regex_year2_rest by lia.
    rewrite (pad2_digits (y mod 100)) by lia. reflexivity.
  - unfold convert_date, datetime.strptime, dd_mm_yy.
    rewrite scan_dmY, match_date_text by assumption.
    rewrite regex_year4_short by lia. reflexivity.
Qed.

End more_dates.

Lemma new_date_ok (y m d : N) (dt : datetime.date) :
  datetime.new_date y m d = Ok dt ->
  valid_date y m d /\
  dt = {| datetime.year := y; datetime.month := m; datetime.day := d |}.
Proof.
  unfold datetime.new_date, valid_date.
  destruct ((1 <=? y) && (y <=? 9999))%N eqn:Ey; cbn [negb]; [|discriminate].
  destruct ((1 <=? m) && (m <=? 12))%N eqn:Em; cbn [negb]; [|discriminate].
  destruct ((1 <=? d) && (d <=? datetime.days_in_month y m))%N eqn:Ed;
    cbn [negb]; [|discriminate].
  intros H. injection H as <-.
  apply andb_true_iff in Ey as [Hy1 Hy2], Em as [Hm1 Hm2], Ed as [Hd1 Hd2].
  apply N.leb_le in Hy1, Hy2, Hm1, Hm2, Hd1, Hd2. repeat split; assumption.
Qed.

Lemma new_date_invalid (y m d : N) :
  ~ valid_date y m d -> raises (datetime.new_date y m d).
Proof.
  intros H. destruct (datetime.new_date y m d) as [dt|e] eqn:E; [|now exists e].
  apply new_date_ok in E. now destruct E.
Qed.

(** Whatever [strptime] answers is a day of the calendar. *)
Lemma strptime_ok (data_string : option str) (format : str) (dt : datetime.date) :
  datetime.strptime data_string format = Ok dt ->
  valid_date (datetime.year dt) (datetime.month dt) (datetime.day dt).
Proof.
  unfold datetime.strptime. destruct data_string as [s|]; [|discriminate].
  destruct (datetime.scan _ format) as [items|]; [|discriminate].
  destruct (datetime.match_items items [] s) as [|[found [|c rest]] others];
    [discriminate | | discriminate].
  destruct (datetime.convert found None 1 1) as [[[y m] d]|]; cbn [bind];
    [|discriminate].
  destruct y as [y|].
  - intros H. apply new_date_ok in H as [Hv ->]. exact Hv.
  - destruct (datetime.new_date _ m d); cbn [bind]; [|discriminate].
    intros H. apply new_date_ok in H as [Hv ->]. exact Hv.
Qed.

Lemma decimal_value_run (c v : N) :
  datetime.decimal_value c = Some v ->
  exists run, In run datetime.decimal_runs /\ (run <= c < run + 10)%N /\ v = (c - run)%N.
Proof.
  unfold datetime.decimal_value.
  destruct (find _ datetime.decimal_runs) as [run|] eqn:E; [|discriminate].
  intros H. injection H as <-. apply find_some in E as [Hin Hc].
  apply andb_true_iff in Hc as [H1 H2]. apply N.leb_le in H1. apply N.ltb_lt in H2.
  exists run. repeat split; assumption.
Qed.

Lemma decimal_value_bound (c v : N) :
  datetime.decimal_value c = Some v -> (v <= 9)%N.
Proof.
  intros H. apply decimal_value_run in H as [run [_ [Hc ->]]]. lia.
Qed.

Lemma decimal_not_space (c v : N) :
  datetime.decimal_value c = Some v -> Str.isspace c = false.
Proof.
  intros H. apply decimal_value_run in H as [run [Hin [Hc _]]].
  unfold datetime.decimal_runs in Hin.
  repeat (destruct Hin as [<- | Hin];
          [unfold Str.isspace;
           repeat match goal with
                  | |- context [(?a <=? ?b)%N] => destruct (N.leb_spec a b); try lia
                  | |- context [(?a =? ?b)%N] => destruct (N.eqb_spec a b); try lia
                  end; reflexivity|]).
  contradiction.
Qed.

Lemma int_two_digits (a b : char) :
  datetime.isdecimal a = true -> datetime.isdecimal b = true ->
  exists v, datetime.int [a; b] = Ok v /\ (v <= 99)%N.
Proof.
  unfold datetime.isdecimal. intros Ha Hb.
  destruct (datetime.decimal_value a) as [va|] eqn:Ea; [|discriminate].
  destruct (datetime.decimal_value b) as [vb|] eqn:Eb; [|discriminate].
  exists (va * 10 + vb)%N. unfold datetime.int.
  rewrite strip_no_space
    by (repeat constructor; eapply decimal_not_space; eassumption).
  cbn [datetime.int_digits]. rewrite Ea, Eb. split; [reflexivity|].
  apply decimal_value_bound in Ea, Eb. lia.
Qed.

(** The groups of a text matched by [%d.%m.%y]: the last is a year of two
    decimal digits. *)
Lemma match_short_groups (s : str) (found : datetime.groups) (rest : str) :
  In (found, rest)
     (datetime.match_items
        [datetime.Directive datetime.pct_d; datetime.Literal 46%N;
         datetime.Directive datetime.pct_m; datetime.Literal 46%N;
         datetime.Directive datetime.pct_y] [] s) ->
  exists t1 t2 a b,
    found = [(datetime.pct_d, t1); (datetime.pct_m, t2); (datetime.pct_y, [a; b])] /\
    datetime.isdecimal a = true /\ datetime.isdecimal b = true.
Proof.
  cbn [datetime.match_items app]. intros H.
  apply in_flat_map in H as [m1 [_ H]].
  destruct (snd m1) as [|c1 s1]; [contradiction|].
  destruct (c1 =? 46)%N; [|contradiction].
  apply in_flat_map in H as [m2 [_ H]].
  destruct (snd m2) as [|c2 s2]; [contradiction|].
  destruct (c2 =? 46)%N; [|contradiction].
  apply in_flat_map in H as [m3 [H3 H]].
  destruct H as [H|[]]. injection H as <- <-.
  unfold datetime.regex, datetime.seq, datetime.digit, datetime.one in H3.
  destruct s2 as [|a [|b s3]]; cbn in H3; try contradiction.
  - destruct (datetime.isdecimal a); cbn in H3; contradiction.
  - destruct (datetime.isdecimal a) eqn:Ea; cbn in H3; [|contradiction].
    destruct (datetime.isdecimal b) eqn:Eb; cbn in H3; [|contradiction].
    destruct H3 as [<-|[]]. cbn [fst]. now exists (fst m1), (fst m2), a, b.
Qed.

Section date_soundness.

Variable pads_year : bool.

(** X10: whatever [convert_date] answers is the text of a day of the
    calendar: two digits of day, a hyphen, two digits of month, a hyphen
    and the year, in four digits from the year 1000 on. *)
Theorem convert_date_sound (date_string : option str) (out : str) :
  convert_date pads_year date_string = Ok out ->
  exists y m d,
    valid_date y m d /\
    out = date_text 45%N d m (if pads_year then pad4 y else Str.decimal y) /\
    ((1000 <= y)%N -> out = dd_mm_yyyy 45%N d m y).
Proof.
  unfold convert_date. intros H.
  destruct (datetime.strptime date_string _) as [[y m d]|] eqn:E; cbn [bind] in H;
    [|discriminate].
  apply strptime_ok in E. cbn in E.
  rewrite (strftime_date pads_year) in H. injection H as <-.
  exists y, m, d. split; [exact E|]. split; [reflexivity|].
  intros Hy. unfold dd_mm_yyyy. destruct pads_year; [reflexivity|].
  rewrite decimal_pad4; [reflexivity|]. destruct E as [Hy' _]. lia.
Qed.

(** X11: whatever [convert_short_date] answers is the text [dd-mm-yyyy]
    of a day of the calendar in the years 1969 to 2068, the century
    window of a two-digit year. *)
Theorem convert_short_date_sound (date_string : option str) (out : str) :
  convert_short_date pads_year date_string = Ok out ->
  exists yy m d,
    (yy <= 99)%N /\
    (1969 <= century_window yy <= 2068)%N /\
    valid_date (century_window yy) m d /\
    out = dd_mm_yyyy 45%N d m (century_window yy).
Proof.
  unfold convert_short_date, datetime.strptime. intros H.
  destruct date_string as [s|]; [|discriminate].
  rewrite scan_dmy in H.
  destruct (datetime.match_items _ [] s) as [|[found [|c rest]] others] eqn:Em;
    [discriminate | | discriminate].
  assert (Hin : In (found, [])
                   (datetime.match_items
                      [datetime.Directive datetime.pct_d; datetime.Literal 46%N;
                       datetime.Directive datetime.pct_m; datetime.Literal 46%N;
                       datetime.Directive datetime.pct_y] [] s))
    by (rewrite Em; now left).
  apply match_short_groups in Hin as [t1 [t2 [a [b [-> [Ha Hb]]]]]].
  destruct (int_two_digits a b Ha Hb) as [yy [Hint Hyy]].
  cbn [datetime.convert] in H.
  destruct (datetime.int t1) as [d|]; cbn [bind] in H; [|discriminate].
  destruct (datetime.int t2) as [m|]; cbn [bind] in H; [|discriminate].
  rewrite Hint in H. cbn [bind] in H.
  assert (Hwin : (if (yy <=? 68)%N then (yy + 2000)%N else (yy + 1900)%N)
                 = century_window yy).
  { unfold century_window. destruct (yy <=? 68)%N; apply N.add_comm. }
  rewrite Hwin in H.
  assert (Hrange : (1969 <= century_window yy <= 2068)%N).
  { unfold century_window. destruct (N.leb_spec yy 68); lia. }
  destruct (datetime.new_date (century_window yy) m d) as [dt|] eqn:En;
    cbn [bind] in H; [|discriminate].
  apply new_date_ok in En as [Hv ->].
  rewrite (strftime_date pads_year) in H. injection H as <-.
  exists yy, m, d. split; [exact Hyy|]. split; [exact Hrange|].
  split; [exact Hv|].
  unfold dd_mm_yyyy. destruct pads_year; [reflexivity|].
  now rewrite decimal_pad4 by lia.
Qed.

End date_soundness.

Local Ltac by_cases_upto_99 n tac :=
  do 100 (destruct n as [|n]; [first [exfalso; lia | tac]|]); exfalso; lia.

Lemma match_bad_day (d : N) (items : list datetime.item) (found : datetime.groups)
      (rest : str) :
  (d <= 99)%N -> (d = 0 \/ 31 < d)%N ->
  datetime.match_items
    (datetime.Directive datetime.pct_d :: datetime.Literal 46%N :: items) found
    (pad2 d ++ 46%N :: rest)
  = [].
Proof.
  intros H Hbad. remember (N.to_nat d) as n eqn:E.
  assert (Hd : d = N.of_nat n) by lia. subst d. clear E.
  by_cases_upto_99 n run_regex.
Qed.

Lemma match_bad_month (m : N) (items : list datetime.item) (found : datetime.groups)
      (rest : str) :
  (m <= 99)%N -> (m = 0 \/ 12 < m)%N ->
  datetime.match_items
    (datetime.Directive datetime.pct_m :: datetime.Literal 46%N :: items) found
    (pad2 m ++ 46%N :: rest)
  = [].
Proof.
  intros H Hbad. remember (N.to_nat m) as n eqn:E.
  assert (Hm : m = N.of_nat n) by lia. subst m. clear E.
  by_cases_upto_99 n run_regex.
Qed.

(** A text [dd.mm.<year>] whose day is in 01..31 and whose month is in
    01..12 is matched whole, and the date is built from its numbers. *)
Lemma strptime_new_date (format : str) (yk : datetime.directive) (ytext : str)
      (y m d : N) :
  datetime.scan datetime.punctuation format
  = Some [datetime.Directive datetime.pct_d; datetime.Literal 46%N;
          datetime.Directive datetime.pct_m; datetime.Literal 46%N;
          datetime.Directive yk] ->
  datetime.regex yk ytext = [(ytext, [])] ->
  datetime.convert [(yk, ytext)] None m d = Ok (Some y, m, d) ->
  (1 <= d <= 31)%N -> (1 <= m <= 12)%N ->
  datetime.strptime (Some (date_text 46%N d m ytext)) format
  = datetime.new_date y m d.
Proof.
  intros Hscan Hregex Hconv Hd Hm. unfold datetime.strptime.
  rewrite Hscan, match_date_text, Hregex by assumption. cbn [map fst snd].
  cbn [datetime.convert]. rewrite !int_pad2 by lia. cbn [bind].
  cbn [datetime.convert] in Hconv. rewrite Hconv. reflexivity.
Qed.

(** The same text with the day and the month without leading zeros. *)
Lemma strptime_plain_new_date (format : str) (yk : datetime.directive)
      (ytext : str) (y m d : N) :
  datetime.scan datetime.punctuation format
  = Some [datetime.Directive datetime.pct_d; datetime.Literal 46%N;
          datetime.Directive datetime.pct_m; datetime.Literal 46%N;
          datetime.Directive yk] ->
  datetime.regex yk ytext = [(ytext, [])] ->
  datetime.convert [(yk, ytext)] None m d = Ok (Some y, m, d) ->
  (1 <= d <= 31)%N -> (1 <= m <= 12)%N ->
  datetime.strptime (Some (plain_date_text 46%N d m ytext)) format
  = datetime.new_date y m d.
Proof.
  intros Hscan Hregex Hconv Hd Hm. unfold datetime.strptime, plain_date_text.
  rewrite Hscan, match_plain_day_dot, match_plain_month_dot by assumption.
  cbn [datetime.match_items app]. rewrite Hregex. cbn [flat_map app fst snd].
  cbn [datetime.convert]. rewrite !int_decimal_small by lia. cbn [bind].
  cbn [datetime.convert] in Hconv. rewrite Hconv. reflexivity.
Qed.

Lemma strptime_no_match (format : str) (yk : datetime.directive) (ytext : str)
      (m d : N) :
  datetime.scan datetime.punctuation format
  = Some [datetime.Directive datetime.pct_d; datetime.Literal 46%N;
          datetime.Directive datetime.pct_m; datetime.Literal 46%N;
          datetime.Directive yk] ->
  (d <= 99)%N -> (m <= 99)%N ->
  (d = 0 \/ 31 < d \/ m = 0 \/ 12 < m)%N ->
  datetime.strptime (Some (date_text 46%N d m ytext)) format
  = Raise (ValueError "time data does not match format").
Proof.
  intros Hscan Hd Hm Hbad. unfold datetime.strptime, date_text. rewrite Hscan.
  destruct (N.eq_dec d 0) as [Hd0 | Hd0];
    [rewrite match_bad_day by lia; reflexivity|].
  destruct (N.lt_ge_cases 31 d) as [Hd31 | Hd31];
    [rewrite match_bad_day by lia; reflexivity|].
  rewrite match_day_dot, match_bad_month by lia. reflexivity.
Qed.

Lemma convert_year4 (y m d : N) :
  (y <= 9999)%N ->
  datetime.convert [(datetime.pct_Y, pad4 y)] None m d = Ok (Some y, m, d).
Proof.
  intros H. cbn [datetime.convert]. now rewrite int_pad4 by lia.
Qed.

Lemma convert_year2 (yy m d : N) :
  (yy <= 99)%N ->
  datetime.convert [(datetime.pct_y, pad2 yy)] None m d
  = Ok (Some (century_window yy), m, d).
Proof.
  intros H. cbn [datetime.convert]. rewrite int_pad2 by lia. cbn [bind].
  unfold century_window. destruct (yy <=? 68)%N; now rewrite (N.add_comm yy).
Qed.

Lemma valid_date_ranges (y m d : N) :
  valid_date y m d -> (1 <= d <= 31)%N /\ (1 <= m <= 12)%N.
Proof.
  intros [_ [Hm Hd]]. pose proof (days_in_month_le y m). lia.
Qed.

Section calendar.

Variable pads_year : bool.

Lemma date_rule_accepts (format : str) (yk : datetime.directive) (ytext : str)
      (y m d : N) :
  datetime.scan datetime.punctuation format
  = Some [datetime.Directive datetime.pct_d; datetime.Literal 46%N;
          datetime.Directive datetime.pct_m; datetime.Literal 46%N;
          datetime.Directive yk] ->
  datetime.regex yk ytext = [(ytext, [])] ->
  (forall m d, datetime.convert [(yk, ytext)] None m d = Ok (Some y, m, d)) ->
  (d <= 99)%N -> (m <= 99)%N ->
  raises (date <- datetime.strptime (Some (date_text 46%N d m ytext)) format ;;
          datetime.strftime pads_year date (u8 "%d-%m-%Y"))
  <-> ~ valid_date y m d.
Proof.
  intros Hscan Hregex Hconv Hd Hm. split.
  - intros [e He] Hvalid. destruct (valid_date_ranges y m d Hvalid) as [Hd' Hm'].
    rewrite (strptime_new_date format yk ytext y m d) in He
      by (assumption || apply Hconv).
    rewrite new_date_valid in He by exact Hvalid. cbn [bind] in He.
    rewrite (strftime_date pads_year) in He. discriminate.
  - intros Hinvalid.
    destruct (N.eq_dec d 0) as [Hd0 | Hd0];
      [rewrite (strptime_no_match format yk) by (assumption || lia);
       now eexists|].
    destruct (N.lt_ge_cases 31 d) as [Hd31 | Hd31];
      [rewrite (strptime_no_match format yk) by (assumption || lia);
       now eexists|].
    destruct (N.eq_dec m 0) as [Hm0 | Hm0];
      [rewrite (strptime_no_match format yk) by (assumption || lia);
       now eexists|].
    destruct (N.lt_ge_cases 12 m) as [Hm12 | Hm12];
      [rewrite (strptime_no_match format yk) by (assumption || lia);
       now eexists|].
    rewrite (strptime_new_date format yk ytext y m d)
      by (assumption || apply Hconv || lia).
    destruct (new_date_invalid y m d Hinvalid) as [e ->]. now exists e.
Qed.

(** X12: of the texts [dd.mm.yyyy], [convert_date] rejects exactly those
    that name no day of the calendar: a day 00 or beyond the length of the
    month (29 February outside leap years), a month 00 or beyond 12, the
    year 0000. *)
Theorem convert_date_accepts_calendar_days (y m d : N) :
  (d <= 99)%N -> (m <= 99)%N -> (y <= 9999)%N ->
  raises (convert_date pads_year (Some (dd_mm_yyyy 46%N d m y)))
  <-> ~ valid_date y m d.
Proof.
  intros Hd Hm Hy. unfold convert_date, dd_mm_yyyy.
  apply (date_rule_accepts (u8 "%d.%m.%Y") datetime.pct_Y (pad4 y) y m d);
    try assumption.
  - exact scan_dmY.
  - apply regex_year4. lia.
  - intros m' d'. now apply convert_year4.
Qed.

(** X13: of the texts [dd.mm.yy], [convert_short_date] rejects exactly
    those that name no day of the calendar in the year of the century
    window: 29.02.00 is accepted, the year 2000 being a leap year, and
    29.02.69 is not. *)
Theorem convert_short_date_accepts_calendar_days (yy m d : N) :
  (d <= 99)%N -> (m <= 99)%N -> (yy <= 99)%N ->
  raises (convert_short_date pads_year (Some (dd_mm_yy 46%N d m yy)))
  <-> ~ valid_date (century_window yy) m d.
Proof.
  intros Hd Hm Hy. unfold convert_short_date, dd_mm_yy.
  apply (date_rule_accepts (u8 "%d.%m.%y") datetime.pct_y (pad2 yy)
           (century_window yy) m d); try assumption.
  - exact scan_dmy.
  - apply regex_year2. lia.
  - intros m' d'. now apply convert_year2.
Qed.

(** X14: the leading zeros of the day and of the month are optional:
    [1.3.2023] is converted like [01.03.2023]. *)
Theorem leading_zeros_optional (y yy m d : N) :
  (1 <= d <= 31)%N -> (1 <= m <= 12)%N -> (y <= 9999)%N -> (yy <= 99)%N ->
  convert_date pads_year (Some (plain_date_text 46%N d m (pad4 y)))
  = convert_date pads_year (Some (dd_mm_yyyy 46%N d m y)) /\
  convert_short_date pads_year (Some (plain_date_text 46%N d m (pad2 yy)))
  = convert_short_date pads_year (Some (dd_mm_yy 46%N d m yy)).
Proof.
  intros Hd Hm Hy Hyy. unfold convert_date, convert_short_date, dd_mm_yyyy, dd_mm_yy.
  split.
  - rewrite (strptime_plain_new_date _ datetime.pct_Y (pad4 y) y m d),
      (strptime_new_date _ datetime.pct_Y (pad4 y) y m d);
      try reflexivity; try assumption;
      try exact scan_dmY; try (apply regex_year4; lia);
      now apply convert_year4.
  - rewrite (strptime_plain_new_date _ datetime.pct_y (pad2 yy) (century_window yy) m d),
      (strptime_new_date _ datetime.pct_y (pad2 yy) (century_window yy) m d);
      try reflexivity; try assumption;
      try exact scan_dmy; try (apply regex_year2; lia);
      now apply convert_year2.
Qed.

End calendar.

(** ** The rows of the four projectors *)

Lemma getitem_bind (fieldnames record : list str) (i : nat) (key : string) :
  NoDup fieldnames ->
  nth_error fieldnames i = Some (u8 key) ->
  getitem (csv_dict.bind_row fieldnames record) key = Ok (nth_error record i).
Proof.
  intros Hnd Hi. unfold getitem, dict.getitem.
  now rewrite (bind_row_positional fieldnames record i (u8 key) Hnd Hi).
Qed.

Lemma cash_NoDup : NoDup cash_field_names.
Proof.
  pose proof schemas_NoDup as H. rewrite Forall_forall in H. apply H. cbn. tauto.
Qed.

Lemma old_visa_NoDup : NoDup old_visa_field_names.
Proof.
  pose proof schemas_NoDup as H. rewrite Forall_forall in H. apply H. cbn. tauto.
Qed.

Lemma new_visa_NoDup : NoDup new_visa_field_names.
Proof.
  pose proof schemas_NoDup as H. rewrite Forall_forall in H. apply H. cbn. tauto.
Qed.

Lemma giro_NoDup : NoDup giro_field_names.
Proof.
  pose proof schemas_NoDup as H. rewrite Forall_forall in H. apply H. cbn. tauto.
Qed.

Section columns.

Variable pads_year : bool.

Lemma cash_row_cells (record : list str) :
  cash_row pads_year (csv_dict.bind_row cash_field_names record)
  = (date <- convert_date pads_year (nth_error record 0) ;;
     Ok (homebank_record (csv_dict.VStr date) (csv_dict.VInt 8)
           (csv_dict.of_option (nth_error record 3))
           (csv_dict.of_option (nth_error record 4))
           (csv_dict.of_option (nth_error record 7)))).
Proof.
  unfold cash_row.
  rewrite (getitem_bind cash_field_names record 0 "buchungstag" cash_NoDup eq_refl),
    (getitem_bind cash_field_names record 3 "beguenstigter" cash_NoDup eq_refl),
    (getitem_bind cash_field_names record 4 "verwendungszweck" cash_NoDup eq_refl),
    (getitem_bind cash_field_names record 7 "betrag" cash_NoDup eq_refl).
  reflexivity.
Qed.

Lemma old_visa_row_cells (record : list str) :
  old_visa_row pads_year (csv_dict.bind_row old_visa_field_names record)
  = (date <- convert_date pads_year (nth_error record 1) ;;
     Ok (homebank_record (csv_dict.VStr date) (csv_dict.VInt 1) csv_dict.VNone
           (csv_dict.of_option (nth_error record 3))
           (csv_dict.of_option (nth_error record 4)))).
Proof.
  unfold old_visa_row.
  rewrite (getitem_bind old_visa_field_names record 1 "wertstellung" old_visa_NoDup eq_refl),
    (getitem_bind old_visa_field_names record 3 "beschreibung" old_visa_NoDup eq_refl),
    (getitem_bind old_visa_field_names record 4 "betrag" old_visa_NoDup eq_refl).
  reflexivity.
Qed.

Lemma new_visa_row_cells (record : list str) :
  new_visa_row pads_year (csv_dict.bind_row new_visa_field_names record)
  = (date <- convert_short_date pads_year (nth_error record 1) ;;
     amount <- on_str (nth_error record 5) strip_currency ;;
     Ok (homebank_record (csv_dict.VStr date) (csv_dict.VInt 1) csv_dict.VNone
           (csv_dict.of_option (nth_error record 3)) (csv_dict.VStr amount))).
Proof.
  unfold new_visa_row.
  rewrite (getitem_bind new_visa_field_names record 1 "wertstellung" new_visa_NoDup eq_refl),
    (getitem_bind new_visa_field_names record 3 "beschreibung" new_visa_NoDup eq_refl),
    (getitem_bind new_visa_field_names record 5 "betrag" new_visa_NoDup eq_refl).
  reflexivity.
Qed.

Lemma giro_row_cells (record : list str) :
  giro_row pads_year (csv_dict.bind_row giro_field_names record)
  = (date <- convert_short_date pads_year (nth_error record 0) ;;
     amount <- on_str (nth_error record 8) strip_currency ;;
     Ok (homebank_record (csv_dict.VStr date) (csv_dict.VInt 8)
           (csv_dict.VStr (format (nth_error record 4) ++ u8 " "
                           ++ format (nth_error record 7)))
           (csv_dict.of_option (nth_error record 5)) (csv_dict.VStr amount))).
Proof.
  unfold giro_row.
  rewrite (getitem_bind giro_field_names record 0 "buchungsdatum" giro_NoDup eq_refl),
    (getitem_bind giro_field_names record 4 "zahlungsempfänger*in" giro_NoDup eq_refl),
    (getitem_bind giro_field_names record 7 "IBAN" giro_NoDup eq_refl),
    (getitem_bind giro_field_names record 5 "verwendungszweck" giro_NoDup eq_refl),
    (getitem_bind giro_field_names record 8 "betrag" giro_NoDup eq_refl).
  reflexivity.
Qed.

(** X15: the record of each projector by the columns of the line, counted
    from 0.  [convert_cash]: date from column 0 under [convert_date],
    payee from column 3, memo from 4, amount from 7 as it stands, paymode
    8.  [convert_old_visa]: date from column 1 under [convert_date], memo
    from 3, amount from 4, paymode 1, no payee.  [convert_new_visa]: date
    from column 1 under [convert_short_date], memo from 3, amount from 5
    under [strip_currency], paymode 1, no payee.  [convert_giro]: date
    from column 0 under [convert_short_date], payee from columns 4 and 7
    with a space between, memo from 5, amount from 8 under
    [strip_currency], paymode 8.  No key is ever missing; a column the
    line is too short for is the empty cell of the old formats. *)
Theorem projector_columns (record : list str) :
  cash_row pads_year (csv_dict.bind_row cash_field_names record)
  = (date <- convert_date pads_year (nth_error record 0) ;;
     Ok (homebank_record (csv_dict.VStr date) (csv_dict.VInt 8)
           (csv_dict.of_option (nth_error record 3))
           (csv_dict.of_option (nth_error record 4))
           (csv_dict.of_option (nth_error record 7)))) /\
  old_visa_row pads_year (csv_dict.bind_row old_visa_field_names record)
  = (date <- convert_date pads_year (nth_error record 1) ;;
     Ok (homebank_record (csv_dict.VStr date) (csv_dict.VInt 1) csv_dict.VNone
           (csv_dict.of_option (nth_error record 3))
           (csv_dict.of_option (nth_error record 4)))) /\
  new_visa_row pads_year (csv_dict.bind_row new_visa_field_names record)
  = (date <- convert_short_date pads_year (nth_error record 1) ;;
     amount <- on_str (nth_error record 5) strip_currency ;;
     Ok (homebank_record (csv_dict.VStr date) (csv_dict.VInt 1) csv_dict.VNone
           (csv_dict.of_option (nth_error record 3)) (csv_dict.VStr amount))) /\
  giro_row pads_year (csv_dict.bind_row giro_field_names record)
  = (date <- convert_short_date pads_year (nth_error record 0) ;;
     amount <- on_str (nth_error record 8) strip_currency ;;
     Ok (homebank_record (csv_dict.VStr date) (csv_dict.VInt 8)
           (csv_dict.VStr (format (nth_error record 4) ++ u8 " "
                           ++ format (nth_error record 7)))
           (csv_dict.of_option (nth_error record 5)) (csv_dict.VStr amount))).
Proof.
  repeat split.
  - apply cash_row_cells.
  - apply old_visa_row_cells.
  - apply new_visa_row_cells.
  - apply giro_row_cells.
Qed.

(** X16: the payee of a written row of [convert_giro] is never made from a
    missing cell: a row that is projected had its nine cells, and its
    payee is the recipient, a space and the IBAN. *)
Theorem giro_row_sound (record : list str) (rowdict : dict.t csv_dict.value) :
  giro_row pads_year (csv_dict.bind_row giro_field_names record) = Ok rowdict ->
  exists date recipient iban betrag,
    convert_short_date pads_year (nth_error record 0) = Ok date /\
    nth_error record 4 = Some recipient /\
    nth_error record 7 = Some iban /\
    nth_error record 8 = Some betrag /\
    rowdict = homebank_record (csv_dict.VStr date) (csv_dict.VInt 8)
                (csv_dict.VStr (recipient ++ u8 " " ++ iban))
                (csv_dict.of_option (nth_error record 5))
                (csv_dict.VStr (strip_currency betrag)).
Proof.
  rewrite giro_row_cells. intros H.
  destruct (convert_short_date pads_year (nth_error record 0)) as [date|] eqn:Ed;
    cbn [bind] in H; [|discriminate].
  destruct (nth_error record 8) as [betrag|] eqn:E8; cbn [on_str bind] in H;
    [|discriminate].
  assert (Hlen : 8 < length record) by (apply nth_error_Some; congruence).
  destruct (nth_error record 4) as [recipient|] eqn:E4;
    [|apply nth_error_None in E4; lia].
  destruct (nth_error record 7) as [iban|] eqn:E7;
    [|apply nth_error_None in E7; lia].
  injection H as <-. now exists date, recipient, iban, betrag.
Qed.

(** X17: a line of a new Visa file that is too short for its amount is
    not written with an empty amount, as a short line of the old formats
    is: once its date has been converted, [strip_currency] is called on
    [None] and the row ends in an [AttributeError]. *)
Theorem short_row_raises (record : list str) (date : str) :
  convert_short_date pads_year (nth_error record 1) = Ok date ->
  length record <= 5 ->
  new_visa_row pads_year (csv_dict.bind_row new_visa_field_names record)
  = Raise (AttributeError "'NoneType' object has no attribute 'replace'").
Proof.
  intros Hdate Hlen. rewrite new_visa_row_cells, Hdate. cbn [bind].
  assert (H5 : nth_error record 5 = None) by (apply nth_error_None; lia).
  now rewrite H5.
Qed.

End columns.

(** ** The lines the writer makes *)

Lemma doubled_plain (t : str) : existsb needs_quotes t = false -> doubled t = t.
Proof.
  induction t as [|c t IH]; [reflexivity|]. cbn [existsb doubled flat_map].
  intros H. apply orb_false_iff in H as [Hc Ht].
  unfold needs_quotes in Hc. apply orb_false_iff in Hc as [Hc _].
  apply orb_false_iff in Hc as [_ Hc]. rewrite Hc. cbn [app].
  f_equal. now apply IH.
Qed.

Lemma join_append_data_DKB (t : str) :
  forall quoted,
    csv_dict.join_append_data DKB t quoted
    = Ok (doubled t, quoted || existsb needs_quotes t).
Proof.
  induction t as [|c t IH]; intros quoted.
  - cbn. now rewrite orb_false_r.
  - cbn [csv_dict.join_append_data].
    unfold csv_dict.special, csv.is_escape.
    cbn [DKB csv.delimiter csv.quotechar csv.escapechar csv.doublequote
         csv.lineterminator csv.quoting existsb].
    change (doubled (c :: t))
      with ((if (c =? 34)%N then [34; 34]%N else [c]) ++ doubled t).
    cbn [existsb]. unfold needs_quotes at 1.
    destruct (N.eqb_spec c 34) as [-> | H34]; cbn [N.eqb Pos.eqb orb].
    + rewrite IH. cbn [bind fst snd app]. now rewrite !orb_true_r.
    + destruct (c =? 59)%N, (c =? 10)%N; cbn [orb]; rewrite IH;
        cbn [bind fst snd app]; rewrite ?orb_true_r; reflexivity.
Qed.

Lemma join_append_DKB (v : csv_dict.value) :
  csv_dict.join_append DKB v = Ok (dkb_field (csv_dict.text_of v)).
Proof.
  unfold csv_dict.join_append. cbn [DKB csv.quoting].
  replace (match v with
           | csv_dict.VNone | _ => false
           end) with false by now destruct v.
  rewrite join_append_data_DKB. cbn [bind fst snd orb csv.quotechar].
  unfold dkb_field. destruct (existsb needs_quotes _) eqn:E; [reflexivity|].
  now rewrite doubled_plain.
Qed.

Lemma join_fields_DKB (row : list csv_dict.value) :
  csv_dict.join_fields DKB row
  = Ok (map (fun v => dkb_field (csv_dict.text_of v)) row).
Proof.
  induction row as [|v row IH]; [reflexivity|].
  cbn [csv_dict.join_fields map]. rewrite join_append_DKB, IH. reflexivity.
Qed.

Lemma dict_to_list_record (date paymode payee memo amount : csv_dict.value) :
  csv_dict._dict_to_list homebank_field_names
    (homebank_record date paymode payee memo amount)
  = Ok [date; paymode; csv_dict.VNone; payee; memo; amount;
        csv_dict.VNone; csv_dict.VNone].
Proof. vm_compute. reflexivity. Qed.

(** Writing a record never fails, and the line is the eight texts, each
    quoted where it holds a semicolon, a quotation mark or a line feed,
    with semicolons between them and a line feed at the end. *)
Lemma writerow_total (date paymode payee memo amount : csv_dict.value) :
  csv_dict.DictWriter_writerow DKB homebank_field_names
    (homebank_record date paymode payee memo amount)
  = Ok (Str.join (u8 ";")
          (map dkb_field (homebank_texts date paymode payee memo amount))
        ++ [10%N]).
Proof.
  unfold csv_dict.DictWriter_writerow. rewrite dict_to_list_record. cbn [bind].
  unfold csv_dict.writerow, homebank_texts. rewrite join_fields_DKB.
  cbn [bind map].
  destruct (dkb_field (csv_dict.text_of date)); reflexivity.
Qed.

(** ** Reading the written lines back *)

Local Ltac decide_tests :=
  unfold csv.field_limit in *;
  repeat match goal with
         | |- context [(?a =? ?b)%N] => destruct (N.eqb_spec a b); try lia
         | |- context [(?a <=? ?b)%N] => destruct (N.leb_spec a b); try lia
         end.

Lemma in_field_char (c : char) (pre : str) (n : N) (acc : list str) :
  c <> 10%N -> c <> 13%N -> c <> 59%N -> (n < csv.field_limit)%N ->
  csv.parse_process_char DKB (within csv.IN_FIELD pre n acc) (csv.Ch c)
  = Ok (within csv.IN_FIELD (c :: pre) (n + 1) acc).
Proof.
  intros H10 H13 H59 Hn.
  unfold within. cbn [csv.parse_process_char csv.st].
  unfold csv.in_field, csv.is_newline, csv.is_escape, csv.parse_add_char.
  cbn [DKB csv.escapechar csv.delimiter csv.field_len csv.st csv.field csv.fields].
  decide_tests. reflexivity.
Qed.

Lemma in_quoted_char (c : char) (pre : str) (n : N) (acc : list str) :
  c <> 34%N -> (n < csv.field_limit)%N ->
  csv.parse_process_char DKB (within csv.IN_QUOTED_FIELD pre n acc) (csv.Ch c)
  = Ok (within csv.IN_QUOTED_FIELD (c :: pre) (n + 1) acc).
Proof.
  intros H34 Hn.
  unfold within. cbn [csv.parse_process_char csv.st].
  unfold csv.is_escape, csv.parse_add_char, csv.quotes_on.
  cbn [DKB csv.escapechar csv.quotechar csv.quoting csv.field_len csv.st
       csv.field csv.fields].
  decide_tests. reflexivity.
Qed.

Lemma in_quoted_quote (pre : str) (n : N) (acc : list str) (rest : str) :
  (n < csv.field_limit)%N ->
  csv.parse_line DKB (within csv.IN_QUOTED_FIELD pre n acc) (34 :: 34 :: rest)%N
  = csv.parse_line DKB (within csv.IN_QUOTED_FIELD (34%N :: pre) (n + 1) acc) rest.
Proof.
  intros Hn. cbn [csv.parse_line].
  assert (H1 : csv.parse_process_char DKB (within csv.IN_QUOTED_FIELD pre n acc)
                 (csv.Ch 34%N)
               = Ok (within csv.QUOTE_IN_QUOTED_FIELD pre n acc)) by reflexivity.
  assert (H2 : csv.parse_process_char DKB
                 (within csv.QUOTE_IN_QUOTED_FIELD pre n acc) (csv.Ch 34%N)
               = Ok (within csv.IN_QUOTED_FIELD (34%N :: pre) (n + 1) acc)).
  { unfold within. cbn [csv.parse_process_char csv.st].
    unfold csv.quotes_on, csv.parse_add_char.
    cbn [DKB csv.quoting csv.quotechar N.eqb Pos.eqb andb csv.field_len csv.st
         csv.field csv.fields].
    decide_tests. reflexivity. }
  rewrite H1. cbn [bind]. rewrite H2. reflexivity.
Qed.

(** The characters of an unquoted field. *)
Lemma parse_in_field (t : str) :
  forall pre n acc rest,
    Forall (fun c => c <> 10%N /\ c <> 13%N) t ->
    existsb needs_quotes t = false ->
    (n + N.of_nat (length t) <= csv.field_limit)%N ->
    csv.parse_line DKB (within csv.IN_FIELD pre n acc) (t ++ rest)
    = csv.parse_line DKB
        (within csv.IN_FIELD (rev t ++ pre) (n + N.of_nat (length t)) acc) rest.
Proof.
  induction t as [|c t IH]; intros pre n acc rest Hline Hplain Hlen.
  - cbn [app rev length]. now rewrite N.add_0_r.
  - inversion Hline as [|? ? [H10 H13] Hline']; subst.
    cbn [existsb] in Hplain. apply orb_false_iff in Hplain as [Hc Hplain].
    unfold needs_quotes in Hc. apply orb_false_iff in Hc as [Hc _].
    apply orb_false_iff in Hc as [H59 _]. apply N.eqb_neq in H59.
    cbn [length] in Hlen. cbn [app csv.parse_line].
    rewrite in_field_char by (assumption || lia). cbn [bind].
    rewrite IH by (assumption || lia).
    cbn [rev]. rewrite <- app_assoc. cbn [app].
    replace (n + 1 + N.of_nat (length t))%N
      with (n + N.of_nat (S (length t)))%N by lia.
    reflexivity.
Qed.

(** The characters of a quoted field, with its quotation marks doubled. *)
Lemma parse_in_quoted (t : str) :
  forall pre n acc rest,
    (n + N.of_nat (length t) <= csv.field_limit)%N ->
    csv.parse_line DKB (within csv.IN_QUOTED_FIELD pre n acc) (doubled t ++ rest)
    = csv.parse_line DKB
        (within csv.IN_QUOTED_FIELD (rev t ++ pre) (n + N.of_nat (length t)) acc)
        rest.
Proof.
  induction t as [|c t IH]; intros pre n acc rest Hlen.
  - cbn [doubled flat_map app rev length]. now rewrite N.add_0_r.
  - cbn [length] in Hlen.
    change (doubled (c :: t))
      with ((if (c =? 34)%N then [34; 34]%N else [c]) ++ doubled t).
    replace (n + N.of_nat (length (c :: t)))%N
      with (n + 1 + N.of_nat (length t))%N by (cbn [length]; lia).
    cbn [rev]. rewrite <- (app_assoc (rev t)). cbn [app].
    destruct (N.eqb_spec c 34) as [-> | H34]; rewrite <- app_assoc.
    + cbn [app]. rewrite in_quoted_quote by lia. apply IH. lia.
    + cbn [app csv.parse_line]. rewrite in_quoted_char by (assumption || lia).
      cbn [bind]. apply IH. lia.
Qed.

(** A field and the semicolon after it. *)
Lemma parse_field (t : str) (acc : list str) (rest : str) :
  readable t ->
  csv.parse_line DKB (field_start acc) (dkb_field t ++ 59%N :: rest)
  = csv.parse_line DKB (field_start (t :: acc)) rest.
Proof.
  intros [Hline Hlen]. unfold dkb_field.
  destruct (existsb needs_quotes t) eqn:Eq.
  - cbn [app csv.parse_line].
    replace (csv.parse_process_char DKB (field_start acc) (csv.Ch 34%N))
      with (Ok (within csv.IN_QUOTED_FIELD [] 0 acc)) by reflexivity.
    cbn [bind]. rewrite <- app_assoc. rewrite parse_in_quoted by lia.
    cbn [app csv.parse_line]. rewrite app_nil_r.
    replace (csv.parse_process_char DKB
               (within csv.IN_QUOTED_FIELD (rev t) (0 + N.of_nat (length t)) acc)
               (csv.Ch 34%N))
      with (Ok (within csv.QUOTE_IN_QUOTED_FIELD (rev t)
                  (0 + N.of_nat (length t)) acc)) by reflexivity.
    cbn [bind].
    replace (csv.parse_process_char DKB
               (within csv.QUOTE_IN_QUOTED_FIELD (rev t)
                  (0 + N.of_nat (length t)) acc) (csv.Ch 59%N))
      with (Ok (field_start (rev (rev t) :: acc))) by reflexivity.
    cbn [bind]. now rewrite rev_involutive.
  - destruct t as [|c t].
    + reflexivity.
    + inversion Hline as [|? ? [H10 H13] Hline']; subst.
      cbn [existsb] in Eq. apply orb_false_iff in Eq as [Hc Eq].
      unfold needs_quotes in Hc. apply orb_false_iff in Hc as [Hc _].
      apply orb_false_iff in Hc as [H59 H34].
      apply N.eqb_neq in H59, H34. cbn [length] in Hlen.
      cbn [app csv.parse_line].
      assert (Hfirst : csv.parse_process_char DKB (field_start acc) (csv.Ch c)
                       = Ok (within csv.IN_FIELD [c] 1 acc)).
      { unfold field_start, within. cbn [csv.parse_process_char csv.st].
        unfold csv.start_field, csv.is_newline, csv.is_escape, csv.quotes_on,
          csv.parse_add_char.
        cbn [DKB csv.escapechar csv.quotechar csv.quoting csv.delimiter
             csv.skipinitialspace csv.field_len csv.st csv.field csv.fields].
        rewrite andb_false_r. decide_tests. reflexivity. }
      rewrite Hfirst. cbn [bind].
      rewrite parse_in_field by (assumption || lia).
      cbn [csv.parse_line].
      replace (csv.parse_process_char DKB
                 (within csv.IN_FIELD (rev t ++ [c]) (1 + N.of_nat (length t)) acc)
                 (csv.Ch 59%N))
        with (Ok (field_start (rev (rev t ++ [c]) :: acc))) by reflexivity.
      cbn [bind]. rewrite rev_app_distr, rev_involutive. reflexivity.
Qed.

(** The last field and the line feed after it. *)
Lemma parse_last_field (t : str) (acc : list str) :
  readable t ->
  csv.parse_line DKB (field_start acc) (dkb_field t ++ [10%N])
  = Ok (within csv.START_RECORD [] 0 (t :: acc)).
Proof.
  intros [Hline Hlen]. unfold dkb_field.
  destruct (existsb needs_quotes t) eqn:Eq.
  - cbn [app csv.parse_line].
    replace (csv.parse_process_char DKB (field_start acc) (csv.Ch 34%N))
      with (Ok (within csv.IN_QUOTED_FIELD [] 0 acc)) by reflexivity.
    cbn [bind]. rewrite <- app_assoc. rewrite parse_in_quoted by lia.
    cbn [app csv.parse_line]. rewrite app_nil_r.
    replace (csv.parse_process_char DKB
               (within csv.IN_QUOTED_FIELD (rev t) (0 + N.of_nat (length t)) acc)
               (csv.Ch 34%N))
      with (Ok (within csv.QUOTE_IN_QUOTED_FIELD (rev t)
                  (0 + N.of_nat (length t)) acc)) by reflexivity.
    cbn [bind].
    replace (csv.parse_process_char DKB
               (within csv.QUOTE_IN_QUOTED_FIELD (rev t)
                  (0 + N.of_nat (length t)) acc) (csv.Ch 10%N))
      with (Ok (within csv.EAT_CRNL [] 0 (rev (rev t) :: acc))) by reflexivity.
    cbn [bind]. now rewrite rev_involutive.
  - destruct t as [|c t].
    + reflexivity.
    + inversion Hline as [|? ? [H10 H13] Hline']; subst.
      cbn [existsb] in Eq. apply orb_false_iff in Eq as [Hc Eq].
      unfold needs_quotes in Hc. apply orb_false_iff in Hc as [Hc _].
      apply orb_false_iff in Hc as [H59 H34].
      apply N.eqb_neq in H59, H34. cbn [length] in Hlen.
      cbn [app csv.parse_line].
      assert (Hfirst : csv.parse_process_char DKB (field_start acc) (csv.Ch c)
                       = Ok (within csv.IN_FIELD [c] 1 acc)).
      { unfold field_start, within. cbn [csv.parse_process_char csv.st].
        unfold csv.start_field, csv.is_newline, csv.is_escape, csv.quotes_on,
          csv.parse_add_char.
        cbn [DKB csv.escapechar csv.quotechar csv.quoting csv.delimiter
             csv.skipinitialspace csv.field_len csv.st csv.field csv.fields].
        rewrite andb_false_r. decide_tests. reflexivity. }
      rewrite Hfirst. cbn [bind].
      rewrite parse_in_field by (assumption || lia).
      cbn [csv.parse_line].
      replace (csv.parse_process_char DKB
                 (within csv.IN_FIELD (rev t ++ [c]) (1 + N.of_nat (length t)) acc)
                 (csv.Ch 10%N))
        with (Ok (within csv.EAT_CRNL [] 0 (rev (rev t ++ [c]) :: acc)))
        by reflexivity.
      cbn [bind]. rewrite rev_app_distr, rev_involutive. reflexivity.
Qed.

(** The fields of a line, after the first. *)
Lemma parse_fields (texts : list str) :
  forall t acc,
    Forall readable (t :: texts) ->
    csv.parse_line DKB (field_start acc)
      (Str.join (u8 ";") (map dkb_field (t :: texts)) ++ [10%N])
    = Ok (within csv.START_RECORD [] 0 (rev (t :: texts) ++ acc)).
Proof.
  induction texts as [|t' texts IH]; intros t acc Hall;
    inversion Hall as [|? ? Ht Hall']; subst.
  - cbn [map Str.join rev app]. now apply parse_last_field.
  - change (Str.join (u8 ";") (map dkb_field (t :: t' :: texts)))
      with (dkb_field t ++ [59%N]
            ++ Str.join (u8 ";") (map dkb_field (t' :: texts))).
    rewrite <- !app_assoc. cbn [app].
    rewrite parse_field by exact Ht. rewrite IH by exact Hall'.
    cbn [rev]. now rewrite <- !app_assoc.
Qed.

(** The first field of a line begins a record. *)
Lemma parse_record (t t' : str) (texts : list str) :
  Forall readable (t :: t' :: texts) ->
  csv.parse_line DKB csv.parse_reset
    (Str.join (u8 ";") (map dkb_field (t :: t' :: texts)) ++ [10%N])
  = Ok (within csv.START_RECORD [] 0 (rev (t :: t' :: texts))).
Proof.
  intros Hall. rewrite <- (app_nil_r (rev _)).
  rewrite <- (parse_fields (t' :: texts) t []) by exact Hall.
  change (Str.join (u8 ";") (map dkb_field (t :: t' :: texts)))
    with (dkb_field t ++ [59%N]
          ++ Str.join (u8 ";") (map dkb_field (t' :: texts))).
  rewrite <- !app_assoc. cbn [app].
  inversion Hall as [|? ? [Hline _] _]; subst.
  assert (Hstart : forall c l,
             c <> 10%N -> c <> 13%N ->
             csv.parse_line DKB csv.parse_reset (c :: l)
             = csv.parse_line DKB (field_start []) (c :: l)).
  { intros c l H10 H13. cbn [csv.parse_line]. unfold field_start, csv.parse_reset.
    cbn [csv.parse_process_char csv.st csv.set_state csv.field csv.field_len
         csv.fields].
    unfold csv.is_newline. decide_tests. reflexivity. }
  unfold dkb_field. destruct (existsb needs_quotes t).
  - cbn [app]. apply Hstart; discriminate.
  - destruct t as [|c t]; cbn [app]; [apply Hstart; discriminate|].
    inversion Hline as [|? ? [H10 H13] _]; subst. now apply Hstart.
Qed.

(** X18: a line of the output read back with the dialect [DKB] gives the
    eight texts that were written, cell for cell, when no text holds a
    line feed or a carriage return and none is longer than the field
    limit: semicolons and quotation marks in a payee or a memo survive. *)
Theorem written_line_reads_back (date paymode payee memo amount : csv_dict.value)
        (line : str) :
  Forall readable (homebank_texts date paymode payee memo amount) ->
  csv_dict.DictWriter_writerow DKB homebank_field_names
    (homebank_record date paymode payee memo amount) = Ok line ->
  csv.reader [line] DKB
  = ([homebank_texts date paymode payee memo amount], None).
Proof.
  intros Hall Hline.
  assert (Hl : line = Str.join (u8 ";")
                        (map dkb_field
                           (homebank_texts date paymode payee memo amount))
                      ++ [10%N]).
  { rewrite writerow_total in Hline. now injection Hline. }
  subst line. clear Hline. unfold csv.reader. cbn [csv.records_from].
  unfold homebank_texts in *. rewrite parse_record by exact Hall.
  cbn [within csv.st csv.state_eqb csv.records_from csv.parse_reset csv.field_len
       csv.fields N.eqb negb orb].
  cbn [rev app]. reflexivity.
Qed.

(** ** How a conversion ends *)

Lemma write_rows_raises (project : csv_dict.Row -> result (dict.t csv_dict.value))
      (rows : list csv_dict.Row) (stop : option exception) (e : exception) :
  (forall row rowdict,
      project row = Ok rowdict ->
      exists line,
        csv_dict.DictWriter_writerow DKB homebank_field_names rowdict = Ok line) ->
  forall written_lines,
    outcome (write_rows project rows stop written_lines) = Raise e ->
    stop = Some e \/ exists row, In row rows /\ project row = Raise e.
Proof.
  intros Hw. induction rows as [|row rows IH]; intros acc; cbn [write_rows].
  - cbn [outcome]. destruct stop as [e'|]; [|discriminate].
    intros H. injection H as <-. now left.
  - destruct (project row) as [rowdict|e'] eqn:Ep; cbn [bind].
    + destruct (Hw row rowdict Ep) as [line ->]. intros H.
      destruct (IH _ H) as [Hs | [row' [Hin Hrow]]]; [now left|].
      right. exists row'. split; [now right | exact Hrow].
    + cbn [outcome]. intros H. injection H as <-. right. exists row.
      split; [now left | exact Ep].
Qed.

Lemma write_rows_prefix (project : csv_dict.Row -> result (dict.t csv_dict.value))
      (rows : list csv_dict.Row) (stop : option exception) :
  forall written_lines lines,
    outfile (write_rows project rows stop written_lines) = Some lines ->
    exists new,
      lines = written_lines ++ new /\
      Forall2 (fun row line =>
                 (rowdict <- project row ;;
                  csv_dict.DictWriter_writerow DKB homebank_field_names rowdict)
                 = Ok line)
              (firstn (length new) rows) new.
Proof.
  induction rows as [|row rows IH]; intros acc lines; cbn [write_rows].
  - cbn [outfile]. intros H. injection H as <-. exists []. rewrite app_nil_r.
    split; [reflexivity | constructor].
  - destruct (bind (project row) _) as [line|e] eqn:Ew.
    + intros H. destruct (IH _ _ H) as [new [-> Hnew]]. exists (line :: new).
      rewrite <- app_assoc. split; [reflexivity|]. cbn [length firstn].
      constructor; assumption.
    + cbn [outfile]. intros H. injection H as <-. exists []. rewrite app_nil_r.
      split; [reflexivity | constructor].
Qed.

(** *** The exceptions of the parts *)

Lemma parse_add_char_errors (p : csv.parser) (c : char) (e : exception) :
  csv.parse_add_char p c = Raise e -> exists msg, e = csv_Error msg.
Proof.
  unfold csv.parse_add_char. destruct (_ <=? _)%N; [|discriminate].
  intros H. injection H as <-. eauto.
Qed.

Local Ltac csv_error :=
  repeat match goal with
         | |- Ok _ = Raise _ -> _ => discriminate
         | |- Raise (csv_Error _) = Raise _ -> _ =>
             let H := fresh in intros H; injection H as <-; eauto
         | |- csv.parse_add_char _ _ = Raise _ -> _ => apply parse_add_char_errors
         | |- bind (csv.parse_add_char ?p ?c) _ = Raise _ -> _ =>
             let E := fresh in
             destruct (csv.parse_add_char p c) eqn:E; cbn [bind];
             [|let H := fresh in
               intros H; injection H as <-; eapply parse_add_char_errors; exact E]
         | |- (if ?b then _ else _) = Raise _ -> _ => destruct b
         end.

Lemma parse_process_char_errors (d : csv.Dialect) (p : csv.parser) (i : csv.input)
      (e : exception) :
  csv.parse_process_char d p i = Raise e -> exists msg, e = csv_Error msg.
Proof.
  unfold csv.parse_process_char, csv.start_field, csv.in_field.
  destruct (csv.st p); destruct i as [c|]; csv_error.
Qed.

Lemma parse_line_errors (d : csv.Dialect) (line : str) :
  forall p e, csv.parse_line d p line = Raise e -> exists msg, e = csv_Error msg.
Proof.
  induction line as [|c line IH]; intros p e; cbn [csv.parse_line].
  - apply parse_process_char_errors.
  - destruct (csv.parse_process_char d p (csv.Ch c)) as [p'|e'] eqn:E; cbn [bind].
    + apply IH.
    + intros H. injection H as <-. eapply parse_process_char_errors. exact E.
Qed.

Lemma records_from_errors (d : csv.Dialect) (lines : list str) :
  forall p e, snd (csv.records_from d p lines) = Some e -> exists msg, e = csv_Error msg.
Proof.
  induction lines as [|line lines IH]; intros p e; cbn [csv.records_from].
  - destruct (_ || _); [destruct (csv.strict d)|]; cbn [snd]; try discriminate.
    intros H. injection H as <-. eauto.
  - destruct (csv.parse_line d p line) as [p'|e'] eqn:E.
    + destruct (csv.state_eqb _ _); [|apply IH].
      destruct (csv.records_from d csv.parse_reset lines) as [rest err] eqn:Er.
      cbn [snd]. intros ->. apply (IH csv.parse_reset e). now rewrite Er.
    + cbn [snd]. intros H. injection H as <-. eapply parse_line_errors. exact E.
Qed.

Lemma rows_errors (reader : csv_dict.DictReader) (e : exception) :
  snd (csv_dict.rows reader) = Some e -> exists msg, e = csv_Error msg.
Proof.
  unfold csv_dict.rows, csv.reader.
  destruct (csv.records_from _ _ _) as [records err] eqn:E. cbn [snd]. intros ->.
  apply (records_from_errors (csv_dict.dialect reader) (csv_dict.lines reader)
           csv.parse_reset e).
  now rewrite E.
Qed.

Lemma rows_bound (reader : csv_dict.DictReader) (row : csv_dict.Row) :
  In row (fst (csv_dict.rows reader)) ->
  exists record, row = csv_dict.bind_row (csv_dict.fieldnames reader) record.
Proof.
  unfold csv_dict.rows. destruct (csv.reader _ _) as [records err]. cbn [fst].
  intros H. apply in_map_iff in H as [record [<- _]]. now exists record.
Qed.

Lemma loop_raises (lines todo : list str) :
  forall i e,
    find_transaction_lines_loop lines i todo = Raise e ->
    e = ValueError "Can't convert CSV file without header line".
Proof.
  induction todo as [|line todo IH]; intros i e; cbn [find_transaction_lines_loop].
  - intros H. now injection H as <-.
  - destruct (_ && _); [discriminate | apply IH].
Qed.

Lemma readlines_errors enc (data : codecs.bytes) :
  decode_error_only (io.readlines enc data).
Proof.
  unfold io.readlines. intros e.
  destruct (codecs.decode enc true data) as [t|e'] eqn:E; cbn [bind]; [discriminate|].
  intros H. injection H as <-. exact (decode_errors enc true data _ E).
Qed.

Lemma read_errors size enc (n : nat) (data : codecs.bytes) :
  decode_error_only (io.read size enc n data).
Proof.
  unfold io.read. intros e.
  destruct (io.pump enc _ [] (io.chunks size data)) as [t|e'] eqn:E; cbn [bind];
    [discriminate|].
  intros H. injection H as <-. exact (pump_errors enc _ _ _ _ E).
Qed.

Lemma latin_1_decodes (final : bool) (data : codecs.bytes) :
  exists t, codecs.decode codecs.iso_8859_1 final data = Ok t.
Proof. cbn [codecs.decode]. unfold codecs.latin_1_decode. eauto. Qed.

Lemma sniff_errors guess_q guess_d (sample : str) (e : exception) :
  csv_dict.sniff guess_q guess_d sample = Raise e ->
  e = csv_Error "Could not determine delimiter".
Proof.
  unfold csv_dict.sniff.
  destruct (guess_q sample) as [[[q dq] [delim|]] sp]; [discriminate|].
  destruct (guess_d sample) as [[delim|] sp']; [discriminate|].
  intros H. now injection H as <-.
Qed.

Section endings.

Variable buffer_size : positive.
Variable pads_year : bool.
Variable _guess_quote_and_delimiter : csv_dict.quote_guess.
Variable _guess_delimiter : csv_dict.delimiter_guess.

Lemma open_csv_raises (file_path : codecs.bytes) (field_names : list str)
      (enc : codecs.encoding) (e : exception) :
  _open_csv buffer_size _guess_quote_and_delimiter _guess_delimiter
    file_path field_names enc = Raise e ->
  e = UnicodeDecodeError /\ enc = codecs.utf_8_sig \/
  e = csv_Error "Could not determine delimiter" \/
  e = ValueError "Can't convert CSV file without header line".
Proof.
  unfold _open_csv, find_transaction_lines. cbn [raw encoding].
  destruct (io.read buffer_size enc 1024 file_path) as [sample|e'] eqn:Er;
    cbn [bind].
  - destruct (csv_dict.sniff _ _ sample) as [dialect|e'] eqn:Es; cbn [bind].
    + destruct (io.readlines enc file_path) as [lines|e'] eqn:El; cbn [bind].
      * destruct (find_transaction_lines_loop lines 1 lines) eqn:Ef; cbn [bind];
          [discriminate|].
        intros H. injection H as <-. right. right. eapply loop_raises. exact Ef.
      * intros H. injection H as <-.
        pose proof (readlines_errors enc file_path _ El) as ->. left.
        split; [reflexivity|]. destruct enc; [reflexivity|].
        unfold io.readlines in El.
        destruct (latin_1_decodes true file_path) as [t Ht]. rewrite Ht in El.
        discriminate.
    + intros H. injection H as <-. right. left. eapply sniff_errors. exact Es.
  - intros H. injection H as <-.
    pose proof (read_errors buffer_size enc 1024 file_path _ Er) as ->. left.
    split; [reflexivity|]. destruct enc; [reflexivity|].
    unfold io.read in Er.
    destruct (pump_latin_1 (fun t => (1024 <=? length t)%nat)
                (io.chunks buffer_size file_path) []) as [t Ht].
    rewrite Ht in Er. discriminate.
Qed.

Lemma projected_written (P : projector) (row : csv_dict.Row)
      (rowdict : dict.t csv_dict.value) :
  In P (projectors buffer_size pads_year _guess_quote_and_delimiter _guess_delimiter) ->
  project P row = Ok rowdict ->
  exists line,
    csv_dict.DictWriter_writerow DKB homebank_field_names rowdict = Ok line.
Proof.
  intros HP H.
  destruct (projected_record buffer_size pads_year _guess_quote_and_delimiter
              _guess_delimiter P row rowdict HP H) as [d [p [pa [m [a ->]]]]].
  rewrite writerow_total. eauto.
Qed.

Lemma date_raises (cell : option str) (format : str) (e : exception) :
  (date <- datetime.strptime cell format ;;
   datetime.strftime pads_year date (u8 "%d-%m-%Y")) = Raise e ->
  (exists msg, e = ValueError msg) \/ (exists msg, e = TypeError msg).
Proof.
  destruct (datetime.strptime cell format) as [date|e'] eqn:E; cbn [bind].
  - destruct date as [y m d]. rewrite (strftime_date pads_year). discriminate.
  - intros H. injection H as <-.
    destruct (strptime_errors cell format e' E) as [[s [msg [_ ->]]] | [_ [msg ->]]];
      eauto.
Qed.

Lemma bound_row_raises (P : projector) (record : list str) (e : exception) :
  In P (projectors buffer_size pads_year _guess_quote_and_delimiter _guess_delimiter) ->
  project P (csv_dict.bind_row (schema P) record) = Raise e ->
  (exists msg, e = ValueError msg) \/ (exists msg, e = TypeError msg) \/
  (exists msg, e = AttributeError msg).
Proof.
  assert (Hd : forall cell format (k : str -> result (dict.t csv_dict.value)),
             (date <- (date <- datetime.strptime cell format ;;
                       datetime.strftime pads_year date (u8 "%d-%m-%Y")) ;;
              k date) = Raise e ->
             (forall date, k date = Raise e ->
                           exists msg, e = AttributeError msg) ->
             (exists msg, e = ValueError msg) \/ (exists msg, e = TypeError msg) \/
             (exists msg, e = AttributeError msg)).
  { intros cell format k H Hk.
    destruct (bind (datetime.strptime cell format) _) as [date|e'] eqn:E;
      cbn [bind] in H.
    - right. right. eapply Hk. exact H.
    - injection H as <-. destruct (date_raises cell format e' E); tauto. }
  assert (Hs : forall (cell : option str) (k : str -> result (dict.t csv_dict.value)),
             (forall amount, exists rowdict, k amount = Ok rowdict) ->
             (amount <- on_str cell strip_currency ;; k amount) = Raise e ->
             exists msg, e = AttributeError msg).
  { intros [s|] k Hk; cbn [on_str bind].
    - destruct (Hk (strip_currency s)) as [rowdict ->]. discriminate.
    - intros H. injection H as <-. eauto. }
  intros HP.
  repeat (destruct HP as [<- | HP]; [|]); try contradiction;
    cbn [project schema].
  - rewrite cash_row_cells. unfold convert_date. intros H.
    eapply Hd; [exact H|]. discriminate.
  - rewrite old_visa_row_cells. unfold convert_date. intros H.
    eapply Hd; [exact H|]. discriminate.
  - rewrite new_visa_row_cells. unfold convert_short_date. intros H.
    eapply Hd; [exact H|]. intros date. apply Hs. eauto.
  - rewrite giro_row_cells. unfold convert_short_date. intros H.
    eapply Hd; [exact H|]. intros date. apply Hs. eauto.
Qed.

Lemma convert_raises (P : projector) (file_path : codecs.bytes) (e : exception) :
  In P (projectors buffer_size pads_year _guess_quote_and_delimiter _guess_delimiter) ->
  outcome (convert_x P file_path) = Raise e ->
  e = UnicodeDecodeError /\ reads P = codecs.utf_8_sig \/
  (exists msg, e = csv_Error msg) \/ (exists msg, e = ValueError msg) \/
  (exists msg, e = TypeError msg) \/ (exists msg, e = AttributeError msg).
Proof.
  intros HP.
  rewrite (convert_x_unfold buffer_size pads_year _guess_quote_and_delimiter
             _guess_delimiter P file_path HP).
  destruct (_open_csv _ _ _ file_path (schema P) (reads P)) as [reader|e'] eqn:Eo;
    cbn [convert].
  - destruct (csv_dict.rows reader) as [rows stop] eqn:Er. intros H.
    apply write_rows_raises in H; [|intros row rowdict; now apply projected_written].
    destruct H as [-> | [row [Hin Hrow]]].
    + right. left. apply (rows_errors reader). now rewrite Er.
    + assert (Hin' : In row (fst (csv_dict.rows reader))) by now rewrite Er.
      apply rows_bound in Hin' as [record ->].
      assert (Hnames : csv_dict.fieldnames reader = schema P).
      { unfold _open_csv in Eo.
        destruct (io.read _ _ _ _); cbn [bind] in Eo; [|discriminate].
        destruct (csv_dict.sniff _ _ _); cbn [bind] in Eo; [|discriminate].
        destruct (find_transaction_lines _); cbn [bind] in Eo; [|discriminate].
        now injection Eo as <-. }
      rewrite Hnames in Hrow.
      destruct (bound_row_raises P record e HP Hrow) as [H | [H | H]]; tauto.
  - cbn [outcome]. intros H. injection H as <-.
    destruct (open_csv_raises file_path (schema P) (reads P) e' Eo)
      as [[-> Henc] | [-> | ->]]; eauto 6.
Qed.

(** X20: the lines of the output file are the lines of the first rows of
    the reader, one for each and in their order, each the eight texts of
    the record the projector made of its row. *)
Theorem written_lines_in_order (P : projector) (file_path : codecs.bytes)
        (lines : list str) :
  In P (projectors buffer_size pads_year _guess_quote_and_delimiter _guess_delimiter) ->
  outfile (convert_x P file_path) = Some lines ->
  exists reader,
    _open_csv buffer_size _guess_quote_and_delimiter _guess_delimiter
      file_path (schema P) (reads P) = Ok reader /\
    Forall2 (line_of (project P))
            (firstn (length lines) (fst (csv_dict.rows reader))) lines.
Proof.
  intros HP.
  rewrite (convert_x_unfold buffer_size pads_year _guess_quote_and_delimiter
             _guess_delimiter P file_path HP).
  destruct (_open_csv _ _ _ file_path (schema P) (reads P)) as [reader|e];
    cbn [convert]; [|discriminate].
  destruct (csv_dict.rows reader) as [rows stop] eqn:Er. intros H.
  apply write_rows_prefix in H as [new [-> Hnew]]. cbn [app].
  exists reader. split; [reflexivity|]. rewrite Er. cbn [fst].
  induction Hnew as [|row line rows' new' Hrow _ IH]; constructor; [|exact IH].
  destruct (project P row) as [rowdict|] eqn:Ep; cbn [bind] in Hrow; [|discriminate].
  destruct (projected_record buffer_size pads_year _guess_quote_and_delimiter
              _guess_delimiter P row rowdict HP Ep) as [d [p [pa [m [a ->]]]]].
  rewrite writerow_total in Hrow. injection Hrow as <-.
  now exists d, p, pa, m, a.
Qed.

(** X22: a run of the script never ends in a [KeyError] or in the
    [InvalidInputException] the source declares; classifying the file
    raises nothing, so an exception that ends the run comes from the
    conversion. *)
Theorem main_uncaught (args : Namespace) (e : exception) :
  uncaught (main buffer_size pads_year _guess_quote_and_delimiter
              _guess_delimiter args) = Some e ->
  expected_error e /\
  exists csv_format,
    detect_csv_format buffer_size (file args) = Ok csv_format /\
    csv_format <> UNKNOWN.
Proof.
  assert (HF : Forall (fun P => forall e',
                         outcome (convert_x P (file args)) = Raise e' ->
                         expected_error e')
                      (projectors buffer_size pads_year _guess_quote_and_delimiter
                         _guess_delimiter)).
  { apply Forall_forall. intros P HP e' E.
    destruct (convert_raises P (file args) e' HP E)
      as [[-> _] | [[msg ->] | [[msg ->] | [[msg ->] | [msg ->]]]]]; exact I. }
  unfold projectors in HF.
  inversion HF as [|? ? Hcash HF1]; subst. inversion HF1 as [|? ? Hold HF2]; subst.
  inversion HF2 as [|? ? Hnew HF3]; subst. inversion HF3 as [|? ? Hgiro _]; subst.
  cbn [convert_x] in Hcash, Hold, Hnew, Hgiro.
  unfold main.
  destruct (first_line_exists buffer_size (file args)) as [header Hheader].
  rewrite (detect_from_header buffer_size (file args) header Hheader).
  destruct (classify header) eqn:Ec; cbn zeta; unfold converted; cbn [uncaught];
    try discriminate;
    match goal with
    | |- context [outcome ?r] => destruct (outcome r) as [u|e'] eqn:E
    end;
    try discriminate; intros H; injection H as <-;
    (split; [auto | eexists; split; [reflexivity | discriminate]]).
Qed.

Lemma records_blank (d : csv.Dialect) (lines : list str) :
  Forall (fun line => line = [10%N]) lines ->
  csv.records_from d csv.parse_reset lines = (map (fun _ => []) lines, None).
Proof.
  intros H. induction H as [|line lines -> _ IH]; [reflexivity|].
  cbn [csv.records_from map].
  replace (csv.parse_line d csv.parse_reset [10%N])
    with (Ok csv.parse_reset) by reflexivity.
  cbn [csv.st csv.parse_reset csv.state_eqb csv.fields rev].
  now rewrite IH.
Qed.

(** X23: blank lines after the header line add nothing: when every line
    after it is blank (or there is none) the projector ends without
    exception and leaves an empty output file. *)
Theorem blank_lines_convert_to_nothing (P : projector) (file_path : codecs.bytes)
        (reader : csv_dict.DictReader) :
  In P (projectors buffer_size pads_year _guess_quote_and_delimiter _guess_delimiter) ->
  _open_csv buffer_size _guess_quote_and_delimiter _guess_delimiter
    file_path (schema P) (reads P) = Ok reader ->
  Forall (fun line => line = [10%N]) (csv_dict.lines reader) ->
  convert_x P file_path = {| outfile := Some []; outcome := Ok tt |}.
Proof.
  intros HP Hopen Hblank.
  rewrite (convert_x_unfold buffer_size pads_year _guess_quote_and_delimiter
             _guess_delimiter P file_path HP), Hopen.
  cbn [convert]. unfold csv_dict.rows, csv.reader.
  rewrite (records_blank _ _ Hblank).
  assert (Hnone : forall lines : list str,
             filter (fun row : list str => negb (csv_dict.is_blank row))
                    (map (fun _ => []) lines) = []).
  { induction lines as [|l lines IH]; [reflexivity | exact IH]. }
  rewrite Hnone. reflexivity.
Qed.

(** X24: the one file a run writes is the file asked for with [-o], or,
    when no name or an empty one is given, the default of the format:
    [cashHomebank.csv], [giroHomebank.csv], and [visaHomebank.csv] for
    both Visa formats. *)
Theorem main_writes_where_asked (args : Namespace) (path : str)
        (lines : list str) :
  written (main buffer_size pads_year _guess_quote_and_delimiter
             _guess_delimiter args) = Some (path, lines) ->
  exists csv_format default,
    detect_csv_format buffer_size (file args) = Ok csv_format /\
    default_output csv_format = Some default /\
    path = match output_file args with
           | Some (c :: name) => c :: name
           | _ => u8 default
           end.
Proof.
  unfold main.
  destruct (detect_csv_format buffer_size (file args)) as [csv_format|e];
    [|discriminate].
  destruct csv_format; cbn zeta; unfold converted; cbn [written];
    try discriminate;
    match goal with
    | |- context [outfile ?r] => destruct (outfile r); [|discriminate]
    end;
    intros H; injection H as <- _;
    eexists _, _; (split; [reflexivity|]); (split; [reflexivity|]);
    unfold or_default; destruct (output_file args) as [[|c name]|]; reflexivity.
Qed.

End endings.

(** ** The projectors with their output file *)

Section output_file.

Variable buffer_size : positive.
Variable pads_year : bool.
Variable _guess_quote_and_delimiter : csv_dict.quote_guess.
Variable _guess_delimiter : csv_dict.delimiter_guess.
Variable open_w : str -> option string.

(** The projectors with their output file are the four functions of the
    source. *)
Lemma output_projectors :
  map (output.convert_x buffer_size _guess_quote_and_delimiter _guess_delimiter
         open_w)
      (projectors buffer_size pads_year _guess_quote_and_delimiter _guess_delimiter)
  = [output.convert_cash buffer_size pads_year _guess_quote_and_delimiter
       _guess_delimiter open_w;
     output.convert_old_visa buffer_size pads_year _guess_quote_and_delimiter
       _guess_delimiter open_w;
     output.convert_new_visa buffer_size pads_year _guess_quote_and_delimiter
       _guess_delimiter open_w;
     output.convert_giro buffer_size pads_year _guess_quote_and_delimiter
       _guess_delimiter open_w].
Proof. reflexivity. Qed.

(** Unless the output file cannot be opened, a projector ends as it does
    once the file is open. *)
Lemma output_opened (P : projector) (file_path : codecs.bytes) (output_file : str) :
  In P (projectors buffer_size pads_year _guess_quote_and_delimiter _guess_delimiter) ->
  output.convert_x buffer_size _guess_quote_and_delimiter _guess_delimiter open_w
    P file_path output_file
  = convert_x P file_path \/
  exists reader msg,
    _open_csv buffer_size _guess_quote_and_delimiter _guess_delimiter
      file_path (schema P) (reads P) = Ok reader /\
    open_w output_file = Some msg /\
    output.convert_x buffer_size _guess_quote_and_delimiter _guess_delimiter open_w
      P file_path output_file
    = {| outfile := None; outcome := Raise (OSError msg) |}.
Proof.
  intros HP.
  rewrite (convert_x_unfold buffer_size pads_year _guess_quote_and_delimiter
             _guess_delimiter P file_path HP).
  unfold output.convert_x, output.convert.
  destruct (_open_csv _ _ _ file_path (schema P) (reads P)) as [reader|e];
    [|now left].
  destruct (open_w output_file) as [msg|]; [|now left].
  right. now exists reader, msg.
Qed.

Lemma written_lines (P : projector) (rows : list csv_dict.Row) (lines : list str) :
  In P (projectors buffer_size pads_year _guess_quote_and_delimiter _guess_delimiter) ->
  Forall2 (fun row line =>
             (rowdict <- project P row ;;
              csv_dict.DictWriter_writerow DKB homebank_field_names rowdict)
             = Ok line) rows lines ->
  Forall2 (line_of (project P)) rows lines.
Proof.
  intros HP Hall.
  induction Hall as [|row line rows' lines' Hrow _ IH]; constructor; [|exact IH].
  destruct (project P row) as [rowdict|] eqn:Ep; cbn [bind] in Hrow; [|discriminate].
  destruct (projected_record buffer_size pads_year _guess_quote_and_delimiter
              _guess_delimiter P row rowdict HP Ep) as [d [p [pa [m [a ->]]]]].
  rewrite writerow_total in Hrow. injection Hrow as <-.
  now exists d, p, pa, m, a.
Qed.

(** X19: a projector that ends without exception has opened its input and
    its output file, its reader has met no error, and the output file
    holds one line for every row of the reader, in the order of the rows,
    each the eight texts of the record projected from its row. *)
Theorem conversion_succeeds (P : projector) (file_path : codecs.bytes)
        (output_file : str) :
  In P (projectors buffer_size pads_year _guess_quote_and_delimiter _guess_delimiter) ->
  outcome (output.convert_x buffer_size _guess_quote_and_delimiter
             _guess_delimiter open_w P file_path output_file) = Ok tt ->
  exists reader lines,
    _open_csv buffer_size _guess_quote_and_delimiter _guess_delimiter
      file_path (schema P) (reads P) = Ok reader /\
    open_w output_file = None /\
    snd (csv_dict.rows reader) = None /\
    outfile (output.convert_x buffer_size _guess_quote_and_delimiter
               _guess_delimiter open_w P file_path output_file) = Some lines /\
    Forall2 (line_of (project P)) (fst (csv_dict.rows reader)) lines.
Proof.
  intros HP. unfold output.convert_x, output.convert.
  destruct (_open_csv _ _ _ file_path (schema P) (reads P)) as [reader|e];
    [|discriminate].
  destruct (open_w output_file) as [msg|]; [discriminate|].
  cbn [convert]. destruct (csv_dict.rows reader) as [rows stop] eqn:Er. intros Hok.
  destruct (write_rows_complete (project P) rows stop [] Hok) as [-> [lines [Hout Hlen]]].
  exists reader, lines. rewrite Er, Hout. cbn [fst snd app].
  repeat (split; [reflexivity|]).
  apply write_rows_prefix in Hout as [new [Hnew Hall]]. cbn [app] in Hnew.
  subst new. rewrite Hlen, firstn_all in Hall.
  now apply written_lines.
Qed.


End output_file.

Section undecodable.

Variable buffer_size : positive.
Variable pads_year : bool.
Variable _guess_quote_and_delimiter : csv_dict.quote_guess.
Variable _guess_delimiter : csv_dict.delimiter_guess.

Lemma open_csv_undecodable (file_path : codecs.bytes) (field_names : list str)
      (e : exception) :
  codecs.decode codecs.utf_8_sig true file_path = Raise e ->
  _open_csv buffer_size _guess_quote_and_delimiter _guess_delimiter
    file_path field_names codecs.utf_8_sig = Raise UnicodeDecodeError \/
  _open_csv buffer_size _guess_quote_and_delimiter _guess_delimiter
    file_path field_names codecs.utf_8_sig
  = Raise (csv_Error "Could not determine delimiter").
Proof.
  intros Hd. unfold _open_csv, find_transaction_lines, io.readlines.
  cbn [raw encoding].
  destruct (io.read buffer_size codecs.utf_8_sig 1024 file_path) as [sample|e']
    eqn:Er; cbn [bind].
  - destruct (csv_dict.sniff _ _ sample) as [dialect|e'] eqn:Es; cbn [bind].
    + rewrite Hd. cbn [bind].
      rewrite (decode_errors codecs.utf_8_sig true file_path e Hd). now left.
    + rewrite (sniff_errors _ _ sample e' Es). now right.
  - rewrite (read_errors buffer_size codecs.utf_8_sig 1024 file_path e' Er).
    now left.
Qed.

(** X25: a file that is not UTF-8 is never converted as a file of the new
    portal, though the classifier, which falls back to ISO 8859-1, may
    have taken it for one: [convert_new_visa] and [convert_giro] end in a
    [UnicodeDecodeError] (or in the error of the sniffer, when the sample
    could be decoded) before the output file is opened. *)
Theorem undecodable_file_not_converted (file_path : codecs.bytes) (e : exception) :
  codecs.decode codecs.utf_8_sig true file_path = Raise e ->
  Forall (fun convert_x : codecs.bytes -> run =>
            outfile (convert_x file_path) = None /\
            (outcome (convert_x file_path) = Raise UnicodeDecodeError \/
             outcome (convert_x file_path)
             = Raise (csv_Error "Could not determine delimiter")))
         [convert_new_visa buffer_size pads_year _guess_quote_and_delimiter
            _guess_delimiter;
          convert_giro buffer_size pads_year _guess_quote_and_delimiter
            _guess_delimiter].
Proof.
  intros Hd.
  assert (H : forall field_names project,
             let r := convert (_open_csv buffer_size _guess_quote_and_delimiter
                                 _guess_delimiter file_path field_names
                                 codecs.utf_8_sig) project in
             outfile r = None /\
             (outcome r = Raise UnicodeDecodeError \/
              outcome r = Raise (csv_Error "Could not determine delimiter"))).
  { intros field_names project.
    destruct (open_csv_undecodable file_path field_names e Hd) as [-> | ->];
      cbn; auto. }
  constructor; [apply H | constructor; [apply H | constructor]].
Qed.

End undecodable.

(** ** The further properties on the sample files *)

Lemma strip_currency_fixed_sample : strip_currency (u8 "-42,50") = u8 "-42,50".
Proof.
  apply (strip_currency_fixed (u8 "-42,50")); vm_compute; reflexivity.
Defined.

Lemma find_transaction_lines_sound_sample :
  exists preamble header,
    io.readlines codecs.iso_8859_1 sample_cash
    = Ok (preamble ++ header :: sample_data) /\
    Forall (fun line => ~ header_signature line) preamble /\
    header_signature header.
Proof.
  apply (find_transaction_lines_sound
           {| raw := sample_cash; encoding := codecs.iso_8859_1 |} sample_data).
  vm_compute. reflexivity.
Defined.

Lemma find_transaction_lines_errors_sample :
  io.readlines codecs.iso_8859_1 sample_without_header = Raise UnicodeDecodeError /\
  ValueError "Can't convert CSV file without header line" = UnicodeDecodeError \/
  ValueError "Can't convert CSV file without header line"
  = ValueError "Can't convert CSV file without header line" /\
  exists lines,
    io.readlines codecs.iso_8859_1 sample_without_header = Ok lines /\
    Forall (fun line => ~ header_signature line) lines.
Proof.
  apply (find_transaction_lines_errors
           {| raw := sample_without_header; encoding := codecs.iso_8859_1 |}
           (ValueError "Can't convert CSV file without header line")).
  vm_compute. reflexivity.
Defined.

Lemma detect_csv_format_by_signature_sample :
  Forall (fun sig =>
            detect_csv_format sample_buffer_size sample_cash = Ok (snd sig)
            <-> Str.startswith (text "'Kontonummer:';'DE00 / Girokonto';|")
                  (fst sig) = true)
         detection_signatures /\
  (detect_csv_format sample_buffer_size sample_cash = Ok UNKNOWN
   <-> forallb (fun sig =>
                  negb (Str.startswith
                          (text "'Kontonummer:';'DE00 / Girokonto';|") (fst sig)))
               detection_signatures = true).
Proof.
  apply (detect_csv_format_by_signature sample_buffer_size sample_cash
           (text "'Kontonummer:';'DE00 / Girokonto';|")).
  left. vm_compute. reflexivity.
Defined.

Lemma detect_csv_format_of_signature_sample :
  detect_csv_format sample_buffer_size
    (ascii_bytes (quoted "Girokonto") ++ [xfc; x0a])
  = Ok GIRO.
Proof.
  apply (detect_csv_format_of_signature sample_buffer_size (quoted "Girokonto")
           GIRO [xfc; x0a]).
  right. right. left. reflexivity.
Defined.

Lemma convert_date_rejects_trailing_text_sample :
  convert_date false (Some (dd_mm_yyyy 46%N 1 3 2023 ++ [32%N]))
  = Raise (ValueError "unconverted data remains").
Proof.
  apply (convert_date_rejects_trailing_text false 2023 3 1 32%N []); lia.
Defined.

Lemma date_rules_differ_sample :
  convert_short_date false (Some (dd_mm_yyyy 46%N 1 3 2023))
  = Raise (ValueError "unconverted data remains") /\
  convert_date false (Some (dd_mm_yy 46%N 1 3 23))
  = Raise (ValueError "time data does not match format").
Proof.
  apply (date_rules_differ false 2023 23 3 1); lia.
Defined.

Lemma convert_date_sound_sample :
  exists y m d,
    valid_date y m d /\
    u8 "01-03-2023" = date_text 45%N d m (Str.decimal y) /\
    ((1000 <= y)%N -> u8 "01-03-2023" = dd_mm_yyyy 45%N d m y).
Proof.
  apply (convert_date_sound false (Some (u8 "01.03.2023")) (u8 "01-03-2023")).
  vm_compute. reflexivity.
Defined.

Lemma convert_short_date_sound_sample :
  exists yy m d,
    (yy <= 99)%N /\
    (1969 <= century_window yy <= 2068)%N /\
    valid_date (century_window yy) m d /\
    u8 "05-04-2023" = dd_mm_yyyy 45%N d m (century_window yy).
Proof.
  apply (convert_short_date_sound false (Some (u8 "05.04.23")) (u8 "05-04-2023")).
  vm_compute. reflexivity.
Defined.

Lemma convert_date_accepts_calendar_days_sample :
  raises (convert_date false (Some (dd_mm_yyyy 46%N 31 2 2023)))
  <-> ~ valid_date 2023 2 31.
Proof.
  apply (convert_date_accepts_calendar_days false 2023 2 31); lia.
Defined.

Lemma convert_short_date_accepts_calendar_days_sample :
  raises (convert_short_date false (Some (dd_mm_yy 46%N 29 2 69)))
  <-> ~ valid_date (century_window 69) 2 29.
Proof.
  apply (convert_short_date_accepts_calendar_days false 69 2 29); lia.
Defined.

Lemma leading_zeros_optional_sample :
  convert_date false (Some (plain_date_text 46%N 1 3 (pad4 2023)))
  = convert_date false (Some (dd_mm_yyyy 46%N 1 3 2023)) /\
  convert_short_date false (Some (plain_date_text 46%N 1 3 (pad2 23)))
  = convert_short_date false (Some (dd_mm_yy 46%N 1 3 23)).
Proof.
  apply (leading_zeros_optional false 2023 23 3 1); lia.
Defined.

Lemma giro_row_sound_sample :
  exists date recipient iban betrag,
    convert_short_date false (nth_error sample_giro_record 0) = Ok date /\
    nth_error sample_giro_record 4 = Some recipient /\
    nth_error sample_giro_record 7 = Some iban /\
    nth_error sample_giro_record 8 = Some betrag /\
    homebank_record (csv_dict.VStr (u8 "05-04-2023")) (csv_dict.VInt 8)
      (csv_dict.VStr (u8 "Jane Doe DE89370400440532013000"))
      (csv_dict.VStr (u8 "Rent")) (csv_dict.VStr (u8 "-15,00"))
    = homebank_record (csv_dict.VStr date) (csv_dict.VInt 8)
        (csv_dict.VStr (recipient ++ u8 " " ++ iban))
        (csv_dict.of_option (nth_error sample_giro_record 5))
        (csv_dict.VStr (strip_currency betrag)).
Proof.
  apply (giro_row_sound false sample_giro_record
           (homebank_record (csv_dict.VStr (u8 "05-04-2023")) (csv_dict.VInt 8)
              (csv_dict.VStr (u8 "Jane Doe DE89370400440532013000"))
              (csv_dict.VStr (u8 "Rent")) (csv_dict.VStr (u8 "-15,00")))).
  vm_compute. reflexivity.
Defined.

Lemma short_row_raises_sample :
  new_visa_row false
    (csv_dict.bind_row new_visa_field_names [u8 "05.04.23"; u8 "05.04.23"])
  = Raise (AttributeError "'NoneType' object has no attribute 'replace'").
Proof.
  apply (short_row_raises false [u8 "05.04.23"; u8 "05.04.23"] (u8 "05-04-2023")).
  - vm_compute. reflexivity.
  - cbn. lia.
Defined.

Lemma written_line_reads_back_sample :
  csv.reader [text "01-03-2023;8;;'ACME; GmbH';'say ''hi''';-42,50;;|"] DKB
  = ([homebank_texts (csv_dict.VStr (u8 "01-03-2023")) (csv_dict.VInt 8)
        (csv_dict.VStr (u8 "ACME; GmbH")) (csv_dict.VStr (text "say 'hi'"))
        (csv_dict.VStr (u8 "-42,50"))], None).
Proof.
  apply (written_line_reads_back (csv_dict.VStr (u8 "01-03-2023")) (csv_dict.VInt 8)
           (csv_dict.VStr (u8 "ACME; GmbH")) (csv_dict.VStr (text "say 'hi'"))
           (csv_dict.VStr (u8 "-42,50"))
           (text "01-03-2023;8;;'ACME; GmbH';'say ''hi''';-42,50;;|")).
  - repeat constructor; try discriminate; vm_compute; discriminate.
  - vm_compute. reflexivity.
Defined.

Lemma conversion_succeeds_sample :
  exists reader lines,
    _open_csv sample_buffer_size guess_semicolon guess_nothing
      sample_one_row (schema sample_projector) (reads sample_projector)
    = Ok reader /\
    sample_open_w (u8 "cashHomebank.csv") = None /\
    snd (csv_dict.rows reader) = None /\
    outfile (output.convert_x sample_buffer_size guess_semicolon guess_nothing
               sample_open_w sample_projector sample_one_row
               (u8 "cashHomebank.csv")) = Some lines /\
    Forall2 (line_of (project sample_projector)) (fst (csv_dict.rows reader)) lines.
Proof.
  apply (conversion_succeeds sample_buffer_size false guess_semicolon
           guess_nothing sample_open_w sample_projector sample_one_row
           (u8 "cashHomebank.csv")).
  - left. reflexivity.
  - vm_compute. reflexivity.
Defined.

Lemma written_lines_in_order_sample :
  exists reader,
    _open_csv sample_buffer_size guess_semicolon guess_nothing
      sample_cash (schema sample_projector) (reads sample_projector) = Ok reader /\
    Forall2 (line_of (project sample_projector))
            (firstn 1 (fst (csv_dict.rows reader)))
            [u8 "01-03-2023;8;;ACME GmbH;Invoice 123;-42,50;;" ++ [10%N]].
Proof.
  apply (written_lines_in_order sample_buffer_size false guess_semicolon
           guess_nothing sample_projector sample_cash
           [u8 "01-03-2023;8;;ACME GmbH;Invoice 123;-42,50;;" ++ [10%N]]).
  - left. reflexivity.
  - vm_compute. reflexivity.
Defined.


Lemma main_uncaught_sample :
  expected_error (ValueError "day is out of range for month") /\
  exists csv_format,
    detect_csv_format sample_buffer_size (file sample_args) = Ok csv_format /\
    csv_format <> UNKNOWN.
Proof.
  apply (main_uncaught sample_buffer_size false guess_semicolon guess_nothing
           sample_args (ValueError "day is out of range for month")).
  vm_compute. reflexivity.
Defined.

Lemma main_writes_where_asked_sample :
  exists csv_format default,
    detect_csv_format sample_buffer_size (file sample_args) = Ok csv_format /\
    default_output csv_format = Some default /\
    u8 "cashHomebank.csv" = match output_file sample_args with
                            | Some (c :: name) => c :: name
                            | _ => u8 default
                            end.
Proof.
  apply (main_writes_where_asked sample_buffer_size false guess_semicolon
           guess_nothing sample_args (u8 "cashHomebank.csv")
           [u8 "01-03-2023;8;;ACME GmbH;Invoice 123;-42,50;;" ++ [10%N]]).
  vm_compute. reflexivity.
Defined.

Lemma undecodable_file_not_converted_sample :
  Forall (fun convert_x : codecs.bytes -> run =>
            outfile (convert_x sample_undecodable) = None /\
            (outcome (convert_x sample_undecodable) = Raise UnicodeDecodeError \/
             outcome (convert_x sample_undecodable)
             = Raise (csv_Error "Could not determine delimiter")))
         [convert_new_visa sample_buffer_size false guess_semicolon guess_nothing;
          convert_giro sample_buffer_size false guess_semicolon guess_nothing].
Proof.
  apply (undecodable_file_not_converted sample_buffer_size false guess_semicolon
           guess_nothing sample_undecodable UnicodeDecodeError).
  vm_compute. reflexivity.
Defined.

Lemma blank_lines_convert_to_nothing_sample :
  convert_x sample_projector sample_empty_cash
  = {| outfile := Some []; outcome := Ok tt |}.
Proof.
  apply (blank_lines_convert_to_nothing sample_buffer_size false guess_semicolon
           guess_nothing sample_projector sample_empty_cash
           {| csv_dict.lines := [[10%N]; [10%N]];
              csv_dict.dialect := sample_dialect;
              csv_dict.fieldnames := cash_field_names |}).
  - left. reflexivity.
  - vm_compute. reflexivity.
  - repeat constructor.
Defined.
